(** * MLTradingBot: decision and order life-cycle logic

    A shallow embedding of [core/ml_trading_bot.py] (class [MLTradingBot]).

    - A Python [float] is an IEEE 754 binary64 number, embedded as
      [spec_float] at precision 53 with the operations of [SpecFloat]: sums,
      products and quotients are rounded to nearest, ties to even, NaN and
      the infinities included.  [round(x, 8)] goes through the exact value
      of [x]: the nearest multiple of 10^-8, ties to even, then the double
      nearest to that decimal.  A decimal constant such as [0.6] is the
      double nearest to it.
    - The fields of a prediction are decoded JSON values ([pyval]): null,
      booleans, integers, floats, strings and containers, with Python's
      rules for [<] and [float(...)] ([TypeError], [ValueError]).  The
      numbers of the configuration are floats; an integer written in the
      configuration stands for the double of the same value.
    - Instants (clock readings, parsed dates) and the three options read
      through [int(...)] are given by their value, a rational.
    - [self.order_state] is a Python [dict]: insertion ordered, unique keys.
      It is embedded as an association list with the [dict] operations the
      bot uses, because [manage_orders] walks it in insertion order.
    - The exchange client, the prediction endpoint, the clock and the float
      and date formatting routines are the interface [Env]; every call
      threads the external [World].
    - [clients/okx_client.py] (class [OkxClient]) is embedded on its own in
      module [Okx], over decoded JSON values and an HTTP interface.
    - Methods are computations in a state-and-exception monad over the bot
      object; the [trace] field records the logger calls in program order. *)

From Stdlib Require Import List String Ascii ZArith QArith Qround Qabs Bool Lia.
From Stdlib Require Import DecimalString Lqa SpecFloat.
Import ListNotations.
Local Open Scope string_scope.

(** ** Python helpers *)

Definition Qltb (x y : Q) : bool := negb (Qle_bool y x).

(** [int(x)]: truncation toward zero. *)
Definition py_int (x : Q) : Z := Z.quot (Qnum x) (Zpos (Qden x)).

Definition round_half_even (x : Q) : Z :=
  let f := Qfloor x in
  match Qcompare (x - inject_Z f) (1 # 2) with
  | Lt => f
  | Gt => (f + 1)%Z
  | Eq => if Z.even f then f else (f + 1)%Z
  end.

Definition pow10 (n : nat) : Z := Z.pow 10 (Z.of_nat n).

(** ** Binary64 floats *)

Definition float : Type := spec_float.

Definition b64_prec : Z := 53.
Definition b64_emax : Z := 1024.

Definition fadd : float -> float -> float := SFadd b64_prec b64_emax.
Definition fsub : float -> float -> float := SFsub b64_prec b64_emax.
Definition fmul : float -> float -> float := SFmul b64_prec b64_emax.
Definition fdiv : float -> float -> float := SFdiv b64_prec b64_emax.

(** [x < y] on floats: false as soon as one of them is NaN. *)
Definition fltb : float -> float -> bool := SFltb.

(** [x <= y] on floats. *)
Definition fleb : float -> float -> bool := SFleb.

(** The double nearest to the integer [z], ties to even. *)
Definition float_of_Z (z : Z) : float := binary_normalize b64_prec b64_emax z 0 false.

(** The double nearest to [n / d], ties to even, with the sign [neg]. *)
Definition nearest (neg : bool) (n d : positive) : float :=
  let '(m, e, l) := SFdiv_core_binary b64_prec b64_emax (Zpos n) 0 (Zpos d) 0 in
  binary_round_aux b64_prec b64_emax neg m e l.

(** The double nearest to a rational; it is that rational when the
    rational is the value of a double. *)
Definition float_of_Q (q : Q) : float :=
  match Qnum q with
  | Z0 => S754_zero false
  | Zpos n => nearest false n (Qden q)
  | Zneg n => nearest true n (Qden q)
  end.

(** The decimal constant [n * 10^-k], as Python reads it. *)
Definition dec (n : Z) (k : nat) : float := float_of_Q (n # Z.to_pos (pow10 k)).

(** The exact value of [m * 2^e]. *)
Definition magnitude (m : positive) (e : Z) : Q :=
  match e with
  | Zneg p => Zpos m # Pos.pow 2 p
  | _ => inject_Z (Zpos m * 2 ^ e)
  end.

(** [round(x, ndigits)] for a float and a non-negative [ndigits]: NaN, the
    infinities and the zeros round to themselves; otherwise the exact value
    is rounded to [ndigits] decimals, ties to even, the sign is kept, and
    the decimal is read back as the nearest double. *)
Definition py_round (x : float) (ndigits : nat) : float :=
  match x with
  | S754_finite s m e =>
      let p := Z.to_pos (pow10 ndigits) in
      match round_half_even (magnitude m e * inject_Z (Zpos p)) with
      | Zpos n => nearest s n p
      | _ => S754_zero s
      end
  | _ => x
  end.

(** [int(x)] for a float: truncation toward zero; [None] for NaN and the
    infinities, where Python raises. *)
Definition float_trunc (x : float) : option Z :=
  match x with
  | S754_zero _ => Some 0%Z
  | S754_finite s m e =>
      Some (cond_Zopp s (match e with
                         | Zneg p => Z.shiftr (Zpos m) (Zpos p)
                         | _ => Zpos m * 2 ^ e
                         end))%Z
  | _ => None
  end.

(** [x == 0.0] *)
Definition is_zero (x : float) : bool :=
  match x with S754_zero _ => true | _ => false end.

(** [min(a, b)]: the first argument unless the second is strictly smaller. *)
Definition py_min (a b : float) : float := if fltb b a then b else a.

(** The order between an integer and a float, which Python decides on the
    exact values; [None] when the float is NaN. *)
Definition compare_int_float (z : Z) (x : float) : option comparison :=
  match x with
  | S754_nan => None
  | S754_infinity s => Some (if s then Gt else Lt)
  | S754_zero _ => Some (Z.compare z 0)
  | S754_finite s m e =>
      Some (match e with
            | Zneg p => Z.compare (z * 2 ^ Zpos p) (cond_Zopp s (Zpos m))
            | _ => Z.compare z (cond_Zopp s (Zpos m) * 2 ^ e)
            end)
  end.

(** [x <= z] for a float [x] and an integer [z]. *)
Definition float_le_int (x : float) (z : Z) : bool :=
  match compare_int_float z x with
  | Some (Gt | Eq) => true
  | _ => false
  end.

(** [str(n)] for an integer. *)
Definition str_int (z : Z) : string := NilZero.string_of_int (Z.to_int z).

Definition ascii_lower (c : ascii) : ascii :=
  let n := nat_of_ascii c in
  if andb (Nat.leb 65 n) (Nat.leb n 90) then ascii_of_nat (n + 32) else c.

(** [s.lower()] on ASCII text. *)
Fixpoint str_lower (s : string) : string :=
  match s with
  | EmptyString => EmptyString
  | String c s' => String (ascii_lower c) (str_lower s')
  end.

(** [s.replace("Z", "+00:00")]. *)
Fixpoint replace_Z (s : string) : string :=
  match s with
  | EmptyString => EmptyString
  | String c s' =>
      if Ascii.eqb c "Z"%char then "+00:00" ++ replace_Z s'
      else String c (replace_Z s')
  end.

Definition get_or {A : Type} (o : option A) (d : A) : A :=
  match o with Some a => a | None => d end.

(** [int(t * 1000)] for a clock reading [t].  The reading is a double, far
    below the range where the product overflows. *)
Definition clock_ms (t : Q) : Z :=
  get_or (float_trunc (fmul (float_of_Q t) (float_of_Z 1000))) 0%Z.

(** Truth value of an optional string / number ([None], [""] and [0] are false). *)
Definition truthy_str (o : option string) : bool :=
  match o with Some EmptyString | None => false | Some _ => true end.

Definition truthy_num (o : option Q) : bool :=
  match o with Some q => negb (Qeq_bool q 0) | None => false end.

(** [a or b] on optional strings. *)
Definition str_or (a : option string) (b : option string) : option string :=
  if truthy_str a then a else b.

(** [x in xs] where [x] may be [None] and [xs] is a list of strings. *)
Definition py_in (x : option string) (xs : list string) : bool :=
  match x with
  | Some s => existsb (String.eqb s) xs
  | None => false
  end.

(** ** Python dictionaries with string keys *)

Module Dict.
Section Dict.
Context {V : Type}.

Definition t := list (string * V).

Fixpoint get (k : string) (d : t) : option V :=
  match d with
  | [] => None
  | (k', v) :: d' => if String.eqb k k' then Some v else get k d'
  end.

Definition contains (k : string) (d : t) : bool :=
  match get k d with Some _ => true | None => false end.

(** [d[k] = v]: in place when the key exists, appended otherwise. *)
Fixpoint set (k : string) (v : V) (d : t) : t :=
  match d with
  | [] => [(k, v)]
  | (k', v') :: d' =>
      if String.eqb k k' then (k', v) :: d' else (k', v') :: set k v d'
  end.

(** [d.pop(k, None)], result dropped. *)
Fixpoint pop (k : string) (d : t) : t :=
  match d with
  | [] => []
  | (k', v') :: d' =>
      if String.eqb k k' then d' else (k', v') :: pop k d'
  end.

Definition keys (d : t) : list string := map fst d.
Definition values (d : t) : list V := map snd d.
Definition items (d : t) : list (string * V) := d.

(** The keys of a dictionary are pairwise distinct. *)
Definition wf (d : t) : Prop := NoDup (keys d).
End Dict.
Arguments t : clear implicits.
End Dict.

(** ** Data *)

(** A decoded JSON value, as [resp.json()] returns it. *)
Inductive pyval :=
| VNone
| VBool (b : bool)
| VInt (z : Z)
| VFloat (x : float)
| VStr (s : string)
| VObj.

(** The prediction returned by the ML endpoint (a JSON object); [None] is an
    absent key.  [VObj] stands for a list or a dict. *)
Record Prediction := {
  signal : option string;
  confidence : option pyval;
  profit_after_fee : option pyval;
  current_price : option pyval;
  expected_price : option pyval;
  predicted_return : option pyval;
  updated_at : option string;
  other_keys : list string
}.

(** [bool(pred)]: a dict is false exactly when it has no key. *)
Definition pred_truthy (p : Prediction) : bool :=
  match signal p, confidence p, profit_after_fee p, current_price p,
        expected_price p, predicted_return p, updated_at p, other_keys p with
  | None, None, None, None, None, None, None, [] => false
  | _, _, _, _, _, _, _, _ => true
  end.

Record PositionSize := {
  mode : option string;
  percent_of_balance : option float;
  fixed_size : option float
}.

Record Risk := {
  max_exposure_usd : option float;
  max_open_positions : option Q
}.

Record OrderManagement := {
  cancel_if_unfilled_after_sec : option Q;
  monitor_open_orders_every_sec : option Q
}.

Record ExitCfg := {
  take_profit_pct : option Q;
  stop_loss_pct : option Q
}.

(** [config["strategy"]]; [None] is an absent key. *)
Record Strategy := {
  dry_run : option bool;
  signal_whitelist : option (list string);
  min_confidence : option float;
  min_profit_after_fee : option float;
  use_expected_price : option bool;
  limit_price_slippage : option float;
  position_size : option PositionSize;
  risk : option Risk;
  order_type : option string;
  order_management : option OrderManagement;
  exit : option ExitCfg
}.

Record Config := {
  symbol : string;
  poll_interval : Q;
  strategy : Strategy
}.

Definition empty_position_size : PositionSize := Build_PositionSize None None None.
Definition empty_risk : Risk := Build_Risk None None.
Definition empty_order_management : OrderManagement := Build_OrderManagement None None.
Definition empty_exit : ExitCfg := Build_ExitCfg None None.

(** Order metadata: a dict of strings, as built in [place_order]. *)
Abbreviation Meta := (Dict.t string).
Abbreviation Ledger := (Dict.t Meta).

(** Fields of the exchange's acknowledgements that the bot reads. *)
Record PlaceResp := {
  r_ordId : option string;
  r_ord_id : option string;
  r_clOrdId : option string;
  r_instId : option string;
  r_fillPx : option string;
  r_sz : option string;
  r_state : option string
}.

Record CancelResp := {
  c_sCode : option string;
  c_state : option string;
  c_ordId : option string
}.

Inductive exn :=
| KeyError (key : string)
| ValueError (msg : string)
| TypeError (msg : string)
| OverflowError
| ZeroDivisionError
| GatewayError (msg : string).

Inductive result (A : Type) :=
| Ret (a : A)
| Raise (e : exn).
Arguments Ret {A} a.
Arguments Raise {A} e.

(** The order between a decoded value and a float, as Python's comparison
    operators see it: numbers are compared by value ([None] when one of
    them is NaN), a boolean counts as 0 or 1, and anything else raises
    [TypeError]. *)
Definition py_compare (v : pyval) (y : float) : result (option comparison) :=
  match v with
  | VFloat x => Ret (SFcompare x y)
  | VInt z => Ret (compare_int_float z y)
  | VBool b => Ret (compare_int_float (Z.b2z b) y)
  | _ => Raise (TypeError "'<' not supported")
  end.

(** [v < y] *)
Definition py_lt (v : pyval) (y : float) : result bool :=
  match py_compare v y with
  | Ret (Some Lt) => Ret true
  | Ret _ => Ret false
  | Raise e => Raise e
  end.

(** [v >= y] *)
Definition py_ge (v : pyval) (y : float) : result bool :=
  match py_compare v y with
  | Ret (Some (Gt | Eq)) => Ret true
  | Ret _ => Ret false
  | Raise e => Raise e
  end.

Inductive Level := DEBUG | INFO | WARNING | ERROR.

Inductive LogMsg :=
| MsgFetchError (e : exn)
| MsgNotWhitelisted (sig : option string)
| MsgLowConfidence (c : option pyval)
| MsgLowProfit (p : option pyval)
| MsgBalance (balance pct allocated size : float)
| MsgPlacing (side sym : string) (price size : float) (otype : string) (dry : bool)
| MsgPlaceError (e : exn)
| MsgCancel (order_id : string) (dry : bool)
| MsgCancelError (e : exn)
| MsgUnsupportedSignal (sig : option string)
| MsgRejected (sig : option string)
| MsgZeroSize
| MsgMaxOpen (open_count : nat)
| MsgOrderPlaced (meta : Meta)
| MsgTpSl (tp sl : option Q)
| MsgTimeout (ord_id : string) (cancel_after : Z)
| MsgPrediction (p : Prediction)
| MsgStarted (dry : bool)
| MsgUnexpected (e : exn).

(** Observable events, in program order.  [Log] is a call of [self.log];
    [EnterManageOrders] marks the entry into [manage_orders], which has no
    log statement of its own. *)
Inductive Event :=
| Log (lvl : Level) (m : LogMsg)
| EnterManageOrders.

(** ** External collaborators *)

Class Env := {
  World : Type;
  (** [time.time()]: the reading, a double, given by its value *)
  time_time : World -> Q * World;
  (** [utils.now_iso()] *)
  now_iso : World -> string * World;
  (** [time.sleep(seconds)] *)
  time_sleep : Q -> World -> World;
  (** [datetime.fromisoformat(s).timestamp()]; [None] when it raises *)
  fromisoformat_timestamp : string -> option Q;
  (** [str(x)] for a float *)
  str_float : float -> string;
  (** [float(s)] for a string; [None] when it raises [ValueError] *)
  float_str : string -> option float;
  (** [requests.get(...)], [raise_for_status()], [json()] *)
  http_get_prediction : string -> World -> result Prediction * World;
  (** [OkxClient.get_account_balance] *)
  okx_get_account_balance : string -> World -> result float * World;
  (** [OkxClient.place_order] *)
  okx_place_order : string -> string -> float -> float -> string -> World
                    -> result PlaceResp * World;
  (** [OkxClient.cancel_order] *)
  okx_cancel_order : string -> string -> World -> result CancelResp * World
}.

(** ** The bot object and its monad *)

Section Bot.
Context {E : Env}.

(** The mutable part of [self], together with the outside world. *)
Record Bot := {
  world : World;
  order_state : Ledger;
  trace : list Event
}.

(** A method body: it may update the bot and may raise. *)
Definition M (A : Type) : Type := Bot -> result A * Bot.

Definition ret {A : Type} (a : A) : M A := fun s => (Ret a, s).

Definition raise {A : Type} (e : exn) : M A := fun s => (Raise e, s).

Definition bind {A B : Type} (m : M A) (k : A -> M B) : M B :=
  fun s =>
    match m s with
    | (Ret a, s') => k a s'
    | (Raise e, s') => (Raise e, s')
    end.

(** [try: m except Exception as e: h e] *)
Definition try_except {A : Type} (m : M A) (h : exn -> M A) : M A :=
  fun s =>
    match m s with
    | (Ret a, s') => (Ret a, s')
    | (Raise e, s') => h e s'
    end.

Definition emit (ev : Event) : M unit :=
  fun s => (Ret tt, {| world := world s; order_state := order_state s;
                       trace := trace s ++ [ev] |}).

Definition log (lvl : Level) (m : LogMsg) : M unit := emit (Log lvl m).

Definition get_ledger : M Ledger := fun s => (Ret (order_state s), s).

Definition set_ledger (l : Ledger) : M unit :=
  fun s => (Ret tt, {| world := world s; order_state := l; trace := trace s |}).

(** A call that reads or advances the world and cannot fail. *)
Definition lift_world {A : Type} (f : World -> A * World) : M A :=
  fun s =>
    let (a, w) := f (world s) in
    (Ret a, {| world := w; order_state := order_state s; trace := trace s |}).

(** A call into a collaborator that may raise. *)
Definition lift_call {A : Type} (f : World -> result A * World) : M A :=
  fun s =>
    let (r, w) := f (world s) in
    (r, {| world := w; order_state := order_state s; trace := trace s |}).

(** A computation on values that may raise. *)
Definition lift_result {A : Type} (r : result A) : M A := fun s => (r, s).

(** [float(v)] *)
Definition py_float (v : pyval) : result float :=
  match v with
  | VFloat x => Ret x
  | VInt z =>
      match float_of_Z z with
      | S754_infinity _ => Raise OverflowError
      | x => Ret x
      end
  | VBool b => Ret (float_of_Z (Z.b2z b))
  | VStr s =>
      match float_str s with
      | Some x => Ret x
      | None => Raise (ValueError "could not convert string to float")
      end
  | _ => Raise (TypeError "float() argument must be a string or a real number")
  end.

Fixpoint for_each {A : Type} (f : A -> M unit) (l : list A) : M unit :=
  match l with
  | [] => ret tt
  | x :: l' => bind (f x) (fun _ => for_each f l')
  end.

End Bot.

Declare Scope bot_scope.
Delimit Scope bot_scope with bot.
Notation "x <- m ;; k" := (bind m (fun x => k))
  (at level 61, m at next level, right associativity) : bot_scope.
Notation "m ;; k" := (bind m (fun _ => k))
  (at level 61, right associativity) : bot_scope.
Local Open Scope bot_scope.

(** ** Methods of [MLTradingBot] *)

Section Methods.
Context {E : Env}.
Variable cfg : Config.

(** [self.dry_run = self.strategy.get("dry_run", True)] *)
Definition self_dry_run : bool := get_or (dry_run (strategy cfg)) true.

Definition fetch_prediction : M (option Prediction) :=
  try_except
    (data <- lift_call (http_get_prediction (symbol cfg)) ;;
     ret (Some data))
    (fun e => log ERROR (MsgFetchError e) ;; ret None).

Definition should_trade (pred : Prediction) : M bool :=
  let sig := signal pred in
  if negb (py_in sig (get_or (signal_whitelist (strategy cfg)) ["buy"; "sell"])) then
    log DEBUG (MsgNotWhitelisted sig) ;; ret false
  else
    low <- lift_result (py_lt (get_or (confidence pred) (VInt 0))
                              (get_or (min_confidence (strategy cfg)) (dec 6 1))) ;;
    if low then
      log DEBUG (MsgLowConfidence (confidence pred)) ;; ret false
    else
      small <- lift_result (py_lt (get_or (profit_after_fee pred) (VInt 0))
                                  (get_or (min_profit_after_fee (strategy cfg))
                                          (S754_zero false))) ;;
      if small then
        log DEBUG (MsgLowProfit (profit_after_fee pred)) ;; ret false
      else ret true.

Definition calc_limit_price (pred : Prediction) (side : string) : M float :=
  match current_price pred with
  | None => raise (KeyError "current_price")
  | Some v =>
      cur <- lift_result (py_float v) ;;
      expected <- match expected_price pred with
                  | Some v' => lift_result (py_float v')
                  | None => ret cur
                  end ;;
      let use_expected := get_or (use_expected_price (strategy cfg)) true in
      let base := if use_expected then expected else cur in
      let slippage := get_or (limit_price_slippage (strategy cfg)) (dec 1 3) in
      let price :=
        if String.eqb (str_lower side) "buy" then
          if fltb cur base then fmul base (fadd (float_of_Z 1) slippage) else base
        else
          if fltb base cur then fmul base (fsub (float_of_Z 1) slippage) else base in
      ret (py_round price 8)
  end.

Definition calc_size (pred : Prediction) (price : float) : M float :=
  let pos_cfg := get_or (position_size (strategy cfg)) empty_position_size in
  let md := get_or (mode pos_cfg) "percent" in
  if String.eqb md "percent" then
    let pct := get_or (percent_of_balance pos_cfg) (dec 1 2) in
    balance <- lift_call (okx_get_account_balance "USDT") ;;
    let max_exposure :=
      get_or (max_exposure_usd (get_or (risk (strategy cfg)) empty_risk))
             (float_of_Z 1000000000) in
    let allocated_usd := py_min (fmul balance pct) max_exposure in
    if is_zero price then raise ZeroDivisionError
    else
      let size := fdiv allocated_usd price in
      log DEBUG (MsgBalance balance pct allocated_usd size) ;;
      ret (py_round size 8)
  else if String.eqb md "fixed" then
    ret (py_round (get_or (fixed_size pos_cfg) (S754_zero false)) 8)
  else raise (ValueError "Unknown position size mode").

Definition place_order (sym side : string) (price size : float) (otype : string)
  : M (option Meta) :=
  log INFO (MsgPlacing side sym price size otype self_dry_run) ;;
  if self_dry_run then
    t <- lift_world time_time ;;
    let fake_id := "dry_" ++ str_int (clock_ms t) in
    created <- lift_world now_iso ;;
    let meta : Meta :=
      [("ordId", fake_id); ("instId", sym); ("side", side);
       ("px", str_float price); ("sz", str_float size); ("ordType", otype);
       ("state", "live"); ("created_at", created)] in
    ledger <- get_ledger ;;
    set_ledger (Dict.set fake_id meta ledger) ;;
    ret (Some meta)
  else
    try_except
      (resp <- lift_call (okx_place_order sym side price size otype) ;;
       ord_id <- match str_or (r_ordId resp) (str_or (r_ord_id resp) (r_clOrdId resp)) with
                 | Some s => if truthy_str (Some s) then ret s
                             else (t <- lift_world time_time ;;
                                   ret (str_float (float_of_Q t)))
                 | None => t <- lift_world time_time ;; ret (str_float (float_of_Q t))
                 end ;;
       created <- lift_world now_iso ;;
       let meta : Meta :=
         [("ordId", ord_id); ("instId", get_or (r_instId resp) sym); ("side", side);
          ("px", get_or (str_or (r_fillPx resp) None) (str_float price));
          ("sz", get_or (str_or (r_sz resp) None) (str_float size));
          ("state", get_or (r_state resp) "live"); ("created_at", created)] in
       ledger <- get_ledger ;;
       set_ledger (Dict.set ord_id meta ledger) ;;
       ret (Some meta))
      (fun e => log ERROR (MsgPlaceError e) ;; ret None).

(** The acknowledgement [{"ordId": order_id, "state": "canceled"}]. *)
Definition canceled_ack (order_id : string) : CancelResp :=
  {| c_sCode := None; c_state := Some "canceled"; c_ordId := Some order_id |}.

Definition opt_str_eqb (o : option string) (s : string) : bool :=
  match o with Some x => String.eqb x s | None => false end.

(** The test of line 155 on the exchange's answer. *)
Definition cancel_confirmed (resp : CancelResp) : bool :=
  String.eqb (get_or (c_sCode resp) "0") "0"
  || opt_str_eqb (c_state resp) "canceled"
  || truthy_str (c_ordId resp).

Definition cancel_order (sym order_id : string) : M (option CancelResp) :=
  log INFO (MsgCancel order_id self_dry_run) ;;
  if self_dry_run then
    ledger <- get_ledger ;;
    match Dict.get order_id ledger with
    | Some meta =>
        set_ledger (Dict.set order_id (Dict.set "state" "canceled" meta) ledger)
    | None => ret tt
    end ;;
    ret (Some (canceled_ack order_id))
  else
    try_except
      (resp <- lift_call (okx_cancel_order sym order_id) ;;
       (if cancel_confirmed resp then
          ledger <- get_ledger ;; set_ledger (Dict.pop order_id ledger)
        else ret tt) ;;
       ret (Some resp))
      (fun e => log ERROR (MsgCancelError e) ;; ret None).

Definition is_live (o : Meta) : bool := opt_str_eqb (Dict.get "state" o) "live".

(** [sum(1 for o in self.order_state.values() if o.get("state") == "live")] *)
Definition open_count (l : Ledger) : nat :=
  List.length (filter is_live (Dict.values l)).

Definition self_max_open_positions : Z :=
  py_int (get_or (max_open_positions (get_or (risk (strategy cfg)) empty_risk))
                 (inject_Z 10)).

Definition process_prediction (pred : Prediction) : M unit :=
  let sig := signal pred in
  let side := if opt_str_eqb sig "buy" then Some "buy"
              else if opt_str_eqb sig "sell" then Some "sell" else None in
  match side with
  | None => log DEBUG (MsgUnsupportedSignal sig)
  | Some side =>
      ok <- should_trade pred ;;
      if negb ok then log INFO (MsgRejected sig)
      else
        limit_price <- calc_limit_price pred side ;;
        size <- calc_size pred limit_price ;;
        if float_le_int size 0 then log WARNING MsgZeroSize
        else
          ledger <- get_ledger ;;
          let n := open_count ledger in
          if Z.geb (Z.of_nat n) self_max_open_positions then log INFO (MsgMaxOpen n)
          else
            let otype := get_or (order_type (strategy cfg)) "limit" in
            placed <- place_order (symbol cfg) side limit_price size otype ;;
            match placed with
            | Some meta =>
                log INFO (MsgOrderPlaced meta) ;;
                let ex := get_or (exit (strategy cfg)) empty_exit in
                let tp := take_profit_pct ex in
                let sl := stop_loss_pct ex in
                if truthy_num tp || truthy_num sl then log DEBUG (MsgTpSl tp sl)
                else ret tt
            | None => ret tt
            end
  end.

Definition self_cancel_after : Z :=
  py_int (get_or (cancel_if_unfilled_after_sec
                    (get_or (order_management (strategy cfg)) empty_order_management))
                 (inject_Z 120)).

(** The body of the [for] loop of [manage_orders] for one item of
    [list(self.order_state.items())].  [meta] is the object the ledger held
    under [ord_id] when the list was taken.  [place_order] builds a fresh
    dict for every order, so no two keys share a record, and the body run
    for one key writes that key only: the record read from the list is the
    record the ledger holds when its turn comes. *)
Definition manage_entry (now_ts : Q) (cancel_after : Z) (it : string * Meta) : M unit :=
  let (ord_id, meta) := it in
  if negb (is_live meta) then ret tt
  else
    let created_at := Dict.get "created_at" meta in
    if truthy_str created_at then
      let created_ts :=
        match fromisoformat_timestamp (replace_Z (get_or created_at "")) with
        | Some ts => ts
        | None => now_ts
        end in
      if Qltb (inject_Z cancel_after) (now_ts - created_ts) then
        log INFO (MsgTimeout ord_id cancel_after) ;;
        cancel_order (symbol cfg) ord_id ;;
        ret tt
      else ret tt
    else ret tt.

Definition manage_orders : M unit :=
  emit EnterManageOrders ;;
  now_ts <- lift_world time_time ;;
  let cancel_after := self_cancel_after in
  ledger <- get_ledger ;;
  for_each (manage_entry now_ts cancel_after) (Dict.items ledger).

Definition run_once : M unit :=
  pred <- fetch_prediction ;;
  match pred with
  | None => ret tt
  | Some p =>
      if negb (pred_truthy p) then ret tt
      else
        log INFO (MsgPrediction p) ;;
        process_prediction p ;;
        manage_orders
  end.

Definition self_manage_interval : Z :=
  py_int (get_or (monitor_open_orders_every_sec
                    (get_or (order_management (strategy cfg)) empty_order_management))
                 (inject_Z 15)).

(** One pass through the body of [while True] in [run_loop]; the result is
    the new value of [last_manage]. *)
Definition run_loop_body (manage_interval : Z) (last_manage : Q) : M Q :=
  run_once ;;
  t <- lift_world time_time ;;
  last' <- (if Qltb (inject_Z manage_interval) (t - last_manage) then
              manage_orders ;;
              lift_world time_time
            else ret last_manage) ;;
  lift_world (fun w => (tt, time_sleep (poll_interval cfg) w)) ;;
  ret last'.

(** The first [fuel] passes of the loop. *)
Fixpoint run_loop_from (manage_interval : Z) (fuel : nat) (last_manage : Q) : M unit :=
  match fuel with
  | O => ret tt
  | S n =>
      last' <- run_loop_body manage_interval last_manage ;;
      run_loop_from manage_interval n last'
  end.

Definition run_loop (fuel : nat) : M unit :=
  log INFO (MsgStarted self_dry_run) ;;
  try_except
    (run_loop_from self_manage_interval fuel 0)
    (fun e => log ERROR (MsgUnexpected e)).

End Methods.

(** ** A scripted environment

    A test double of the collaborators: every call consumes the next
    scripted answer.  It instantiates the general results below at concrete
    runs of the bot. *)

Module Script.

Record W := {
  clock : list Q;
  iso : list string;
  predictions : list (result Prediction);
  balance : result float;
  place_replies : list (result PlaceResp);
  cancel_replies : list (result CancelResp)
}.

Definition tick (w : W) : Q * W :=
  match clock w with
  | [] => (0, w)
  | t :: rest =>
      (t, {| clock := rest; iso := iso w; predictions := predictions w;
             balance := balance w; place_replies := place_replies w;
             cancel_replies := cancel_replies w |})
  end.

Definition stamp (w : W) : string * W :=
  match iso w with
  | [] => ("", w)
  | s :: rest =>
      (s, {| clock := clock w; iso := rest; predictions := predictions w;
             balance := balance w; place_replies := place_replies w;
             cancel_replies := cancel_replies w |})
  end.

Definition fetch (_ : string) (w : W) : result Prediction * W :=
  match predictions w with
  | [] => (Raise (GatewayError "timeout"), w)
  | p :: rest =>
      (p, {| clock := clock w; iso := iso w; predictions := rest;
             balance := balance w; place_replies := place_replies w;
             cancel_replies := cancel_replies w |})
  end.

Definition balance_of (_ : string) (w : W) : result float * W := (balance w, w).

Definition place (_ _ : string) (_ _ : float) (_ : string) (w : W)
  : result PlaceResp * W :=
  match place_replies w with
  | [] => (Raise (GatewayError "timeout"), w)
  | r :: rest =>
      (r, {| clock := clock w; iso := iso w; predictions := predictions w;
             balance := balance w; place_replies := rest;
             cancel_replies := cancel_replies w |})
  end.

Definition cancel (_ _ : string) (w : W) : result CancelResp * W :=
  match cancel_replies w with
  | [] => (Raise (GatewayError "timeout"), w)
  | r :: rest =>
      (r, {| clock := clock w; iso := iso w; predictions := predictions w;
             balance := balance w; place_replies := place_replies w;
             cancel_replies := rest |})
  end.

(** Two instants, [t0] and [t0 + 130 s], with their ISO spelling. *)
Definition t0 : Q := inject_Z 1700000000.
Definition iso_t0 : string := "2023-11-14T22:13:20+00:00".
Definition iso_t130 : string := "2023-11-14T22:15:30+00:00".

Definition parse_iso (s : string) : option Q :=
  if String.eqb s iso_t0 then Some t0
  else if String.eqb s iso_t130 then Some (t0 + inject_Z 130)
  else None.

(** Only the integral part is printed. *)
Definition print_float (x : float) : string :=
  str_int (get_or (float_trunc x) 0%Z) ++ ".0".

(** The numerals this environment reads. *)
Definition read_float (s : string) : option float :=
  if String.eqb s "100.0" then Some (float_of_Z 100)
  else if String.eqb s "nan" then Some S754_nan
  else None.

#[export] Instance env : Env := {|
  World := W;
  time_time := tick;
  now_iso := stamp;
  time_sleep := fun _ w => w;
  fromisoformat_timestamp := parse_iso;
  str_float := print_float;
  float_str := read_float;
  http_get_prediction := fetch;
  okx_get_account_balance := balance_of;
  okx_place_order := place;
  okx_cancel_order := cancel
|}.

Definition quiet : W :=
  {| clock := [t0]; iso := [iso_t0]; predictions := [];
     balance := Ret (float_of_Z 100); place_replies := []; cancel_replies := [] |}.

Definition bot0 (w : W) (l : Ledger) : Bot :=
  {| world := w; order_state := l; trace := [] |}.

Definition no_strategy : Strategy :=
  {| dry_run := None; signal_whitelist := None; min_confidence := None;
     min_profit_after_fee := None; use_expected_price := None;
     limit_price_slippage := None; position_size := None; risk := None;
     order_type := None; order_management := None; exit := None |}.

(** The configuration with every strategy option left to its default. *)
Definition cfg0 : Config :=
  {| symbol := "BTC-USDT"; poll_interval := inject_Z 10; strategy := no_strategy |}.

(** The prediction of the specification's scenario. *)
Definition pred_buy (conf : Q) : Prediction :=
  {| signal := Some "buy"; confidence := Some (VFloat (float_of_Q conf));
     profit_after_fee := Some (VFloat (dec 2 3));
     current_price := Some (VFloat (float_of_Z 100));
     expected_price := Some (VFloat (float_of_Z 102)); predicted_return := None;
     updated_at := None; other_keys := [] |}.

(** A prediction whose confidence is the JSON literal [NaN]. *)
Definition pred_nan : Prediction :=
  {| signal := Some "buy"; confidence := Some (VFloat S754_nan);
     profit_after_fee := Some (VFloat (dec 2 3));
     current_price := Some (VFloat (float_of_Z 100));
     expected_price := Some (VFloat (float_of_Z 102)); predicted_return := None;
     updated_at := None; other_keys := [] |}.

Definition live_meta (id created : string) : Meta :=
  [("ordId", id); ("instId", "BTC-USDT"); ("side", "buy"); ("px", "100.0");
   ("sz", "1.0"); ("ordType", "limit"); ("state", "live"); ("created_at", created)].

Definition canceled_meta (id created : string) : Meta :=
  Dict.set "state" "canceled" (live_meta id created).

(** At most one open position. *)
Definition cfg_one_position : Config :=
  {| symbol := "BTC-USDT"; poll_interval := inject_Z 10;
     strategy :=
       {| dry_run := None; signal_whitelist := None; min_confidence := None;
          min_profit_after_fee := None; use_expected_price := None;
          limit_price_slippage := None; position_size := None;
          risk := Some {| max_exposure_usd := None;
                          max_open_positions := Some (inject_Z 1) |};
          order_type := None; order_management := None; exit := None |} |}.

(** Trading for real. *)
Definition cfg_live : Config :=
  {| symbol := "BTC-USDT"; poll_interval := inject_Z 10;
     strategy :=
       {| dry_run := Some false; signal_whitelist := None; min_confidence := None;
          min_profit_after_fee := None; use_expected_price := None;
          limit_price_slippage := None; position_size := None; risk := None;
          order_type := None; order_management := None; exit := None |} |}.

(** A configuration with the given order management, every other option at
    its default. *)
Definition cfg_managed (dry : option bool) (om : OrderManagement) : Config :=
  {| symbol := "BTC-USDT"; poll_interval := inject_Z 10;
     strategy :=
       {| dry_run := dry; signal_whitelist := None; min_confidence := None;
          min_profit_after_fee := None; use_expected_price := None;
          limit_price_slippage := None; position_size := None; risk := None;
          order_type := None; order_management := Some om; exit := None |} |}.

Definition one_live : Ledger := [("dry_1", live_meta "dry_1" iso_t0)].

(** A live order whose creation date is not an ISO date. *)
Definition one_misdated : Ledger := [("dry_1", live_meta "dry_1" "yesterday")].
Definition one_canceled : Ledger := [("dry_1", canceled_meta "dry_1" iso_t0)].

(** The clock reads [t0 + 130 s]. *)
Definition later : W :=
  {| clock := [t0 + inject_Z 130]; iso := [iso_t0]; predictions := [];
     balance := Ret (float_of_Z 100); place_replies := []; cancel_replies := [] |}.

(** The clock reads [t0 + 130 s] and the exchange confirms the next
    cancellation. *)
Definition later_confirming : W :=
  {| clock := [t0 + inject_Z 130]; iso := [iso_t0]; predictions := [];
     balance := Ret (float_of_Z 100); place_replies := [];
     cancel_replies := [Ret {| c_sCode := Some "0"; c_state := None;
                               c_ordId := Some "dry_1" |}] |}.

(** A live order without creation date. *)
Definition undated_meta (id : string) : Meta :=
  [("ordId", id); ("instId", "BTC-USDT"); ("side", "buy"); ("px", "100.0");
   ("sz", "1.0"); ("state", "live")].

Definition one_undated : Ledger := [("77", undated_meta "77")].

Definition pred_hold : Prediction :=
  {| signal := Some "hold"; confidence := Some (VFloat (dec 5 1));
     profit_after_fee := Some (VInt 0); current_price := Some (VInt 100);
     expected_price := None; predicted_return := None;
     updated_at := None; other_keys := [] |}.

(** One prediction to fetch; every clock reading is [t0 + 5 s]. *)
Definition polling : W :=
  {| clock := [t0 + inject_Z 5; t0 + inject_Z 5; t0 + inject_Z 5];
     iso := [iso_t0]; predictions := [Ret pred_hold];
     balance := Ret (float_of_Z 100); place_replies := []; cancel_replies := [] |}.

(** A configuration with the given dry-run flag and position sizing, every
    other option at its default. *)
Definition cfg_sized (dry : option bool) (ps : PositionSize) : Config :=
  {| symbol := "BTC-USDT"; poll_interval := inject_Z 10;
     strategy :=
       {| dry_run := dry; signal_whitelist := None; min_confidence := None;
          min_profit_after_fee := None; use_expected_price := None;
          limit_price_slippage := None; position_size := Some ps; risk := None;
          order_type := None; order_management := None; exit := None |} |}.

Definition sizing (m : option string) (fixed : option float) : PositionSize :=
  {| mode := m; percent_of_balance := None; fixed_size := fixed |}.

(** The balance query fails. *)
Definition no_balance : W :=
  {| clock := [t0]; iso := [iso_t0]; predictions := [];
     balance := Raise (GatewayError "timeout"); place_replies := [];
     cancel_replies := [] |}.

(** An account with one millionth of a dollar. *)
Definition dust : W :=
  {| clock := [t0]; iso := [iso_t0]; predictions := [];
     balance := Ret (dec 1 6); place_replies := []; cancel_replies := [] |}.

(** A qualifying prediction that lacks the current price. *)
Definition pred_no_price : Prediction :=
  {| signal := Some "buy"; confidence := Some (VFloat (dec 8 1));
     profit_after_fee := Some (VFloat (dec 2 3)); current_price := None;
     expected_price := Some (VInt 102); predicted_return := None;
     updated_at := None; other_keys := [] |}.

(** The clock reads [t0 + 120 s]: an order created at [t0] is exactly as
    old as the default timeout. *)
Definition at_timeout : W :=
  {| clock := [t0 + inject_Z 120]; iso := [iso_t0]; predictions := [];
     balance := Ret (float_of_Z 100); place_replies := []; cancel_replies := [] |}.

(** The exchange refuses a cancellation with an error code, echoing the
    order identifier. *)
Definition refusal : CancelResp :=
  {| c_sCode := Some "51400"; c_state := None; c_ordId := Some "dry_1" |}.

Definition refusing : W :=
  {| clock := [t0]; iso := [iso_t0]; predictions := [];
     balance := Ret (float_of_Z 100); place_replies := [];
     cancel_replies := [Ret refusal] |}.

(** The endpoint serves a prediction without current price. *)
Definition bad_feed : W :=
  {| clock := [t0]; iso := [iso_t0]; predictions := [Ret pred_no_price];
     balance := Ret (float_of_Z 100); place_replies := []; cancel_replies := [] |}.

End Script.

(** ** The exchange client, [clients/okx_client.py]

    JSON values are embedded with their Python behaviour: [.get] exists on
    objects only, [for] walks arrays, strings and object keys, [v[0]] and
    [float(v)] fail on the wrong kind of value.  The HTTP round trip
    ([requests], [raise_for_status], [json()]), the wall clock, HMAC-SHA256
    with base64, [json.dumps] and the conversions between text and floats
    are the interface [Okx.Http].  The client computes nothing with
    numbers, it only converts them: a number is carried by its value. *)

Module Okx.

#[local] Unset Elimination Schemes.
Inductive json :=
| JNull
| JBool (b : bool)
| JNum (q : Q)
| JStr (s : string)
| JArr (items : list json)
| JObj (fields : list (string * json)).
#[local] Set Elimination Schemes.

Inductive error :=
| HttpError (msg : string)
| ApiError (data : json)
| AttributeError
| TypeError
| ValueError
| IndexError
| KeyError.

Inductive outcome (A : Type) :=
| Ok (a : A)
| Err (e : error).
Arguments Ok {A} a.
Arguments Err {A} e.

Definition headers := list (string * string).

Class Http := {
  Net : Type;
  (** [requests.get(url, headers=...)], [raise_for_status()], [json()] *)
  http_get : string -> option headers -> Net -> outcome json * Net;
  (** [requests.post(url, headers=..., json=body)], [raise_for_status()], [json()] *)
  http_post : string -> headers -> json -> Net -> outcome json * Net;
  (** [datetime.utcnow().isoformat(timespec='milliseconds')] *)
  utcnow_iso_ms : Net -> string * Net;
  (** [base64.b64encode(hmac.new(key, msg, sha256).digest()).decode()] *)
  hmac_sha256_b64 : string -> string -> string;
  json_dumps : json -> string;
  (** [float(s)] for a string; [None] when it raises [ValueError] *)
  float_of_str : string -> option Q;
  (** [str(x)] for a float *)
  str_of_float : Q -> string
}.

Definition ascii_upper (c : ascii) : ascii :=
  let n := nat_of_ascii c in
  if andb (Nat.leb 97 n) (Nat.leb n 122) then ascii_of_nat (n - 32) else c.

(** [s.upper()] on ASCII text. *)
Fixpoint str_upper (s : string) : string :=
  match s with
  | EmptyString => EmptyString
  | String c s' => String (ascii_upper c) (str_upper s')
  end.

(** [s.rstrip('/')] *)
Fixpoint rstrip_slash (s : string) : string :=
  match s with
  | EmptyString => EmptyString
  | String c s' =>
      match rstrip_slash s' with
      | EmptyString => if Ascii.eqb c "/"%char then EmptyString
                       else String c EmptyString
      | r => String c r
      end
  end.

(** [d.get(k, default)] *)
Definition py_get (d : json) (k : string) (default : json) : outcome json :=
  match d with
  | JObj fields => Ok (get_or (Dict.get k fields) default)
  | _ => Err AttributeError
  end.

(** [v == s] for a string [s] *)
Definition py_eq_str (v : json) (s : string) : bool :=
  match v with
  | JStr x => String.eqb x s
  | _ => false
  end.

Fixpoint chars (s : string) : list json :=
  match s with
  | EmptyString => []
  | String c s' => JStr (String c EmptyString) :: chars s'
  end.

(** The values a [for] loop over [v] visits. *)
Definition py_iter (v : json) : outcome (list json) :=
  match v with
  | JArr items => Ok items
  | JStr s => Ok (chars s)
  | JObj fields => Ok (map (fun kv => JStr (fst kv)) fields)
  | _ => Err TypeError
  end.

(** [v[0]] *)
Definition py_first (v : json) : outcome json :=
  match v with
  | JArr (x :: _) => Ok x
  | JArr [] => Err IndexError
  | JStr (String c _) => Ok (JStr (String c EmptyString))
  | JStr EmptyString => Err IndexError
  | JObj _ => Err KeyError
  | _ => Err TypeError
  end.

(** [bool(body)] for the optional request body *)
Definition body_truthy (body : option json) : bool :=
  match body with
  | Some (JObj (_ :: _)) => true
  | Some (JArr (_ :: _)) => true
  | Some (JStr (String _ _)) => true
  | Some (JBool b) => b
  | Some (JNum q) => negb (Qeq_bool q 0)
  | _ => false
  end.

Record Client := {
  api_key : string;
  secret_key : string;
  passphrase : string;
  base_url : string
}.

(** [OkxClient.__init__] *)
Definition init (key secret pass url : string) : Client :=
  {| api_key := key; secret_key := secret; passphrase := pass;
     base_url := rstrip_slash url |}.

Section Methods.
Context {H : Http}.

(** [float(v)] *)
Definition py_float (v : json) : outcome Q :=
  match v with
  | JNum q => Ok q
  | JStr s => match float_of_str s with Some q => Ok q | None => Err ValueError end
  | JBool b => Ok (if b then 1 else 0)
  | _ => Err TypeError
  end.

Definition N (A : Type) : Type := Net -> outcome A * Net.

Definition nret {A : Type} (a : A) : N A := fun n => (Ok a, n).

Definition nraise {A : Type} (e : error) : N A := fun n => (Err e, n).

Definition nbind {A B : Type} (m : N A) (k : A -> N B) : N B :=
  fun n =>
    match m n with
    | (Ok a, n') => k a n'
    | (Err e, n') => (Err e, n')
    end.

(** A computation without network access that may raise. *)
Definition pure {A : Type} (o : outcome A) : N A := fun n => (o, n).

Definition obind {A B : Type} (o : outcome A) (k : A -> outcome B) : outcome B :=
  match o with
  | Ok a => k a
  | Err e => Err e
  end.

Definition _get_timestamp : N string :=
  fun n => let (now, n') := utcnow_iso_ms n in (Ok (now ++ "Z"), n').

Definition _sign (self : Client) (timestamp method request_path body : string)
  : string :=
  let message := timestamp ++ str_upper method ++ request_path ++ body in
  hmac_sha256_b64 (secret_key self) message.

Definition _headers (self : Client) (method request_path : string)
  (body : option json) : N headers :=
  nbind _get_timestamp (fun timestamp =>
  let body_str := if body_truthy body
                  then json_dumps (get_or body JNull) else "" in
  let sign := _sign self timestamp method request_path body_str in
  nret [("OK-ACCESS-KEY", api_key self);
        ("OK-ACCESS-SIGN", sign);
        ("OK-ACCESS-TIMESTAMP", timestamp);
        ("OK-ACCESS-PASSPHRASE", passphrase self);
        ("Content-Type", "application/json")]).

(** [if data.get("code") == "0": ok(data) else: raise Exception(...)] *)
Definition check_code (data : json) (ok : outcome json) : outcome json :=
  obind (py_get data "code" JNull) (fun code =>
  if py_eq_str code "0" then ok else Err (ApiError data)).

Definition get_candles (self : Client) (symbol timeframe : string) (limit : Z)
  : N json :=
  let path := "/api/v5/market/candles?instId=" ++ symbol ++ "&bar=" ++ timeframe
              ++ "&limit=" ++ str_int limit in
  let url := base_url self ++ path in
  nbind (http_get url None) (fun data =>
  pure (check_code data (py_get data "data" (JArr [])))).

(** The inner [for] of [get_account_balance]; [Some] is an early [return]. *)
Fixpoint scan_details (currency : string) (details : list json)
  : outcome (option Q) :=
  match details with
  | [] => Ok None
  | detail :: rest =>
      obind (py_get detail "ccy" JNull) (fun ccy =>
      if py_eq_str ccy currency then
        obind (py_get detail "availBal" (JNum 0)) (fun v =>
        obind (py_float v) (fun q => Ok (Some q)))
      else scan_details currency rest)
  end.

(** The outer [for] of [get_account_balance]. *)
Fixpoint scan_items (currency : string) (items : list json) : outcome (option Q) :=
  match items with
  | [] => Ok None
  | item :: rest =>
      obind (py_get item "details" (JArr [])) (fun ds =>
      obind (py_iter ds) (fun details =>
      obind (scan_details currency details) (fun found =>
      match found with
      | Some q => Ok (Some q)
      | None => scan_items currency rest
      end)))
  end.

(** The treatment of the decoded reply in [get_account_balance]. *)
Definition balance_of_reply (currency : string) (data : json) : outcome Q :=
  obind (py_get data "code" JNull) (fun code =>
  if py_eq_str code "0" then
    obind (py_get data "data" (JArr [])) (fun d =>
    obind (py_iter d) (fun items =>
    obind (scan_items currency items) (fun found =>
    Ok (get_or found 0))))
  else Err (ApiError data)).

Definition get_account_balance (self : Client) (currency : string) : N Q :=
  let path := "/api/v5/account/balance" in
  let url := base_url self ++ path in
  nbind (_headers self "GET" path None) (fun hs =>
  nbind (http_get url (Some hs)) (fun data =>
  pure (balance_of_reply currency data))).

(** The request body of [place_order]. *)
Definition order_body (symbol side : string) (price quantity : Q)
  (order_type : string) : json :=
  let body := [("instId", JStr symbol); ("tdMode", JStr "cash");
               ("side", JStr side); ("ordType", JStr order_type);
               ("sz", JStr (str_of_float quantity))] in
  let body := if String.eqb order_type "limit"
              then Dict.set "px" (JStr (str_of_float price)) body else body in
  JObj (filter (fun kv => match snd kv with JNull => false | _ => true end) body).

Definition place_order (self : Client) (symbol side : string) (price quantity : Q)
  (order_type : string) : N json :=
  let path := "/api/v5/trade/order" in
  let url := base_url self ++ path in
  let body := order_body symbol side price quantity order_type in
  nbind (_headers self "POST" path (Some body)) (fun hs =>
  nbind (http_post url hs body) (fun data =>
  pure (check_code data
          (obind (py_get data "data" (JArr [JObj []])) py_first)))).

Definition cancel_order (self : Client) (symbol order_id : string) : N json :=
  let path := "/api/v5/trade/cancel-order" in
  let url := base_url self ++ path in
  let body := JObj [("instId", JStr symbol); ("ordId", JStr order_id)] in
  nbind (_headers self "POST" path (Some body)) (fun hs =>
  nbind (http_post url hs body) (fun data =>
  pure (check_code data
          (obind (py_get data "data" (JArr [JObj []])) py_first)))).

End Methods.

(** Vocabulary for the balance reply: [item] is an account entry whose
    ["details"] are the objects [ds]. *)
Definition item_details (item : json) (ds : list (Dict.t json)) : Prop :=
  exists fields, item = JObj fields
                 /\ Dict.get "details" fields = Some (JArr (map JObj ds)).

Definition has_ccy (currency : string) (detail : Dict.t json) : bool :=
  py_eq_str (get_or (Dict.get "ccy" detail) JNull) currency.

End Okx.

(** A scripted exchange: every request is answered with the same decoded
    reply. *)
Module OkxScript.

Definition float_table (s : string) : option Q :=
  if String.eqb s "1.5" then Some (3 # 2)
  else if String.eqb s "250" then Some (inject_Z 250)
  else None.

Definition answering (reply : Okx.json) : Okx.Http := {|
  Okx.Net := unit;
  Okx.http_get := fun _ _ n => (Okx.Ok reply, n);
  Okx.http_post := fun _ _ _ n => (Okx.Ok reply, n);
  Okx.utcnow_iso_ms := fun n => ("2023-11-14T22:13:20.000", n);
  Okx.hmac_sha256_b64 := fun key msg => "sig";
  Okx.json_dumps := fun _ => "{}";
  Okx.float_of_str := float_table;
  Okx.str_of_float := fun x => str_int (Qfloor x) ++ ".0"
|}.

Definition client : Okx.Client :=
  Okx.init "key" "secret" "pass" "https://www.okx.com/".

(** An account holding BTC and USDT, the way the exchange lists it. *)
Definition account : Okx.json :=
  Okx.JObj
    [("code", Okx.JStr "0");
     ("data",
      Okx.JArr
        [Okx.JObj
           [("totalEq", Okx.JStr "1000");
            ("details",
             Okx.JArr
               [Okx.JObj [("ccy", Okx.JStr "BTC"); ("availBal", Okx.JStr "1.5")];
                Okx.JObj [("ccy", Okx.JStr "USDT"); ("availBal", Okx.JStr "250")]])]])].

Definition account_details : list (list (Dict.t Okx.json)) :=
  [[[("ccy", Okx.JStr "BTC"); ("availBal", Okx.JStr "1.5")];
    [("ccy", Okx.JStr "USDT"); ("availBal", Okx.JStr "250")]]].

(** The exchange rejects the request. *)
Definition rejection : Okx.json :=
  Okx.JObj [("code", Okx.JStr "50111"); ("msg", Okx.JStr "Invalid OK-ACCESS-KEY")].

(** An acknowledgement with an empty data list. *)
Definition empty_ack : Okx.json :=
  Okx.JObj [("code", Okx.JStr "0"); ("data", Okx.JArr [])].

End OkxScript.

(** ** Vocabulary of the statements *)

(** [r] is the float [x] rounded to 8 decimal places: NaN, the infinities
    and the zeros are kept; otherwise [r] is the double nearest to a
    multiple [n * 10^-8] that lies at most half a unit of the 8th place from
    the exact value of [x], with the sign of [x]. *)
Definition rounded8 (x r : float) : Prop :=
  match x with
  | S754_finite s m e =>
      exists n : Z,
        (0 <= n)%Z
        /\ Qabs (inject_Z n - magnitude m e * inject_Z 100000000) <= 1 # 2
        /\ r = match n with
               | Zpos p => nearest s p 100000000
               | _ => S754_zero s
               end
  | _ => r = x
  end.

(** [v] is a number other than NaN: an integer, a float that is not NaN, or
    a boolean, which Python counts as 0 or 1. *)
Definition is_number (v : pyval) : Prop :=
  match v with
  | VBool _ | VInt _ => True
  | VFloat x => x <> S754_nan
  | _ => False
  end.

(** The value of the float [x] is at most the rational [q]. *)
Definition float_le_Q (x : float) (q : Q) : Prop :=
  match x with
  | S754_zero _ => 0 <= q
  | S754_finite false m e => magnitude m e <= q
  | S754_finite true m e => - magnitude m e <= q
  | S754_infinity true => True
  | _ => False
  end.

(** [x] is a number of sign [s] (negative when [s] is true): a zero, an
    infinity or a finite number, not NaN. *)
Definition has_sign (s : bool) (x : float) : Prop :=
  x = S754_zero s \/ x = S754_infinity s \/ exists m e, x = S754_finite s m e.

(** The first statement of [place_order] is the log line "Placing order",
    and the first statement of [cancel_order] is the log line "Cancel
    order": these events show that the method was called. *)
Definition is_placing (ev : Event) : bool :=
  match ev with
  | Log INFO (MsgPlacing _ _ _ _ _ _) => true
  | _ => false
  end.

Definition is_cancel_of (k : string) (ev : Event) : bool :=
  match ev with
  | Log INFO (MsgCancel k' _) => String.eqb k k'
  | _ => false
  end.

Definition is_enter_manage (ev : Event) : bool :=
  match ev with
  | EnterManageOrders => true
  | _ => false
  end.

Definition not_placing (ev : Event) : bool := negb (is_placing ev).
Definition not_enter (ev : Event) : bool := negb (is_enter_manage ev).

Definition count_events (p : Event -> bool) (evs : list Event) : nat :=
  List.length (filter p evs).

(** The number of live entries stays below the larger of its present value
    and the limit [n]. *)
Definition bounded_open (n : Z) (l l' : Ledger) : Prop :=
  (Z.of_nat (open_count l') <= Z.max (Z.of_nat (open_count l)) n)%Z.

Section Vocabulary.
Context {E : Env}.

(** [s'] is [s] after emitting events that all satisfy [p]. *)
Definition emits (p : Event -> bool) (s s' : Bot) : Prop :=
  exists evs, trace s' = (trace s ++ evs)%list /\ forallb p evs = true.

(** No order was placed between [s] and [s']: same ledger, and no call of
    [place_order]. *)
Definition quiet (s s' : Bot) : Prop :=
  order_state s' = order_state s
  /\ emits not_placing s s'.

(** Every run of the method from any state relates its start to its end. *)
Definition Steps (R : Bot -> Bot -> Prop) {A : Type} (m : M A) : Prop :=
  forall s, R s (snd (m s)).

(** The decision [manage_orders] takes for one ledger entry at time
    [now_ts]: the three tests of the loop body, in order. *)
Definition sweep_cancels (now_ts : Q) (cancel_after : Z) (meta : Meta) : bool :=
  is_live meta
  && truthy_str (Dict.get "created_at" meta)
  && Qltb (inject_Z cancel_after)
          (now_ts - match fromisoformat_timestamp
                            (replace_Z (get_or (Dict.get "created_at" meta) "")) with
                    | Some ts => ts
                    | None => now_ts
                    end).

(** The bot as a sweep finds it when it turns to the ledger entry that
    follows the entries [pre]: the sweep started from [s], has read the
    clock, which showed [now_ts] and left the world [w1], and has dealt with
    [pre]. *)
Definition sweep_reaches (cfg : Config) (now_ts : Q) (w1 : World) (s : Bot)
  (pre : list (string * Meta)) : Bot :=
  snd (for_each (manage_entry cfg now_ts (self_cancel_after cfg)) pre
         {| world := w1; order_state := order_state s;
            trace := (trace s ++ [EnterManageOrders])%list |}).

(** A relation between the ledger before and after a method. *)
Definition on_ledger (P : Ledger -> Ledger -> Prop) (s s' : Bot) : Prop :=
  P (order_state s) (order_state s').

(** The bot touched neither the outside world nor the ledger. *)
Definition untouched (s s' : Bot) : Prop :=
  world s' = world s /\ order_state s' = order_state s.

(** [n] sweeps in a row. *)
Fixpoint sweeps (cfg : Config) (n : nat) : M unit :=
  match n with
  | O => ret tt
  | S n' => manage_orders cfg ;; sweeps cfg n'
  end.

End Vocabulary.

(** * Properties *)


(** ** Numbers *)

Lemma Qltb_true (x y : Q) : Qltb x y = true <-> x < y.
Proof.
  unfold Qltb. rewrite negb_true_iff. split.
  - intros H. apply Qnot_le_lt. intros L.
    apply Qle_bool_iff in L. congruence.
  - intros H. destruct (Qle_bool y x) eqn:L; [|reflexivity].
    apply Qle_bool_iff in L. exfalso. apply (Qlt_not_le _ _ H L).
Qed.

Lemma Qltb_false (x y : Q) : Qltb x y = false <-> y <= x.
Proof.
  unfold Qltb. rewrite negb_false_iff. apply Qle_bool_iff.
Qed.

Lemma round_half_even_close (y : Q) :
  Qabs (inject_Z (round_half_even y) - y) <= 1 # 2.
Proof.
  unfold round_half_even.
  pose proof (Qfloor_le y) as Hlo.
  pose proof (Qlt_floor y) as Hhi.
  rewrite inject_Z_plus in Hhi.
  apply Qabs_Qle_condition.
  destruct (Qcompare (y - inject_Z (Qfloor y)) (1 # 2)) eqn:C;
    [apply Qeq_alt in C; destruct (Z.even (Qfloor y))
    |apply Qlt_alt in C
    |apply Qgt_alt in C];
    rewrite ?inject_Z_plus;
    change (inject_Z 1) with 1 in *;
    generalize dependent (inject_Z (Qfloor y)); intros f Hlo Hhi C; lra.
Qed.

Lemma round_half_even_nonneg (y : Q) : 0 <= y -> (0 <= round_half_even y)%Z.
Proof.
  intros Hy. unfold round_half_even.
  assert (Hf : (0 <= Qfloor y)%Z).
  { change 0%Z with (Qfloor 0). apply Qfloor_resp_le. exact Hy. }
  destruct (Qcompare (y - inject_Z (Qfloor y)) (1 # 2));
    try destruct (Z.even (Qfloor y)); lia.
Qed.

Lemma round_half_even_half (y : Q) : 0 <= y -> y <= 1 # 2 -> round_half_even y = 0%Z.
Proof.
  intros H0 Hh. unfold round_half_even.
  pose proof (Qfloor_le y) as Hlo.
  pose proof (Qlt_floor y) as Hhi.
  assert (Hf : Qfloor y = 0%Z).
  { assert (Hle : (Qfloor y <= 0)%Z).
    { apply Z.lt_succ_r. rewrite (Zlt_Qlt (Qfloor y) (Z.succ 0)).
      eapply Qle_lt_trans; [exact Hlo|]. eapply Qle_lt_trans; [exact Hh|reflexivity]. }
    assert (Hge : (0 < Qfloor y + 1)%Z).
    { rewrite (Zlt_Qlt 0 (Qfloor y + 1)).
      eapply Qle_lt_trans; [exact H0|exact Hhi]. }
    lia. }
  rewrite Hf. change (inject_Z 0) with 0.
  destruct (Qcompare (y - 0) (1 # 2)) eqn:C; try reflexivity.
  apply Qgt_alt in C. exfalso.
  apply (Qlt_not_le _ _ C). unfold Qminus. rewrite Qplus_0_r. exact Hh.
Qed.

(** ** Floats *)

Lemma magnitude_pos (m : positive) (e : Z) : 0 < magnitude m e.
Proof.
  unfold magnitude. destruct e as [|p|p]; try reflexivity.
  change 0 with (inject_Z 0). rewrite <- Zlt_Qlt.
  apply Z.mul_pos_pos; [reflexivity|].
  apply Z.pow_pos_nonneg; [reflexivity|discriminate].
Qed.

Lemma fltb_irrefl (x : float) : fltb x x = false.
Proof.
  unfold fltb, SFltb. destruct x as [s|s| |s m e]; cbn; try reflexivity.
  - destruct s; reflexivity.
  - destruct s; rewrite Z.compare_refl, Pos.compare_cont_refl; reflexivity.
Qed.

Lemma py_round_rounded8 (x : float) : rounded8 x (py_round x 8).
Proof.
  destruct x as [s|s| |s m e]; try reflexivity.
  cbn [rounded8 py_round].
  change (Z.to_pos (pow10 8)) with 100000000%positive.
  change (inject_Z (Zpos 100000000)) with (inject_Z 100000000).
  exists (round_half_even (magnitude m e * inject_Z 100000000)).
  split; [|split; [apply round_half_even_close|reflexivity]].
  apply round_half_even_nonneg.
  apply Qmult_le_0_compat; [apply Qlt_le_weak, magnitude_pos|discriminate].
Qed.

(** [round] on the exact value of a double: 1/512 = 0.001953125 and
    3/512 = 0.005859375 lie half way between two multiples of 10^-8 and go
    to the even one; 2.675 is a double below 2.675 and goes down; at 2^27
    the doubles are more than 10^-8 apart and [round] changes nothing. *)
Example round_ties_to_even :
  py_round (float_of_Q (1 # 512)) 8 = dec 195312 8
  /\ py_round (float_of_Q (3 # 512)) 8 = dec 585938 8
  /\ py_round (dec 2675 3) 2 = dec 267 2
  /\ py_round (fadd (float_of_Z 134217728) (dec 1 7)) 8
     = fadd (float_of_Z 134217728) (dec 1 7).
Proof. repeat split; vm_compute; reflexivity. Qed.

(** Rounding keeps the sign: the rounded mantissa of a non-negative
    mantissa is not negative. *)
Lemma shr_1_nonneg (mrs : shr_record) : (0 <= shr_m mrs)%Z -> (0 <= shr_m (shr_1 mrs))%Z.
Proof.
  destruct mrs as [m r t]. cbn [shr_m]. intros Hm.
  destruct m as [|[p|p|]|[p|p|]]; cbn; lia.
Qed.

Lemma iter_shr_1_nonneg (p : positive) (mrs : shr_record) :
  (0 <= shr_m mrs)%Z -> (0 <= shr_m (iter_pos shr_1 p mrs))%Z.
Proof.
  revert mrs. induction p as [p IH|p IH|]; intros mrs Hm; cbn [iter_pos].
  - apply IH, IH, shr_1_nonneg, Hm.
  - apply IH, IH, Hm.
  - apply shr_1_nonneg, Hm.
Qed.

Lemma shr_fexp_nonneg (m e : Z) (l : location) :
  (0 <= m)%Z -> (0 <= shr_m (fst (shr_fexp b64_prec b64_emax m e l)))%Z.
Proof.
  intros Hm. unfold shr_fexp, shr.
  assert (H0 : (0 <= shr_m (shr_record_of_loc m l))%Z).
  { destruct l as [|[| |]]; exact Hm. }
  destruct (fexp b64_prec b64_emax (Zdigits2 m + e) - e)%Z; cbn [fst];
    [exact H0|apply iter_shr_1_nonneg; exact H0|exact H0].
Qed.

Lemma round_nearest_even_nonneg (m : Z) (l : location) :
  (0 <= m)%Z -> (0 <= round_nearest_even m l)%Z.
Proof.
  intros Hm. unfold round_nearest_even.
  destruct l as [|[| |]]; try destruct (Z.even m); lia.
Qed.

Lemma binary_round_aux_sign (s : bool) (mx ex : Z) (lx : location) :
  (0 <= mx)%Z -> has_sign s (binary_round_aux b64_prec b64_emax s mx ex lx).
Proof.
  intros Hm. unfold binary_round_aux.
  pose proof (shr_fexp_nonneg mx ex lx Hm) as H1.
  destruct (shr_fexp b64_prec b64_emax mx ex lx) as [mrs1 e1]. cbn [fst] in H1.
  pose proof (shr_fexp_nonneg _ e1 loc_Exact
                (round_nearest_even_nonneg _ (loc_of_shr_record mrs1) H1)) as H2.
  destruct (shr_fexp b64_prec b64_emax
              (round_nearest_even (shr_m mrs1) (loc_of_shr_record mrs1)) e1 loc_Exact)
    as [mrs2 e2].
  cbn [fst] in H2.
  destruct (shr_m mrs2) as [|m|m]; [left; reflexivity| |lia].
  destruct (e2 <=? b64_emax - b64_prec)%Z;
    [right; right; eauto|right; left; reflexivity].
Qed.

Lemma nearest_sign (s : bool) (n d : positive) : has_sign s (nearest s n d).
Proof.
  unfold nearest, SFdiv_core_binary.
  set (sh := (0 - 0 - _)%Z).
  set (m' := match sh with Z0 => Zpos n | Zpos _ => Z.shiftl (Zpos n) sh | Zneg _ => 0%Z end).
  assert (Hm' : (0 <= m')%Z).
  { unfold m'. destruct sh; [lia| |lia]. apply Z.shiftl_nonneg. lia. }
  pose proof (Z_div_mod m' (Zpos d) eq_refl) as Hdiv.
  destruct (Z.div_eucl m' (Zpos d)) as [q r].
  apply binary_round_aux_sign.
  destruct Hdiv as (Heq & Hr). nia.
Qed.

Lemma py_round_sign (s : bool) (m : positive) (e : Z) (k : nat) :
  has_sign s (py_round (S754_finite s m e) k).
Proof.
  cbn [py_round].
  destruct (round_half_even _); [left; reflexivity|apply nearest_sign|left; reflexivity].
Qed.

Lemma float_le_int_negative (x : float) : has_sign true x -> float_le_int x 0 = true.
Proof.
  intros [-> | [-> | (m & e & ->)]]; try reflexivity.
  unfold float_le_int, compare_int_float. cbn [cond_Zopp Z.opp].
  assert (H : forall e', (0 <= e')%Z -> (Zneg m * 2 ^ e' < 0)%Z).
  { intros e' He. apply Z.mul_neg_pos; [reflexivity|].
    apply Z.pow_pos_nonneg; lia. }
  destruct e as [|p|p].
  - specialize (H 0%Z ltac:(lia)).
    destruct (Z.compare_spec 0 (Zneg m * 2 ^ 0)); try lia; reflexivity.
  - specialize (H (Zpos p) ltac:(lia)).
    destruct (Z.compare_spec 0 (Zneg m * 2 ^ Zpos p)); try lia; reflexivity.
  - rewrite Z.mul_0_l. reflexivity.
Qed.

Lemma float_le_int_finite (s : bool) (m : positive) (e : Z) :
  float_le_int (S754_finite s m e) 0 = true -> s = true.
Proof.
  destruct s; [reflexivity|]. unfold float_le_int, compare_int_float.
  cbn [cond_Zopp].
  assert (H : forall e', (0 <= e')%Z -> (0 < Zpos m * 2 ^ e')%Z).
  { intros e' He. apply Z.mul_pos_pos; [reflexivity|].
    apply Z.pow_pos_nonneg; lia. }
  destruct e as [|p|p].
  - specialize (H 0%Z ltac:(lia)).
    destruct (Z.compare_spec 0 (Zpos m * 2 ^ 0)); try lia; discriminate.
  - specialize (H (Zpos p) ltac:(lia)).
    destruct (Z.compare_spec 0 (Zpos m * 2 ^ Zpos p)); try lia; discriminate.
  - rewrite Z.mul_0_l. discriminate.
Qed.

(** A size that is not positive stays so when it is rounded. *)
Lemma py_round_nonpositive (x : float) (k : nat) :
  float_le_int x 0 = true -> float_le_int (py_round x k) 0 = true.
Proof.
  destruct x as [s|s| |s m e]; try (intros H; exact H).
  intros H. apply float_le_int_finite in H. subst s.
  apply float_le_int_negative, py_round_sign.
Qed.

(** A value of at most half a unit of the 8th decimal place rounds to a
    size that is not positive. *)
Lemma py_round_dust (x : float) :
  float_le_Q x (1 # 200000000) -> float_le_int (py_round x 8) 0 = true.
Proof.
  destruct x as [s|[|]| |[|] m e]; cbn [float_le_Q]; intros H;
    try contradiction; try reflexivity.
  - apply float_le_int_negative, py_round_sign.
  - cbn [py_round]. change (Z.to_pos (pow10 8)) with 100000000%positive.
    rewrite round_half_even_half; [reflexivity| |].
    + apply Qmult_le_0_compat; [apply Qlt_le_weak, magnitude_pos|discriminate].
    + apply (Qmult_le_r _ _ (inject_Z 100000000)) in H; [|reflexivity].
      eapply Qle_trans; [exact H|]. discriminate.
Qed.

(** Numbers other than NaN are ordered. *)
Lemma py_compare_number (v : pyval) (y : float) :
  is_number v -> y <> S754_nan -> exists c, py_compare v y = Ret (Some c).
Proof.
  intros Hv Hy. destruct v as [|b|z|x|t|]; cbn in Hv; try contradiction; cbn.
  - destruct y; try congruence; eexists; reflexivity.
  - destruct y; try congruence; eexists; reflexivity.
  - destruct x, y; try congruence; cbn; eexists; reflexivity.
Qed.

(** [>=] is the negation of [<] on numbers that are not NaN. *)
Lemma py_lt_ge (v : pyval) (y : float) (c : comparison) :
  py_compare v y = Ret (Some c) ->
  (py_lt v y = Ret false <-> py_ge v y = Ret true)
  /\ (exists b, py_lt v y = Ret b).
Proof.
  unfold py_lt, py_ge. intros ->.
  destruct c; split; try (split; (reflexivity || discriminate)); eexists; reflexivity.
Qed.

Lemma py_in_In (x : option string) (xs : list string) :
  py_in x xs = true <-> exists s, x = Some s /\ In s xs.
Proof.
  destruct x as [s|]; simpl.
  - rewrite existsb_exists. split.
    + intros (y & Hy & Heq). apply String.eqb_eq in Heq. subst y. eauto.
    + intros (y & Hy & Hin). injection Hy as <-. exists s. split; [assumption|].
      apply String.eqb_refl.
  - split; [discriminate|]. intros (s & Hs & _). discriminate.
Qed.

(** ** Signal filter and limit price *)

Section Decision.
Context {E : Env}.
Variable cfg : Config.

(** C1, as the code has it.  [should_trade] only logs: ledger and world are
    untouched.  With a confidence below the minimum (0.6 when unset; an
    absent confidence reads as 0) the answer is [False] whatever the other
    fields.  When confidence and profit after fee are numbers and neither
    they nor the two minimums are NaN, the call returns, and it answers
    [True] exactly when the signal is in the white list (["buy"; "sell"]
    when unset), the confidence is at least the minimum and the profit
    after fee is at least the minimum (0.0 when unset).  A confidence that
    is not a number (null, a string, a container) raises [TypeError] once
    the signal has passed the white list. *)
Theorem should_trade_iff (pred : Prediction) (s : Bot) :
  let wl := get_or (signal_whitelist (strategy cfg)) ["buy"; "sell"] in
  let cmin := get_or (min_confidence (strategy cfg)) (dec 6 1) in
  let pmin := get_or (min_profit_after_fee (strategy cfg)) (S754_zero false) in
  let conf := get_or (confidence pred) (VInt 0) in
  let profit := get_or (profit_after_fee pred) (VInt 0) in
  let listed := exists sg, signal pred = Some sg /\ In sg wl in
  let r := should_trade cfg pred s in
  order_state (snd r) = order_state s
  /\ world (snd r) = world s
  /\ (py_lt conf cmin = Ret true -> fst r = Ret false)
  /\ (is_number conf -> is_number profit ->
      cmin <> S754_nan -> pmin <> S754_nan ->
      exists b : bool,
        fst r = Ret b
        /\ (b = true <->
            listed /\ py_ge conf cmin = Ret true /\ py_ge profit pmin = Ret true))
  /\ (listed -> ~ is_number conf -> conf <> VFloat S754_nan ->
      fst r = Raise (TypeError "'<' not supported")).
Proof.
  intros wl cmin pmin conf profit listed r.
  cut (order_state (snd r) = order_state s
       /\ world (snd r) = world s
       /\ (py_lt conf cmin = Ret true -> fst r = Ret false)
       /\ (forall c p : comparison,
             py_compare conf cmin = Ret (Some c) ->
             py_compare profit pmin = Ret (Some p) ->
             exists b : bool,
               fst r = Ret b
               /\ (b = true <->
                   listed /\ py_ge conf cmin = Ret true
                   /\ py_ge profit pmin = Ret true))
       /\ (listed -> forall e, py_compare conf cmin = Raise e -> fst r = Raise e)).
  { intros (H1 & H2 & H3 & H4 & H5).
    split; [exact H1|]. split; [exact H2|]. split; [exact H3|]. split.
    - intros Nc Np Hc Hp.
      destruct (py_compare_number conf cmin Nc Hc) as (c & Hcc).
      destruct (py_compare_number profit pmin Np Hp) as (p & Hpp).
      exact (H4 c p Hcc Hpp).
    - intros Hl Hn Hnan. apply (H5 Hl).
      destruct conf as [|b|z|x|t|]; cbn in Hn; try reflexivity;
        try (exfalso; apply Hn; exact I).
      exfalso. apply Hn. intros ->. apply Hnan. reflexivity. }
  unfold r, should_trade.
  fold wl cmin pmin conf profit.
  destruct (py_in (signal pred) wl) eqn:Hin; cbn [negb].
  - apply py_in_In in Hin. fold listed in Hin.
    unfold bind at 1, lift_result at 1.
    destruct (py_lt conf cmin) as [[|]|e] eqn:Hc.
    + cbn. repeat split; try reflexivity.
      * intros c p Hcc _. exists false. split; [reflexivity|].
        split; [discriminate|]. intros (_ & Hge & _).
        apply (py_lt_ge conf cmin c) in Hcc. destruct Hcc as (_ & _).
        unfold py_lt, py_ge in *.
        destruct (py_compare conf cmin) as [[[| |]|]|]; discriminate.
      * intros _ e He. unfold py_lt in Hc. rewrite He in Hc. discriminate.
    + unfold bind at 1, lift_result at 1.
      destruct (py_lt profit pmin) as [[|]|e] eqn:Hp.
      * cbn. repeat split; try reflexivity; try discriminate.
        -- intros c p Hcc Hpp. exists false. split; [reflexivity|].
           split; [discriminate|]. intros (_ & _ & Hge).
           unfold py_lt, py_ge in *.
           destruct (py_compare profit pmin) as [[[| |]|]|]; discriminate.
        -- intros _ e He. unfold py_lt in Hc. rewrite He in Hc. discriminate.
      * cbn. repeat split; try reflexivity; try discriminate.
        -- intros c p Hcc Hpp. exists true. split; [reflexivity|].
           split; [|reflexivity]. intros _. split; [exact Hin|].
           unfold py_lt, py_ge in *. rewrite Hcc in *. rewrite Hpp in *.
           destruct c, p; try discriminate; split; reflexivity.
        -- intros _ e He. unfold py_lt in Hc. rewrite He in Hc. discriminate.
      * cbn. repeat split; try reflexivity; try discriminate.
        -- intros c p _ Hpp. unfold py_lt in Hp. rewrite Hpp in Hp.
           destruct p; discriminate.
        -- intros _ e' He. unfold py_lt in Hc. rewrite He in Hc. discriminate.
    + cbn. repeat split; try reflexivity; try discriminate.
      * intros c p Hcc _. unfold py_lt in Hc. rewrite Hcc in Hc.
        destruct c; discriminate.
      * intros _ e' He. unfold py_lt in Hc. rewrite He in Hc.
        injection Hc as ->. reflexivity.
  - cbn. repeat split; try reflexivity.
    + intros c p _ _. exists false. split; [reflexivity|].
      split; [discriminate|]. intros (Hl & _). apply py_in_In in Hl. congruence.
    + intros Hl. apply py_in_In in Hl. congruence.
Qed.

(** C2. With [cur] and [expected] the current and the expected price as
    floats ([float(...)] of the prediction's fields, the expected price
    being the current price when the prediction has none), with [base] the
    expected price if [use_expected_price] is set or absent and the current
    price otherwise, and with the slippage defaulting to 0.001: for side
    buy the result is the product [base * (1 + slippage)] when
    [base > current_price] and [base] otherwise; for side sell it is
    [base * (1 - slippage)] when [base < current_price] and [base]
    otherwise; sums and products are those of binary64, and the result is
    rounded to 8 decimal places by [round].  The bot object is not
    modified. *)
Theorem calc_limit_price_spec (pred : Prediction) (v : pyval) (cur expected : float)
  (s : Bot)
  (Hcur : current_price pred = Some v)
  (Hfloat : py_float v = Ret cur)
  (Hexp : match expected_price pred with
          | Some v' => py_float v' = Ret expected
          | None => expected = cur
          end) :
  let base := if get_or (use_expected_price (strategy cfg)) true
              then expected else cur in
  let slippage := get_or (limit_price_slippage (strategy cfg)) (dec 1 3) in
  let one := float_of_Z 1 in
  let returns side target :=
    calc_limit_price cfg pred side s = (Ret (py_round target 8), s)
    /\ rounded8 target (py_round target 8) in
  (fltb cur base = true -> returns "buy" (fmul base (fadd one slippage)))
  /\ (fltb cur base = false -> returns "buy" base)
  /\ (fltb base cur = true -> returns "sell" (fmul base (fsub one slippage)))
  /\ (fltb base cur = false -> returns "sell" base).
Proof.
  intros base slippage one returns. unfold returns.
  assert (Hrun : forall side,
             calc_limit_price cfg pred side s
             = (Ret (py_round
                       (if String.eqb (str_lower side) "buy" then
                          if fltb cur base then fmul base (fadd one slippage) else base
                        else
                          if fltb base cur then fmul base (fsub one slippage) else base)
                       8), s)).
  { intros side. unfold calc_limit_price. rewrite Hcur.
    unfold bind at 1, lift_result at 1. rewrite Hfloat.
    unfold bind at 1.
    destruct (expected_price pred) as [v'|].
    - unfold lift_result. rewrite Hexp. reflexivity.
    - subst expected. reflexivity. }
  repeat split; try apply py_round_rounded8;
    rewrite Hrun; cbn [str_lower];
    change (String.eqb (str_lower "buy") "buy") with true;
    change (String.eqb (str_lower "sell") "buy") with false;
    cbv iota; rewrite H; reflexivity.
Qed.

End Decision.

(** The scenario of the specification: buy, confidence 0.8, current price
    100, expected price 102, every option at its default. *)
Example scenario_should_trade :
  fst (should_trade Script.cfg0 (Script.pred_buy (8 # 10))
         (Script.bot0 Script.quiet [])) = Ret true.
Proof. vm_compute. reflexivity. Qed.

Example scenario_low_confidence :
  fst (should_trade Script.cfg0 (Script.pred_buy (4 # 10))
         (Script.bot0 Script.quiet [])) = Ret false.
Proof. vm_compute. reflexivity. Qed.

(** A confidence of exactly 0.6, the default minimum, passes. *)
Example scenario_threshold_confidence :
  fst (should_trade Script.cfg0 (Script.pred_buy (6 # 10))
         (Script.bot0 Script.quiet [])) = Ret true.
Proof. vm_compute. reflexivity. Qed.

Lemma should_trade_iff_witness :
  exists b,
    fst (should_trade Script.cfg0 (Script.pred_buy (8 # 10))
           (Script.bot0 Script.quiet [])) = Ret b
    /\ (b = true <->
        (exists sg, Some "buy" = Some sg /\ In sg ["buy"; "sell"])
        /\ py_ge (VFloat (float_of_Q (8 # 10))) (dec 6 1) = Ret true
        /\ py_ge (VFloat (dec 2 3)) (S754_zero false) = Ret true).
Proof.
  exact (proj1 (proj2 (proj2 (proj2
           (should_trade_iff Script.cfg0 (Script.pred_buy (8 # 10))
              (Script.bot0 Script.quiet [])))))
           ltac:(vm_compute; discriminate) ltac:(vm_compute; discriminate)
           ltac:(vm_compute; discriminate) ltac:(discriminate)).
Defined.

(** C1 as stated fails.  With a white-listed signal and a confidence that is
    NaN, the test [confidence < min_confidence] is false, so the filter lets
    the prediction through although its confidence is not at least the
    minimum. *)
Lemma nan_confidence_accepted :
  fst (should_trade Script.cfg0 Script.pred_nan (Script.bot0 Script.quiet [])) = Ret true
  /\ py_ge (VFloat S754_nan) (dec 6 1) = Ret false.
Proof. split; vm_compute; reflexivity. Qed.

Lemma calc_limit_price_spec_witness :
  fltb (float_of_Z 100) (float_of_Z 102) = true
  /\ fst (calc_limit_price Script.cfg0 (Script.pred_buy (8 # 10)) "buy"
            (Script.bot0 Script.quiet []))
     = Ret (dec 102102 3).
Proof.
  assert (Hup : fltb (float_of_Z 100) (float_of_Z 102) = true)
    by (vm_compute; reflexivity).
  split; [exact Hup|].
  destruct (calc_limit_price_spec Script.cfg0 (Script.pred_buy (8 # 10))
              (VFloat (float_of_Z 100)) (float_of_Z 100) (float_of_Z 102)
              (Script.bot0 Script.quiet []) eq_refl eq_refl eq_refl)
    as (Hbuy & _).
  destruct (Hbuy Hup) as (Hret & _).
  rewrite Hret. vm_compute. reflexivity.
Defined.

(** Binary64 at work: with current price 0.03125, expected price 0.046875
    and the default slippage, the product is a little below
    0.046921875 and rounds down to 0.04692187. *)
Example limit_price_binary64 :
  fst (calc_limit_price Script.cfg0
         {| signal := Some "buy"; confidence := None; profit_after_fee := None;
            current_price := Some (VFloat (dec 3125 5));
            expected_price := Some (VFloat (dec 46875 6)); predicted_return := None;
            updated_at := None; other_keys := [] |}
         "buy" (Script.bot0 Script.quiet []))
  = Ret (dec 4692187 8).
Proof. vm_compute. reflexivity. Qed.

(** ** Dictionaries *)

Module DictFacts.
Section Facts.
Context {V : Type}.
Implicit Types (d : Dict.t V) (k : string) (v : V).

Lemma get_set_same k v d : Dict.get k (Dict.set k v d) = Some v.
Proof.
  induction d as [|[k' v'] d IH]; simpl.
  - rewrite String.eqb_refl. reflexivity.
  - destruct (String.eqb k k') eqn:Hk; simpl; rewrite Hk; auto.
Qed.

Lemma get_set_other k k' v d :
  k' <> k -> Dict.get k' (Dict.set k v d) = Dict.get k' d.
Proof.
  intros Hne. induction d as [|[k0 v0] d IH]; simpl.
  - apply String.eqb_neq in Hne. rewrite Hne. reflexivity.
  - destruct (String.eqb_spec k k0) as [->|Hk]; simpl.
    + apply String.eqb_neq in Hne. rewrite Hne. reflexivity.
    + rewrite IH. reflexivity.
Qed.

Lemma get_pop_other k k' d :
  k' <> k -> Dict.get k' (Dict.pop k d) = Dict.get k' d.
Proof.
  intros Hne. induction d as [|[k0 v0] d IH]; simpl; [reflexivity|].
  destruct (String.eqb_spec k k0) as [->|Hk]; simpl.
  - apply String.eqb_neq in Hne. rewrite Hne. reflexivity.
  - rewrite IH. reflexivity.
Qed.

Lemma get_None_keys k d : ~ In k (Dict.keys d) -> Dict.get k d = None.
Proof.
  induction d as [|[k0 v0] d IH]; simpl; [reflexivity|].
  intros Hn. destruct (String.eqb_spec k k0) as [->|Hk].
  - exfalso. apply Hn. left. reflexivity.
  - apply IH. intros Hin. apply Hn. right. exact Hin.
Qed.

Lemma get_Some_keys k v d : Dict.get k d = Some v -> In k (Dict.keys d).
Proof.
  induction d as [|[k0 v0] d IH]; simpl; [discriminate|].
  destruct (String.eqb_spec k k0) as [->|Hk]; intros H.
  - left. reflexivity.
  - right. apply IH. exact H.
Qed.

Lemma get_Some_In k v d : Dict.get k d = Some v -> In (k, v) d.
Proof.
  induction d as [|[k0 v0] d IH]; simpl; [discriminate|].
  destruct (String.eqb_spec k k0) as [->|Hk]; intros H.
  - injection H as ->. left. reflexivity.
  - right. apply IH. exact H.
Qed.

Lemma In_get k v d : Dict.wf d -> In (k, v) d -> Dict.get k d = Some v.
Proof.
  unfold Dict.wf. induction d as [|[k0 v0] d IH]; simpl; [intros _ []|].
  intros Hnd [Heq|Hin].
  - injection Heq as -> ->. rewrite String.eqb_refl. reflexivity.
  - inversion Hnd as [|? ? Hnotin Hnd']; subst.
    destruct (String.eqb_spec k k0) as [->|Hk].
    + exfalso. apply Hnotin. apply (in_map fst) in Hin. exact Hin.
    + apply IH; assumption.
Qed.

Lemma keys_pop_incl k d : incl (Dict.keys (Dict.pop k d)) (Dict.keys d).
Proof.
  induction d as [|[k0 v0] d IH]; simpl; [apply incl_refl|].
  destruct (String.eqb k k0); simpl.
  - apply incl_tl, incl_refl.
  - intros x [<-|Hx]; [left; reflexivity|right; apply IH; exact Hx].
Qed.

Lemma wf_pop k d : Dict.wf d -> Dict.wf (Dict.pop k d).
Proof.
  unfold Dict.wf. induction d as [|[k0 v0] d IH]; simpl; [auto|].
  intros Hnd. inversion Hnd as [|? ? Hnotin Hnd']; subst.
  destruct (String.eqb k k0); simpl; [assumption|].
  constructor; [|apply IH; assumption].
  intros Hin. apply Hnotin. apply (keys_pop_incl k d). exact Hin.
Qed.

Lemma get_pop_same k d : Dict.wf d -> Dict.get k (Dict.pop k d) = None.
Proof.
  unfold Dict.wf. induction d as [|[k0 v0] d IH]; simpl; [reflexivity|].
  intros Hnd. inversion Hnd as [|? ? Hnotin Hnd']; subst.
  destruct (String.eqb_spec k k0) as [->|Hk]; simpl.
  - apply get_None_keys. exact Hnotin.
  - apply String.eqb_neq in Hk. rewrite Hk. apply IH. exact Hnd'.
Qed.

Lemma keys_set_present k v v0 d :
  Dict.get k d = Some v0 -> Dict.keys (Dict.set k v d) = Dict.keys d.
Proof.
  induction d as [|[k1 v1] d IH]; simpl; [discriminate|].
  destruct (String.eqb k k1) eqn:Hk; simpl; intros H; [reflexivity|].
  f_equal. apply IH. exact H.
Qed.

Lemma keys_set_absent k v d :
  Dict.get k d = None -> Dict.keys (Dict.set k v d) = (Dict.keys d ++ [k])%list.
Proof.
  induction d as [|[k1 v1] d IH]; simpl; [reflexivity|].
  destruct (String.eqb k k1) eqn:Hk; simpl; intros H; [discriminate|].
  f_equal. apply IH. exact H.
Qed.

Lemma keys_get k d : In k (Dict.keys d) -> exists v, Dict.get k d = Some v.
Proof.
  induction d as [|[k1 v1] d IH]; simpl; [intros []|].
  intros [->|Hin].
  - rewrite String.eqb_refl. eauto.
  - destruct (String.eqb k k1); eauto.
Qed.

Lemma wf_set k v d : Dict.wf d -> Dict.wf (Dict.set k v d).
Proof.
  unfold Dict.wf. intros Hnd.
  destruct (Dict.get k d) as [v0|] eqn:Hg.
  - rewrite (keys_set_present k v v0 d Hg). exact Hnd.
  - rewrite (keys_set_absent k v d Hg).
    apply NoDup_rev in Hnd. rewrite <- (rev_involutive (_ ++ _)%list).
    apply NoDup_rev. rewrite rev_app_distr. simpl.
    constructor; [|exact Hnd].
    rewrite <- in_rev. intros Hin.
    destruct (keys_get k d Hin) as (v1 & Hv1). congruence.
Qed.
End Facts.
End DictFacts.

(** ** Reasoning about method bodies *)

Section Monad.
Context {E : Env}.

Lemma bind_case {A B : Type} (m : M A) (k : A -> M B) (s : Bot) :
  (exists a s1, m s = (Ret a, s1) /\ bind m k s = k a s1)
  \/ (exists e s1, m s = (Raise e, s1) /\ bind m k s = (Raise e, s1)).
Proof.
  unfold bind. destruct (m s) as [[a|e] s1]; [left|right]; eauto.
Qed.

Lemma for_each_app {A : Type} (f : A -> M unit) (l1 l2 : list A) (s : Bot) :
  for_each f (l1 ++ l2) s
  = match for_each f l1 s with
    | (Ret _, s1) => for_each f l2 s1
    | (Raise e, s1) => (Raise e, s1)
    end.
Proof.
  revert s. induction l1 as [|x l1 IH]; intros s; [reflexivity|].
  cbn [app for_each]. unfold bind.
  destruct (f x s) as [[[]|e] s1]; [apply IH|reflexivity].
Qed.

Lemma emits_refl (p : Event -> bool) (s : Bot) : emits p s s.
Proof. exists []. rewrite app_nil_r. split; reflexivity. Qed.

Lemma emits_trans (p : Event -> bool) (s1 s2 s3 : Bot) :
  emits p s1 s2 -> emits p s2 s3 -> emits p s1 s3.
Proof.
  intros (e1 & H1 & P1) (e2 & H2 & P2). exists (e1 ++ e2)%list. split.
  - rewrite H2, H1, app_assoc. reflexivity.
  - rewrite forallb_app, P1, P2. reflexivity.
Qed.

Lemma quiet_refl (s : Bot) : quiet s s.
Proof. split; [reflexivity|apply emits_refl]. Qed.

Lemma quiet_trans (s1 s2 s3 : Bot) : quiet s1 s2 -> quiet s2 s3 -> quiet s1 s3.
Proof.
  intros (L1 & T1) (L2 & T2). split; [congruence|].
  eapply emits_trans; eassumption.
Qed.

Section Steps.
Variable R : Bot -> Bot -> Prop.
Hypothesis R_refl : forall s, R s s.
Hypothesis R_trans : forall s1 s2 s3, R s1 s2 -> R s2 s3 -> R s1 s3.

Lemma Steps_ret {A : Type} (a : A) : Steps R (ret a).
Proof. intros s. apply R_refl. Qed.

Lemma Steps_raise {A : Type} (e : exn) : Steps R (@raise E A e).
Proof. intros s. apply R_refl. Qed.

Lemma Steps_lift_result {A : Type} (r : result A) : Steps R (lift_result r).
Proof. intros s. apply R_refl. Qed.

Lemma Steps_get_ledger : Steps R get_ledger.
Proof. intros s. apply R_refl. Qed.

Lemma Steps_bind {A B : Type} (m : M A) (k : A -> M B) :
  Steps R m -> (forall a, Steps R (k a)) -> Steps R (bind m k).
Proof.
  intros Hm Hk s. specialize (Hm s).
  destruct (bind_case m k s) as [(a & s1 & Heq & ->)|(e & s1 & Heq & ->)];
    rewrite Heq in Hm; simpl in *.
  - eapply R_trans; [exact Hm|apply Hk].
  - exact Hm.
Qed.

Lemma Steps_try_except {A : Type} (m : M A) (h : exn -> M A) :
  Steps R m -> (forall e, Steps R (h e)) -> Steps R (try_except m h).
Proof.
  intros Hm Hh s. specialize (Hm s). unfold try_except.
  destruct (m s) as [[a|e] s1]; simpl in *; [exact Hm|].
  eapply R_trans; [exact Hm|apply Hh].
Qed.

Lemma Steps_for_each {A : Type} (f : A -> M unit) (l : list A) :
  (forall x, Steps R (f x)) -> Steps R (for_each f l).
Proof.
  intros Hf. induction l as [|x l IH]; simpl.
  - apply Steps_ret.
  - apply Steps_bind; [apply Hf|intros _; exact IH].
Qed.
End Steps.

(** Steps that only touch the world or only emit are in [emits p]. *)

Lemma emits_world (p : Event -> bool) (s : Bot) (w : World) :
  emits p s {| world := w; order_state := order_state s; trace := trace s |}.
Proof. exists []. simpl. rewrite app_nil_r. split; reflexivity. Qed.

Lemma emits_ledger (p : Event -> bool) (s : Bot) (l : Ledger) :
  emits p s {| world := world s; order_state := l; trace := trace s |}.
Proof. exists []. simpl. rewrite app_nil_r. split; reflexivity. Qed.

Lemma Steps_emit (p : Event -> bool) (ev : Event) :
  p ev = true -> Steps (emits p) (emit ev).
Proof.
  intros Hp s. exists [ev]. simpl. rewrite Hp. split; reflexivity.
Qed.

Lemma Steps_lift_world (p : Event -> bool) {A : Type} (f : World -> A * World) :
  Steps (emits p) (lift_world f).
Proof.
  intros s. unfold lift_world. destruct (f (world s)) as [a w]. apply emits_world.
Qed.

Lemma Steps_lift_call (p : Event -> bool) {A : Type} (f : World -> result A * World) :
  Steps (emits p) (lift_call f).
Proof.
  intros s. unfold lift_call. destruct (f (world s)) as [a w]. apply emits_world.
Qed.

Lemma Steps_set_ledger (p : Event -> bool) (l : Ledger) :
  Steps (emits p) (set_ledger l).
Proof. intros s. apply emits_ledger. Qed.

End Monad.

(** Decomposes a method body along its binds, branches and primitive
    steps, for a relation of the form [emits p]. *)
Ltac emits_steps :=
  repeat first
    [ apply Steps_ret; [apply emits_refl]
    | apply Steps_raise; [apply emits_refl]
    | apply Steps_lift_result; [apply emits_refl]
    | apply Steps_get_ledger; [apply emits_refl]
    | apply Steps_set_ledger
    | apply Steps_lift_world
    | apply Steps_lift_call
    | apply Steps_emit; reflexivity
    | apply Steps_bind; [apply emits_trans| |intro]
    | apply Steps_try_except; [apply emits_trans| |intro]
    | apply Steps_for_each; [apply emits_refl|apply emits_trans|intro]
    | progress cbv beta zeta
    | match goal with
      | |- Steps _ (if ?b then _ else _) => destruct b
      | |- Steps _ (match ?x with _ => _ end) => destruct x
      | |- Steps _ (let (_, _) := ?x in _) => destruct x
      end ].

(** ** Effects of the methods on the trace and on the ledger *)

Section Effects.
Context {E : Env}.
Variable cfg : Config.

Lemma quiet_emit (ev : Event) : is_placing ev = false -> Steps quiet (emit ev).
Proof.
  intros Hp s. split; [reflexivity|].
  apply Steps_emit. unfold not_placing. rewrite Hp. reflexivity.
Qed.

Lemma quiet_lift_call {A : Type} (f : World -> result A * World) :
  Steps quiet (lift_call f).
Proof.
  intros s. split; [|apply Steps_lift_call].
  unfold lift_call. destruct (f (world s)). reflexivity.
Qed.

Ltac quiet_steps :=
  repeat first
    [ apply Steps_ret; [apply quiet_refl]
    | apply Steps_raise; [apply quiet_refl]
    | apply Steps_lift_result; [apply quiet_refl]
    | apply quiet_lift_call
    | apply quiet_emit; reflexivity
    | apply Steps_bind; [apply quiet_trans| |intro]
    | progress cbv beta zeta
    | match goal with
      | |- Steps _ (if ?b then _ else _) => destruct b
      | |- Steps _ (match ?x with _ => _ end) => destruct x
      end ].

Lemma should_trade_quiet (pred : Prediction) : Steps quiet (should_trade cfg pred).
Proof. unfold should_trade, log. quiet_steps. Qed.

Lemma calc_limit_price_quiet (pred : Prediction) (side : string) :
  Steps quiet (calc_limit_price cfg pred side).
Proof. unfold calc_limit_price. quiet_steps. Qed.

Lemma calc_size_quiet (pred : Prediction) (price : float) :
  Steps quiet (calc_size cfg pred price).
Proof. unfold calc_size, log. quiet_steps. Qed.

Lemma cancel_order_logs (sym k : string) :
  Steps (emits not_enter) (cancel_order cfg sym k).
Proof. unfold cancel_order, log. emits_steps. Qed.

Lemma place_order_logs (sym side : string) (price size : float) (otype : string) :
  Steps (emits not_enter) (place_order cfg sym side price size otype).
Proof. unfold place_order, log. emits_steps. Qed.

Lemma process_prediction_logs (pred : Prediction) :
  Steps (emits not_enter) (process_prediction cfg pred).
Proof.
  unfold process_prediction, should_trade, calc_limit_price, calc_size, log.
  emits_steps; try apply place_order_logs.
Qed.

Lemma manage_entry_logs (now_ts : Q) (ca : Z) (it : string * Meta) :
  Steps (emits not_enter) (manage_entry cfg now_ts ca it).
Proof.
  unfold manage_entry, log. emits_steps; try apply cancel_order_logs.
Qed.

(** C3. When the ledger already holds at least [max_open_positions]
    (default 10) live entries, [process_prediction] leaves the ledger as it
    is and never calls [place_order], for any prediction and whether it
    returns or raises. *)
Theorem process_prediction_at_limit (pred : Prediction) (s : Bot)
  (Hlimit : (self_max_open_positions cfg <= Z.of_nat (open_count (order_state s)))%Z) :
  let s' := snd (process_prediction cfg pred s) in
  order_state s' = order_state s
  /\ exists evs, trace s' = (trace s ++ evs)%list
                 /\ forallb (fun ev => negb (is_placing ev)) evs = true.
Proof.
  change (quiet s (snd (process_prediction cfg pred s))).
  unfold process_prediction.
  destruct (if opt_str_eqb (signal pred) "buy" then Some "buy"
            else if opt_str_eqb (signal pred) "sell" then Some "sell" else None)
    as [side|]; [|apply quiet_emit; reflexivity].
  pose proof (should_trade_quiet pred s) as Q1.
  match goal with |- context [bind ?m ?k s] =>
    destruct (bind_case m k s) as [(ok & s1 & H1 & ->)|(e & s1 & H1 & ->)]
  end; rewrite H1 in Q1; simpl in Q1; [|exact Q1].
  destruct ok; cbn [negb];
    [|eapply quiet_trans; [exact Q1|apply quiet_emit; reflexivity]].
  pose proof (calc_limit_price_quiet pred side s1) as Q2.
  match goal with |- context [bind ?m ?k s1] =>
    destruct (bind_case m k s1) as [(price & s2 & H2 & ->)|(e & s2 & H2 & ->)]
  end; rewrite H2 in Q2; simpl in Q2;
    [|eapply quiet_trans; eassumption].
  pose proof (calc_size_quiet pred price s2) as Q3.
  match goal with |- context [bind ?m ?k s2] =>
    destruct (bind_case m k s2) as [(size & s3 & H3 & ->)|(e & s3 & H3 & ->)]
  end; rewrite H3 in Q3; simpl in Q3;
    [|eapply quiet_trans; [exact Q1|eapply quiet_trans; eassumption]].
  assert (Q : quiet s s3)
    by (eapply quiet_trans; [exact Q1|eapply quiet_trans; eassumption]).
  destruct (float_le_int size 0);
    [eapply quiet_trans; [exact Q|apply quiet_emit; reflexivity]|].
  unfold bind at 1, get_ledger at 1.
  destruct Q as (HL & HT). rewrite HL.
  destruct (Z.geb (Z.of_nat (open_count (order_state s))) (self_max_open_positions cfg))
    eqn:Hge.
  - eapply quiet_trans; [split; [exact HL|exact HT]|apply quiet_emit; reflexivity].
  - rewrite Z.geb_leb in Hge. apply Z.leb_gt in Hge. lia.
Qed.

End Effects.

Lemma process_prediction_at_limit_witness :
  (self_max_open_positions Script.cfg_one_position
   <= Z.of_nat (open_count Script.one_live))%Z
  /\ order_state
       (snd (process_prediction Script.cfg_one_position (Script.pred_buy (8 # 10))
               (Script.bot0 Script.quiet Script.one_live))) = Script.one_live.
Proof.
  assert (H : (self_max_open_positions Script.cfg_one_position
               <= Z.of_nat (open_count Script.one_live))%Z)
    by (vm_compute; discriminate).
  split; [exact H|].
  exact (proj1 (process_prediction_at_limit Script.cfg_one_position
                  (Script.pred_buy (8 # 10))
                  (Script.bot0 Script.quiet Script.one_live) H)).
Defined.

(** ** Position size *)

Lemma SFcompare_antisym (x y : float) :
  SFcompare y x = option_map CompOpp (SFcompare x y).
Proof.
  destruct x as [sx|sx| |sx mx ex], y as [sy|sy| |sy my ey]; cbn;
    try reflexivity; try (destruct sx; reflexivity); try (destruct sy; reflexivity);
    try (destruct sx, sy; reflexivity).
  f_equal. destruct sx, sy; try reflexivity;
    rewrite (Z.compare_antisym ex ey);
    destruct (ex ?= ey)%Z; cbn [CompOpp]; try reflexivity.
  - rewrite (Pos.compare_cont_antisym mx my Eq). reflexivity.
  - rewrite (Pos.compare_cont_antisym mx my Eq). reflexivity.
Qed.

Lemma SFcompare_refl (x : float) : x <> S754_nan -> SFcompare x x = Some Eq.
Proof.
  destruct x as [s|s| |s m e]; cbn; try reflexivity.
  - destruct s; reflexivity.
  - congruence.
  - intros _. destruct s; rewrite Z.compare_refl, Pos.compare_cont_refl; reflexivity.
Qed.

(** [min] returns one of its arguments, and one that neither exceeds when
    none of them is NaN. *)
Lemma py_min_le (a b : float) :
  (py_min a b = a \/ py_min a b = b)
  /\ (a <> S754_nan -> b <> S754_nan ->
      fleb (py_min a b) a = true /\ fleb (py_min a b) b = true).
Proof.
  unfold py_min, fltb, fleb, SFltb, SFleb.
  destruct (SFcompare b a) as [[| |]|] eqn:Hc;
    (split; [auto|intros Ha Hb]).
  - rewrite (SFcompare_refl a Ha), (SFcompare_antisym b a), Hc. split; reflexivity.
  - rewrite Hc, (SFcompare_refl b Hb). split; reflexivity.
  - rewrite (SFcompare_refl a Ha), (SFcompare_antisym b a), Hc. split; reflexivity.
  - exfalso. destruct a, b; cbn in Hc; congruence.
Qed.

Lemma positive_not_zero (x : float) : fltb (S754_zero false) x = true -> is_zero x = false.
Proof. destruct x; [discriminate|reflexivity..]. Qed.

Section Size.
Context {E : Env}.
Variable cfg : Config.

(** C9, as the code has it.  In percent mode, with a positive price and a
    successful balance query, the amount allocated is [max_exposure] (10^9
    when unset) if that is below [balance * pct] (pct 0.01 when unset) and
    [balance * pct] otherwise, so that, unless one of the two is NaN, it
    exceeds neither; [calc_size] returns the binary64 quotient
    [allocated / price] rounded to 8 decimal places by [round]: the double
    nearest to a multiple of 10^-8 that lies within half a unit of the 8th
    place from the quotient. *)
Theorem calc_size_percent_bound (pred : Prediction) (price balance : float)
  (w' : World) (s : Bot)
  (Hmode : get_or (mode (get_or (position_size (strategy cfg)) empty_position_size))
                  "percent" = "percent")
  (Hbal : okx_get_account_balance "USDT" (world s) = (Ret balance, w'))
  (Hprice : fltb (S754_zero false) price = true) :
  let pct := get_or (percent_of_balance
                       (get_or (position_size (strategy cfg)) empty_position_size))
                    (dec 1 2) in
  let max_exposure := get_or (max_exposure_usd (get_or (risk (strategy cfg)) empty_risk))
                             (float_of_Z 1000000000) in
  let exposure := fmul balance pct in
  let allocated := if fltb max_exposure exposure then max_exposure else exposure in
  let size := py_round (fdiv allocated price) 8 in
  fst (calc_size cfg pred price s) = Ret size
  /\ (exposure <> S754_nan -> max_exposure <> S754_nan ->
      fleb allocated exposure = true /\ fleb allocated max_exposure = true)
  /\ rounded8 (fdiv allocated price) size.
Proof.
  intros pct max_exposure exposure allocated size.
  unfold calc_size. rewrite Hmode.
  change (String.eqb "percent" "percent") with true. cbv iota.
  fold pct max_exposure.
  unfold bind at 1, lift_call. rewrite Hbal.
  rewrite (positive_not_zero price Hprice).
  split; [reflexivity|].
  split; [apply (proj2 (py_min_le exposure max_exposure))|apply py_round_rounded8].
Qed.

End Size.

Lemma calc_size_percent_bound_witness :
  fltb (S754_zero false) (dec 15 1) = true
  /\ fst (calc_size Script.cfg0 (Script.pred_buy (8 # 10)) (dec 15 1)
            (Script.bot0 Script.quiet []))
     = Ret (dec 66666667 8).
Proof.
  assert (Hp : fltb (S754_zero false) (dec 15 1) = true) by (vm_compute; reflexivity).
  split; [exact Hp|].
  destruct (calc_size_percent_bound (E := Script.env) Script.cfg0 (Script.pred_buy (8 # 10))
              (dec 15 1) (float_of_Z 100) Script.quiet (Script.bot0 Script.quiet [])
              eq_refl eq_refl Hp) as (Hret & _).
  rewrite Hret. vm_compute. reflexivity.
Defined.

(** C9 as stated fails: balance 100, 1% of the balance, price 1.5.  The
    size 0.66666667 is the quotient 0.666... rounded up, and the product
    [size * price], 1.000000005, exceeds 1 = min(100 * 0.01, 10^9). *)
Lemma calc_size_exceeds_allocation :
  fst (calc_size Script.cfg0 (Script.pred_buy (8 # 10)) (dec 15 1)
         (Script.bot0 Script.quiet []))
  = Ret (dec 66666667 8)
  /\ py_min (fmul (float_of_Z 100) (dec 1 2)) (float_of_Z 1000000000) = float_of_Z 1
  /\ fmul (dec 66666667 8) (dec 15 1) = dec 1000000005 9
  /\ fleb (fmul (dec 66666667 8) (dec 15 1)) (float_of_Z 1) = false.
Proof. repeat split; vm_compute; reflexivity. Qed.

(** ** Placing and cancelling *)

Lemma dict_set_same {V : Type} (k : string) (v : V) (d : Dict.t V) :
  Dict.get k d = Some v -> Dict.set k v d = d.
Proof.
  induction d as [|[k' v'] d IH]; simpl; [discriminate|].
  destruct (String.eqb_spec k k') as [->|Hne]; intros H.
  - injection H as ->. reflexivity.
  - rewrite IH; [reflexivity|exact H].
Qed.

Section Orders.
Context {E : Env}.
Variable cfg : Config.

(** C4. In live mode a failing exchange call is caught: [place_order] logs
    the error and returns [None], [cancel_order] logs the error (and returns
    [None]); in both cases the ledger is the one before the call. *)
Theorem gateway_failure_atomic (s : Bot) (Hlive : self_dry_run cfg = false) :
  (forall sym side price size otype e w',
      okx_place_order sym side price size otype (world s) = (Raise e, w') ->
      place_order cfg sym side price size otype s
      = (Ret None,
         {| world := w'; order_state := order_state s;
            trace := (trace s
                      ++ [Log INFO (MsgPlacing side sym price size otype false);
                          Log ERROR (MsgPlaceError e)])%list |}))
  /\ (forall sym order_id e w',
         okx_cancel_order sym order_id (world s) = (Raise e, w') ->
         cancel_order cfg sym order_id s
         = (Ret None,
            {| world := w'; order_state := order_state s;
               trace := (trace s
                         ++ [Log INFO (MsgCancel order_id false);
                             Log ERROR (MsgCancelError e)])%list |})).
Proof.
  split.
  - intros sym side price size otype e w' Hfail.
    unfold place_order. rewrite Hlive.
    unfold bind at 1, log, emit. cbv iota.
    unfold try_except, bind at 1, lift_call. cbn [world order_state trace].
    rewrite Hfail. unfold bind, emit, ret. cbn [world order_state trace].
    rewrite <- app_assoc. reflexivity.
  - intros sym order_id e w' Hfail.
    unfold cancel_order. rewrite Hlive.
    unfold bind at 1, log, emit. cbv iota.
    unfold try_except, bind at 1, lift_call. cbn [world order_state trace].
    rewrite Hfail. unfold bind, emit, ret. cbn [world order_state trace].
    rewrite <- app_assoc. reflexivity.
Qed.

(** C7. In dry-run mode, cancelling an order that the ledger already
    records as canceled returns, without raising, the acknowledgement
    [{"ordId": order_id, "state": "canceled"}] (it has no ["sCode"]) and
    leaves the whole ledger as it was: the record is still there, still
    canceled.  The outside world is not involved. *)
Theorem cancel_order_dry_idempotent (sym order_id : string) (meta : Meta) (s : Bot)
  (Hdry : self_dry_run cfg = true)
  (Hin : Dict.get order_id (order_state s) = Some meta)
  (Hcanceled : Dict.get "state" meta = Some "canceled") :
  let r := cancel_order cfg sym order_id s in
  fst r = Ret (Some {| c_sCode := None; c_state := Some "canceled";
                       c_ordId := Some order_id |})
  /\ order_state (snd r) = order_state s
  /\ Dict.get order_id (order_state (snd r)) = Some meta
  /\ world (snd r) = world s.
Proof.
  unfold cancel_order. rewrite Hdry.
  unfold bind, log, emit, get_ledger, set_ledger, ret.
  cbn [world order_state trace fst snd]. rewrite Hin.
  cbn [world order_state trace fst snd].
  rewrite (dict_set_same "state" "canceled" meta Hcanceled).
  rewrite (dict_set_same (V := Meta) order_id meta (order_state s) Hin).
  repeat split; try reflexivity. exact Hin.
Qed.

End Orders.

Lemma gateway_failure_atomic_witness :
  self_dry_run Script.cfg_live = false
  /\ fst (place_order Script.cfg_live "BTC-USDT" "buy" (float_of_Z 100) (float_of_Z 1) "limit"
            (Script.bot0 Script.quiet Script.one_live)) = Ret None
  /\ order_state
       (snd (cancel_order Script.cfg_live "BTC-USDT" "dry_1"
               (Script.bot0 Script.quiet Script.one_live))) = Script.one_live.
Proof.
  split; [reflexivity|].
  destruct (gateway_failure_atomic Script.cfg_live
              (Script.bot0 Script.quiet Script.one_live) eq_refl) as (Hp & Hc).
  split.
  - rewrite (Hp "BTC-USDT" "buy" (float_of_Z 100) (float_of_Z 1) "limit"
               (GatewayError "timeout") Script.quiet eq_refl).
    reflexivity.
  - rewrite (Hc "BTC-USDT" "dry_1" (GatewayError "timeout") Script.quiet eq_refl).
    reflexivity.
Defined.

Lemma cancel_order_dry_idempotent_witness :
  self_dry_run Script.cfg0 = true
  /\ Dict.get "dry_1" Script.one_canceled = Some (Script.canceled_meta "dry_1" Script.iso_t0)
  /\ order_state
       (snd (cancel_order Script.cfg0 "BTC-USDT" "dry_1"
               (Script.bot0 Script.quiet Script.one_canceled))) = Script.one_canceled.
Proof.
  split; [reflexivity|]. split; [reflexivity|].
  exact (proj1 (proj2 (cancel_order_dry_idempotent Script.cfg0 "BTC-USDT" "dry_1"
                         (Script.canceled_meta "dry_1" Script.iso_t0)
                         (Script.bot0 Script.quiet Script.one_canceled)
                         eq_refl eq_refl eq_refl))).
Defined.

(** The two methods that write the ledger keep its keys distinct, so the
    ledger, empty at start-up, always satisfies [Dict.wf]. *)
Lemma place_order_wf {E : Env} (cfg : Config) (sym side : string) (price size : float)
  (otype : string) (s : Bot) :
  Dict.wf (order_state s) ->
  Dict.wf (order_state (snd (place_order cfg sym side price size otype s))).
Proof.
  intros Hwf. unfold place_order.
  unfold bind at 1, log, emit. cbn [world order_state trace].
  destruct (self_dry_run cfg).
  - unfold bind, lift_world, get_ledger, set_ledger, ret.
    cbn [world order_state trace].
    destruct (time_time (world s)) as [t w1]. cbn [world order_state trace].
    destruct (now_iso w1) as [created w2]. cbn [world order_state trace snd].
    apply DictFacts.wf_set. exact Hwf.
  - unfold try_except, bind at 1, lift_call. cbn [world order_state trace].
    destruct (okx_place_order sym side price size otype (world s)) as [[resp|e] w1];
      [|exact Hwf].
    unfold bind, lift_world, get_ledger, set_ledger, ret.
    cbn [world order_state trace].
    destruct (str_or (r_ordId resp) (str_or (r_ord_id resp) (r_clOrdId resp)))
      as [x|]; [destruct (truthy_str (Some x))|];
      cbn [world order_state trace];
      try (destruct (time_time w1) as [t w2]; cbn [world order_state trace]);
      match goal with
      | |- context [now_iso ?w] => destruct (now_iso w) as [created w3]
      end;
      cbn [world order_state trace snd];
      apply DictFacts.wf_set; exact Hwf.
Qed.

(** The scenario of the specification: a dry-run placement returns a live
    record, stored in the ledger under its synthesized identifier. *)
Example scenario_place_order_dry :
  let r := place_order Script.cfg0 "BTC-USDT" "buy" (dec 1021 1) (dec 1 2) "limit"
             (Script.bot0 Script.quiet []) in
  exists meta,
    fst r = Ret (Some meta)
    /\ Dict.get "state" meta = Some "live"
    /\ Dict.get "ordId" meta = Some "dry_1700000000000"
    /\ Dict.get "dry_1700000000000" (order_state (snd r)) = Some meta.
Proof.
  eexists. split; [vm_compute; reflexivity|]. repeat split.
Qed.

(** C6 on the code.  Two dry-run placements whose clock readings fall in the
    same millisecond (1700000000.0001 and 1700000000.0004) build two
    different records with the same identifier; the second replaces the
    first in the ledger. *)
Theorem place_order_dry_id_collision :
  let w := {| Script.clock := [Script.t0 + (1 # 10000); Script.t0 + (4 # 10000)];
              Script.iso := [Script.iso_t0; Script.iso_t0];
              Script.predictions := []; Script.balance := Ret (float_of_Z 100);
              Script.place_replies := []; Script.cancel_replies := [] |} in
  let r1 := place_order Script.cfg0 "BTC-USDT" "buy" (float_of_Z 100) (float_of_Z 1) "limit"
              (Script.bot0 w []) in
  let r2 := place_order Script.cfg0 "BTC-USDT" "sell" (float_of_Z 101) (float_of_Z 2) "limit"
              (snd r1) in
  exists m1 m2,
    fst r1 = Ret (Some m1) /\ fst r2 = Ret (Some m2)
    /\ m1 <> m2
    /\ Dict.get "ordId" m1 = Some "dry_1700000000000"
    /\ Dict.get "ordId" m2 = Some "dry_1700000000000"
    /\ order_state (snd r2) = [("dry_1700000000000", m2)].
Proof.
  do 2 eexists.
  split; [vm_compute; reflexivity|].
  split; [vm_compute; reflexivity|].
  split; [discriminate|].
  repeat split.
Qed.

(** ** The timeout sweep *)

Section Sweep.
Context {E : Env}.
Variable cfg : Config.

Lemma cancel_order_dry (sym k : string) (s : Bot) :
  self_dry_run cfg = true ->
  cancel_order cfg sym k s
  = (Ret (Some (canceled_ack k)),
     {| world := world s;
        order_state :=
          match Dict.get k (order_state s) with
          | Some m => Dict.set k (Dict.set "state" "canceled" m) (order_state s)
          | None => order_state s
          end;
        trace := (trace s ++ [Log INFO (MsgCancel k true)])%list |}).
Proof.
  intros Hdry. unfold cancel_order. rewrite Hdry.
  unfold bind, log, emit, get_ledger, set_ledger, ret.
  cbn [world order_state trace].
  destruct (Dict.get k (order_state s)); reflexivity.
Qed.

Lemma cancel_order_live (sym k : string) (s : Bot) :
  self_dry_run cfg = false ->
  cancel_order cfg sym k s
  = match okx_cancel_order sym k (world s) with
    | (Ret resp, w') =>
        (Ret (Some resp),
         {| world := w';
            order_state := if cancel_confirmed resp then Dict.pop k (order_state s)
                           else order_state s;
            trace := (trace s ++ [Log INFO (MsgCancel k false)])%list |})
    | (Raise e, w') =>
        (Ret None,
         {| world := w'; order_state := order_state s;
            trace := (trace s ++ [Log INFO (MsgCancel k false);
                                  Log ERROR (MsgCancelError e)])%list |})
    end.
Proof.
  intros Hlive. unfold cancel_order. rewrite Hlive.
  unfold bind at 1, log, emit. cbv iota.
  unfold try_except, bind at 1, lift_call. cbn [world order_state trace].
  destruct (okx_cancel_order sym k (world s)) as [[resp|e] w'].
  - unfold bind, get_ledger, set_ledger, ret.
    destruct (cancel_confirmed resp); reflexivity.
  - unfold bind, emit, ret. cbn [world order_state trace].
    rewrite <- app_assoc. reflexivity.
Qed.

(** What one call of [cancel_order] does, in either mode. *)
Lemma cancel_order_effect (sym k : string) (s : Bot) :
  exists r s1 tl,
    cancel_order cfg sym k s = (Ret r, s1)
    /\ trace s1 = (trace s ++ Log INFO (MsgCancel k (self_dry_run cfg)) :: tl)%list
    /\ (forall k', existsb (is_cancel_of k') tl = false)
    /\ forallb not_enter tl = true
    /\ (forall k', k' <> k ->
          Dict.get k' (order_state s1) = Dict.get k' (order_state s))
    /\ (Dict.wf (order_state s) -> Dict.wf (order_state s1))
    /\ (self_dry_run cfg = true -> forall m,
          Dict.get k (order_state s) = Some m ->
          Dict.get k (order_state s1) = Some (Dict.set "state" "canceled" m)).
Proof.
  destruct (self_dry_run cfg) eqn:Hmode.
  - rewrite (cancel_order_dry sym k s Hmode).
    do 2 eexists. exists []. split; [reflexivity|]. cbn [world order_state trace].
    split; [reflexivity|]. split; [reflexivity|]. split; [reflexivity|].
    split; [|split].
    + intros k' Hne. destruct (Dict.get k (order_state s));
        [apply DictFacts.get_set_other; exact Hne|reflexivity].
    + intros Hwf. destruct (Dict.get k (order_state s));
        [apply DictFacts.wf_set; exact Hwf|exact Hwf].
    + intros _ m Hm. rewrite Hm. apply DictFacts.get_set_same.
  - rewrite (cancel_order_live sym k s Hmode).
    destruct (okx_cancel_order sym k (world s)) as [[resp|e] w'] eqn:Hcall.
    + do 2 eexists. exists []. split; [reflexivity|]. cbn [world order_state trace].
      split; [reflexivity|]. split; [reflexivity|]. split; [reflexivity|].
      split; [|split].
      * intros k' Hne. destruct (cancel_confirmed resp);
          [apply DictFacts.get_pop_other; exact Hne|reflexivity].
      * intros Hwf. destruct (cancel_confirmed resp);
          [apply DictFacts.wf_pop; exact Hwf|exact Hwf].
      * discriminate.
    + do 2 eexists. exists [Log ERROR (MsgCancelError e)].
      split; [reflexivity|]. cbn [world order_state trace].
      split; [reflexivity|]. split; [reflexivity|]. split; [reflexivity|].
      split; [|split]; try auto; try discriminate.
Qed.

Lemma manage_entry_eq (now_ts : Q) (ca : Z) (k : string) (m : Meta) :
  manage_entry cfg now_ts ca (k, m)
  = if sweep_cancels now_ts ca m then
      log INFO (MsgTimeout k ca) ;; cancel_order cfg (symbol cfg) k ;; ret tt
    else ret tt.
Proof.
  unfold manage_entry, sweep_cancels.
  destruct (is_live m); [|reflexivity]. cbn [negb andb].
  destruct (truthy_str (Dict.get "created_at" m)); [|reflexivity]. cbn [andb].
  reflexivity.
Qed.

Lemma manage_entry_effect (now_ts : Q) (ca : Z) (k : string) (m : Meta) (s : Bot) :
  exists s1 evs,
    manage_entry cfg now_ts ca (k, m) s = (Ret tt, s1)
    /\ trace s1 = (trace s ++ evs)%list
    /\ (forall k', existsb (is_cancel_of k') evs
                   = sweep_cancels now_ts ca m && String.eqb k' k)
    /\ forallb not_enter evs = true
    /\ (forall k', k' <> k ->
          Dict.get k' (order_state s1) = Dict.get k' (order_state s))
    /\ (Dict.wf (order_state s) -> Dict.wf (order_state s1))
    /\ (sweep_cancels now_ts ca m = false -> order_state s1 = order_state s)
    /\ (sweep_cancels now_ts ca m = true -> self_dry_run cfg = true ->
          Dict.get k (order_state s) = Some m ->
          Dict.get k (order_state s1) = Some (Dict.set "state" "canceled" m)).
Proof.
  rewrite manage_entry_eq.
  destruct (sweep_cancels now_ts ca m) eqn:Hsw.
  - unfold bind at 1, log, emit.
    set (s0 := {| world := world s; order_state := order_state s;
                  trace := (trace s ++ [Log INFO (MsgTimeout k ca)])%list |}).
    destruct (cancel_order_effect (symbol cfg) k s0)
      as (r & s1 & tl & Hrun & Htr & Htl & Hne & Hframe & Hwf & Hdry).
    exists s1, (Log INFO (MsgTimeout k ca)
                :: Log INFO (MsgCancel k (self_dry_run cfg)) :: tl).
    split; [unfold bind; rewrite Hrun; reflexivity|].
    split; [rewrite Htr; unfold s0; cbn [trace]; rewrite <- app_assoc; reflexivity|].
    split; [intros k'; cbn [existsb is_cancel_of]; rewrite Htl, orb_false_r;
            reflexivity|].
    split; [cbn [forallb]; rewrite Hne; reflexivity|].
    split; [exact Hframe|]. split; [exact Hwf|].
    split; [discriminate|].
    intros _ Hd Hm. apply Hdry; assumption.
  - exists s, []. split; [reflexivity|].
    split; [rewrite app_nil_r; reflexivity|].
    repeat split; auto; discriminate.
Qed.

Lemma sweep_loop (now_ts : Q) (ca : Z) (items : list (string * Meta)) :
  forall s, NoDup (map fst items) ->
  exists s' evs,
    for_each (manage_entry cfg now_ts ca) items s = (Ret tt, s')
    /\ trace s' = (trace s ++ evs)%list
    /\ (forall k, existsb (is_cancel_of k) evs
                  = existsb (fun it => sweep_cancels now_ts ca (snd it)
                                       && String.eqb k (fst it)) items)
    /\ forallb not_enter evs = true
    /\ (forall k, ~ In k (map fst items) ->
          Dict.get k (order_state s') = Dict.get k (order_state s))
    /\ (Dict.wf (order_state s) -> Dict.wf (order_state s'))
    /\ (forall k m, In (k, m) items -> sweep_cancels now_ts ca m = false ->
          Dict.get k (order_state s') = Dict.get k (order_state s))
    /\ (self_dry_run cfg = true -> forall k m, In (k, m) items ->
          sweep_cancels now_ts ca m = true ->
          Dict.get k (order_state s) = Some m ->
          Dict.get k (order_state s') = Some (Dict.set "state" "canceled" m)).
Proof.
  induction items as [|[k0 m0] rest IH]; intros s Hnd.
  - exists s, []. split; [reflexivity|].
    split; [rewrite app_nil_r; reflexivity|].
    repeat split; auto; intros; contradiction.
  - inversion Hnd as [|? ? Hk0 Hnd']; subst.
    destruct (manage_entry_effect now_ts ca k0 m0 s)
      as (s1 & evs1 & Hrun1 & Htr1 & Hc1 & Hn1 & Hf1 & Hw1 & Hkeep1 & Hd1).
    destruct (IH s1 Hnd')
      as (s' & evs2 & Hrun2 & Htr2 & Hc2 & Hn2 & Hf2 & Hw2 & Hkeep2 & Hd2).
    assert (Hother : forall k m, In (k, m) rest -> k <> k0).
    { intros k m Hin ->. apply Hk0. apply (in_map fst) in Hin. exact Hin. }
    exists s', (evs1 ++ evs2)%list.
    split; [cbn [for_each]; unfold bind; rewrite Hrun1; exact Hrun2|].
    split; [rewrite Htr2, Htr1, app_assoc; reflexivity|].
    split; [intros k; rewrite existsb_app, Hc1, Hc2; reflexivity|].
    split; [rewrite forallb_app, Hn1, Hn2; reflexivity|].
    split.
    { intros k Hk. cbn [map fst In] in Hk.
      rewrite Hf2 by (intros Hin; apply Hk; right; exact Hin).
      apply Hf1. intros ->. apply Hk. left. reflexivity. }
    split; [intros Hw; apply Hw2, Hw1, Hw|].
    split.
    { intros k m [Heq|Hin] Hsw.
      - injection Heq as <- <-. rewrite (Hf2 k0 Hk0). rewrite (Hkeep1 Hsw).
        reflexivity.
      - rewrite (Hkeep2 k m Hin Hsw). apply Hf1. exact (Hother k m Hin). }
    intros Hdry k m [Heq|Hin] Hsw Hget.
    + injection Heq as <- <-. rewrite (Hf2 k0 Hk0). apply Hd1; assumption.
    + apply (Hd2 Hdry k m Hin Hsw).
      rewrite (Hf1 k (Hother k m Hin)). exact Hget.
Qed.

Lemma existsb_items_absent (f : Meta -> bool) (k : string) (d : Ledger) :
  ~ In k (Dict.keys d) ->
  existsb (fun it => f (snd it) && String.eqb k (fst it)) d = false.
Proof.
  induction d as [|[k0 m0] d IH]; cbn [existsb Dict.keys map fst snd In];
    [reflexivity|].
  intros Hn. rewrite IH by (intros H; apply Hn; right; exact H).
  destruct (String.eqb_spec k k0) as [->|Hne].
  - exfalso. apply Hn. left. reflexivity.
  - rewrite andb_false_r. reflexivity.
Qed.

Lemma existsb_items_get (f : Meta -> bool) (k : string) (d : Ledger) :
  Dict.wf d ->
  existsb (fun it => f (snd it) && String.eqb k (fst it)) d
  = match Dict.get k d with Some m => f m | None => false end.
Proof.
  unfold Dict.wf.
  induction d as [|[k0 m0] d IH]; cbn [existsb Dict.keys Dict.get map fst snd];
    [reflexivity|].
  intros Hnd. inversion Hnd as [|? ? Hk0 Hnd']; subst.
  destruct (String.eqb_spec k k0) as [->|Hne].
  - rewrite (existsb_items_absent f k0 d Hk0), andb_true_r, orb_false_r.
    reflexivity.
  - rewrite andb_false_r, (IH Hnd'). reflexivity.
Qed.

(** A sweep never raises, whatever the ledger, and emits only log lines
    after its entry mark. *)
Lemma sweep_loop_total (now_ts : Q) (ca : Z) (items : list (string * Meta)) :
  forall s, exists s' evs,
    for_each (manage_entry cfg now_ts ca) items s = (Ret tt, s')
    /\ trace s' = (trace s ++ evs)%list
    /\ forallb not_enter evs = true.
Proof.
  induction items as [|[k0 m0] rest IH]; intros s.
  - exists s, []. rewrite app_nil_r. repeat split.
  - destruct (manage_entry_effect now_ts ca k0 m0 s)
      as (s1 & evs1 & Hrun1 & Htr1 & _ & Hn1 & _).
    destruct (IH s1) as (s' & evs2 & Hrun2 & Htr2 & Hn2).
    exists s', (evs1 ++ evs2)%list.
    split; [cbn [for_each]; unfold bind; rewrite Hrun1; exact Hrun2|].
    split; [rewrite Htr2, Htr1, app_assoc; reflexivity|].
    rewrite forallb_app, Hn1, Hn2. reflexivity.
Qed.

Lemma manage_orders_total (s : Bot) :
  exists s' evs,
    manage_orders cfg s = (Ret tt, s')
    /\ trace s' = (trace s ++ EnterManageOrders :: evs)%list
    /\ forallb not_enter evs = true.
Proof.
  unfold manage_orders.
  unfold bind at 1, emit. unfold bind at 1, lift_world. cbn [world order_state trace].
  destruct (time_time (world s)) as [now_ts w1].
  unfold bind at 1, get_ledger. cbn [order_state].
  match goal with |- context [for_each ?f ?l ?s0] =>
    destruct (sweep_loop_total now_ts (self_cancel_after cfg) l s0)
      as (s' & evs & Hrun & Htr & Hn)
  end.
  exists s', evs. split; [exact Hrun|].
  split; [rewrite Htr; cbn [trace]; rewrite <- app_assoc; reflexivity|exact Hn].
Qed.

(** One sweep over a well-formed ledger, entry by entry. *)
Lemma manage_orders_run (s : Bot) (now_ts : Q) (w1 : World) :
  Dict.wf (order_state s) ->
  time_time (world s) = (now_ts, w1) ->
  let ca := self_cancel_after cfg in
  exists s' evs,
    manage_orders cfg s = (Ret tt, s')
    /\ trace s' = (trace s ++ EnterManageOrders :: evs)%list
    /\ (forall k, existsb (is_cancel_of k) evs
                  = match Dict.get k (order_state s) with
                    | Some m => sweep_cancels now_ts ca m
                    | None => false
                    end)
    /\ Dict.wf (order_state s')
    /\ (forall k m, Dict.get k (order_state s) = Some m ->
          sweep_cancels now_ts ca m = false ->
          Dict.get k (order_state s') = Some m)
    /\ (self_dry_run cfg = true -> forall k m,
          Dict.get k (order_state s) = Some m ->
          sweep_cancels now_ts ca m = true ->
          Dict.get k (order_state s') = Some (Dict.set "state" "canceled" m)).
Proof.
  intros Hwf Hnow ca.
  unfold manage_orders.
  unfold bind at 1, emit. unfold bind at 1, lift_world. cbn [world order_state trace].
  rewrite Hnow.
  unfold bind at 1, get_ledger. cbn [order_state]. fold ca.
  match goal with |- context [for_each ?f ?l ?s0] =>
    destruct (sweep_loop now_ts ca l s0 Hwf)
      as (s' & evs & Hrun & Htr & Hc & _ & _ & Hw & Hkeep & Hd)
  end.
  cbn [order_state trace] in *. unfold Dict.items in *.
  exists s', evs. split; [exact Hrun|].
  split; [rewrite Htr, <- app_assoc; reflexivity|].
  split; [intros k; rewrite Hc; apply existsb_items_get; exact Hwf|].
  split; [apply Hw; exact Hwf|].
  split.
  { intros k m Hget Hsw. rewrite <- Hget.
    apply (Hkeep k m); [apply DictFacts.get_Some_In; exact Hget|exact Hsw]. }
  intros Hdry k m Hget Hsw.
  apply (Hd Hdry k m); [apply DictFacts.get_Some_In; exact Hget|exact Hsw|exact Hget].
Qed.

Lemma is_live_iff (m : Meta) : is_live m = true <-> Dict.get "state" m = Some "live".
Proof.
  unfold is_live, opt_str_eqb. destruct (Dict.get "state" m) as [x|].
  - rewrite String.eqb_eq. split; [intros ->; reflexivity|congruence].
  - split; discriminate.
Qed.

Lemma truthy_str_Some (c : string) : c <> "" -> truthy_str (Some c) = true.
Proof. destruct c; [congruence|reflexivity]. Qed.

Lemma Qltb_Qeq_r (x y z : Q) : y == z -> Qltb x y = Qltb x z.
Proof.
  intros Hyz. destruct (Qltb x z) eqn:H.
  - apply Qltb_true. apply Qltb_true in H. rewrite Hyz. exact H.
  - apply Qltb_false. apply Qltb_false in H. rewrite Hyz. exact H.
Qed.

Lemma Qltb_inject_Z_0 (z : Z) : Qltb (inject_Z z) 0 = (z <? 0)%Z.
Proof.
  destruct (z <? 0)%Z eqn:H.
  - apply Qltb_true. apply Z.ltb_lt in H. rewrite (Zlt_Qlt z 0) in H. exact H.
  - apply Qltb_false. apply Z.ltb_ge in H. rewrite (Zle_Qle 0 z) in H. exact H.
Qed.

Lemma cancel_confirmed_true (resp : CancelResp) :
  c_sCode resp = None \/ c_sCode resp = Some "0"
  \/ c_state resp = Some "canceled"
  \/ (exists x, c_ordId resp = Some x /\ x <> "") ->
  cancel_confirmed resp = true.
Proof.
  unfold cancel_confirmed.
  intros [H|[H|[H|(x & H & Hx)]]]; rewrite H; cbn [get_or opt_str_eqb].
  - reflexivity.
  - reflexivity.
  - change (String.eqb "canceled" "canceled") with true.
    rewrite orb_true_r. reflexivity.
  - rewrite (truthy_str_Some x Hx). apply orb_true_r.
Qed.

(** The entry that follows [pre] in a live-mode sweep: when it has timed out
    and the exchange's answer to the cancel call made for it confirms, it
    is gone from the ledger at the end of the sweep. *)
Lemma sweep_confirmed (now_ts : Q) (ca : Z) (pre post : list (string * Meta))
  (k : string) (m : Meta) (s0 : Bot) (resp : CancelResp) (w' : World) :
  NoDup (map fst (pre ++ (k, m) :: post)) ->
  Dict.wf (order_state s0) ->
  self_dry_run cfg = false ->
  sweep_cancels now_ts ca m = true ->
  okx_cancel_order (symbol cfg) k
    (world (snd (for_each (manage_entry cfg now_ts ca) pre s0))) = (Ret resp, w') ->
  cancel_confirmed resp = true ->
  Dict.get k
    (order_state (snd (for_each (manage_entry cfg now_ts ca)
                         (pre ++ (k, m) :: post) s0))) = None.
Proof.
  intros Hnd Hwf Hlive Hsw Hcall Hconf.
  rewrite map_app in Hnd. cbn [map fst] in Hnd.
  pose proof (NoDup_remove_2 _ _ _ Hnd) as Hk.
  assert (Hpost : ~ In k (map fst post)).
  { intros Hin. apply Hk. apply in_or_app. right. exact Hin. }
  assert (Hnd_pre : NoDup (map fst pre)).
  { apply NoDup_app_remove_r in Hnd. exact Hnd. }
  assert (Hnd_post : NoDup (map fst post)).
  { apply NoDup_app_remove_l in Hnd. inversion Hnd. assumption. }
  rewrite for_each_app.
  destruct (sweep_loop now_ts ca pre s0 Hnd_pre)
    as (sk & evs1 & Hrun1 & _ & _ & _ & _ & Hwf1 & _).
  rewrite Hrun1 in *. cbn [snd] in Hcall.
  cbn [for_each]. unfold bind at 1. rewrite manage_entry_eq, Hsw.
  unfold bind at 1, log, emit.
  unfold bind at 1. rewrite (cancel_order_live _ _ _ Hlive).
  cbn [world order_state trace]. rewrite Hcall, Hconf.
  unfold ret at 1.
  match goal with |- context [for_each ?f post ?s2] =>
    destruct (sweep_loop now_ts ca post s2 Hnd_post)
      as (s' & evs2 & Hrun2 & _ & _ & _ & Hframe & _)
  end.
  rewrite Hrun2. cbn [snd]. rewrite (Hframe k Hpost). cbn [order_state].
  apply DictFacts.get_pop_same. apply Hwf1. exact Hwf.
Qed.

(** C5, as the code has it.  One sweep at clock reading [now] over a ledger
    with distinct keys never raises.  The timeout is
    [int(cancel_if_unfilled_after_sec)], the configured number truncated
    toward zero, 120 when unset.  For every live entry with a non-empty
    [created_at]:
    - if the date parses and [now - created_ts] exceeds the timeout,
      [cancel_order] is called for it, and afterwards the entry is recorded
      as canceled in dry-run mode, or is gone from the ledger in live mode
      when the exchange's answer to that call confirms the cancellation (no
      ["sCode"] or ["sCode"] "0", or state "canceled", or a non-empty
      ["ordId"]);
    - if the date does not parse, the elapsed time is taken as 0: the entry
      is cancelled exactly when the timeout is negative, and with a timeout
      that is not negative it is not cancelled and stays as it was. *)
Theorem manage_orders_sweep (s : Bot) (now : Q) (w1 : World)
  (Hwf : Dict.wf (order_state s))
  (Hnow : time_time (world s) = (now, w1)) :
  let timeout :=
    py_int (get_or (cancel_if_unfilled_after_sec
                      (get_or (order_management (strategy cfg)) empty_order_management))
                   (inject_Z 120)) in
  exists s' evs,
    manage_orders cfg s = (Ret tt, s')
    /\ trace s' = (trace s ++ EnterManageOrders :: evs)%list
    /\ forall pre k meta post c,
         order_state s = (pre ++ (k, meta) :: post)%list ->
         Dict.get "state" meta = Some "live" ->
         Dict.get "created_at" meta = Some c -> c <> "" ->
         match fromisoformat_timestamp (replace_Z c) with
         | Some created_ts =>
             inject_Z timeout < now - created_ts ->
             existsb (is_cancel_of k) evs = true
             /\ (self_dry_run cfg = true ->
                 exists meta', Dict.get k (order_state s') = Some meta'
                               /\ Dict.get "state" meta' = Some "canceled")
             /\ (self_dry_run cfg = false ->
                 forall resp w',
                   okx_cancel_order (symbol cfg) k
                     (world (sweep_reaches cfg now w1 s pre)) = (Ret resp, w') ->
                   c_sCode resp = None \/ c_sCode resp = Some "0"
                   \/ c_state resp = Some "canceled"
                   \/ (exists x, c_ordId resp = Some x /\ x <> "") ->
                   Dict.get k (order_state s') = None)
         | None =>
             existsb (is_cancel_of k) evs = (timeout <? 0)%Z
             /\ ((0 <= timeout)%Z -> Dict.get k (order_state s') = Some meta)
         end.
Proof.
  intros timeout.
  destruct (manage_orders_run s now w1 Hwf Hnow)
    as (s' & evs & Hrun & Htr & Hc & _ & Hkeep & Hd).
  exists s', evs. split; [exact Hrun|]. split; [exact Htr|].
  intros pre k meta post c Hsplit Hstate Hcreated Hne.
  assert (Hget : Dict.get k (order_state s) = Some meta).
  { apply DictFacts.In_get; [exact Hwf|].
    rewrite Hsplit. apply in_or_app. right. left. reflexivity. }
  change (self_cancel_after cfg) with timeout in *.
  assert (Hsw : sweep_cancels now timeout meta
                = Qltb (inject_Z timeout)
                       (now - match fromisoformat_timestamp (replace_Z c) with
                              | Some ts => ts
                              | None => now
                              end)).
  { unfold sweep_cancels. apply is_live_iff in Hstate. rewrite Hstate, Hcreated.
    rewrite (truthy_str_Some c Hne). reflexivity. }
  specialize (Hc k). rewrite Hget in Hc.
  destruct (fromisoformat_timestamp (replace_Z c)) as [created_ts|].
  - intros Hold. apply Qltb_true in Hold. rewrite Hold in Hsw.
    split; [rewrite Hc; exact Hsw|]. split.
    + intros Hdry. eexists. split; [apply (Hd Hdry k meta Hget Hsw)|].
      apply DictFacts.get_set_same.
    + intros Hlive resp w' Hcall Hok.
      assert (Hs' : s' = snd (manage_orders cfg s)) by (rewrite Hrun; reflexivity).
      rewrite Hs'. unfold manage_orders.
      unfold bind at 1, emit. unfold bind at 1, lift_world.
      cbn [world order_state trace]. rewrite Hnow.
      unfold bind at 1, get_ledger. cbn [order_state].
      unfold Dict.items. rewrite Hsplit.
      apply (sweep_confirmed now timeout pre post k meta _ resp w').
      * unfold Dict.wf, Dict.keys in Hwf. rewrite Hsplit in Hwf. exact Hwf.
      * cbn [order_state]. rewrite <- Hsplit. exact Hwf.
      * exact Hlive.
      * exact Hsw.
      * unfold sweep_reaches in Hcall. rewrite Hsplit in Hcall. exact Hcall.
      * apply cancel_confirmed_true. exact Hok.
  - assert (Hz : Qltb (inject_Z timeout) (now - now) = (timeout <? 0)%Z).
    { rewrite (Qltb_Qeq_r _ (now - now) 0) by ring. apply Qltb_inject_Z_0. }
    rewrite Hz in Hsw. split; [rewrite Hc; exact Hsw|].
    intros Hpos. apply (Hkeep k meta Hget). rewrite Hsw.
    apply Z.ltb_ge. exact Hpos.
Qed.

(** C10. A live entry whose [created_at] is absent or empty is skipped by
    every sweep: whatever the clock reads, after any number of sweeps
    [cancel_order] has not been called for it and the ledger still holds
    the same record. *)
Theorem manage_orders_skips_undated (n : nat) (k : string) (meta : Meta) :
  forall (s : Bot)
    (Hwf : Dict.wf (order_state s))
    (Hget : Dict.get k (order_state s) = Some meta)
    (Hlive : Dict.get "state" meta = Some "live")
    (Hundated : Dict.get "created_at" meta = None
                \/ Dict.get "created_at" meta = Some ""),
  exists s' evs,
    sweeps cfg n s = (Ret tt, s')
    /\ trace s' = (trace s ++ evs)%list
    /\ existsb (is_cancel_of k) evs = false
    /\ Dict.get k (order_state s') = Some meta.
Proof.
  assert (Hskip : forall now,
             Dict.get "created_at" meta = None
             \/ Dict.get "created_at" meta = Some "" ->
             sweep_cancels now (self_cancel_after cfg) meta = false).
  { intros now Hu. unfold sweep_cancels.
    destruct (is_live meta); [|reflexivity]. cbn [andb].
    destruct Hu as [-> | ->]; reflexivity. }
  induction n as [|n IH]; intros s Hwf Hget Hlive Hundated.
  - exists s, []. rewrite app_nil_r. repeat split. exact Hget.
  - destruct (time_time (world s)) as [now w1] eqn:Hnow.
    destruct (manage_orders_run s now w1 Hwf Hnow)
      as (s1 & evs1 & Hrun & Htr & Hc & Hwf1 & Hkeep & _).
    specialize (Hc k). rewrite Hget, (Hskip now Hundated) in Hc.
    pose proof (Hkeep k meta Hget (Hskip now Hundated)) as Hget1.
    destruct (IH s1 Hwf1 Hget1 Hlive Hundated) as (s' & evs2 & Hrun2 & Htr2 & Hc2 & Hget2).
    exists s', (EnterManageOrders :: evs1 ++ evs2)%list.
    split; [cbn [sweeps]; unfold bind; rewrite Hrun; exact Hrun2|].
    split; [rewrite Htr2, Htr, <- app_assoc; reflexivity|].
    split; [|exact Hget2].
    cbn [existsb is_cancel_of]. rewrite existsb_app, Hc, Hc2. reflexivity.
Qed.

End Sweep.

Lemma manage_orders_sweep_witness :
  Dict.wf Script.one_live
  /\ (exists meta',
        Dict.get "dry_1"
          (order_state (snd (manage_orders Script.cfg0
                               (Script.bot0 Script.later Script.one_live))))
        = Some meta'
        /\ Dict.get "state" meta' = Some "canceled")
  /\ Dict.get "dry_1"
       (order_state
          (snd (manage_orders Script.cfg_live
                  (Script.bot0 Script.later_confirming Script.one_live)))) = None.
Proof.
  assert (Hwf : Dict.wf Script.one_live).
  { repeat constructor. intros []. }
  assert (Hold : inject_Z 120 < Script.t0 + inject_Z 130 - Script.t0)
    by reflexivity.
  split; [exact Hwf|]. split.
  - destruct (manage_orders_sweep (E := Script.env) Script.cfg0
                (Script.bot0 Script.later Script.one_live)
                (Script.t0 + inject_Z 130)
                {| Script.clock := []; Script.iso := [Script.iso_t0];
                   Script.predictions := []; Script.balance := Ret (float_of_Z 100);
                   Script.place_replies := []; Script.cancel_replies := [] |}
                Hwf eq_refl) as (s' & evs & Hrun & _ & H).
    rewrite Hrun. cbn [snd].
    specialize (H [] "dry_1" (Script.live_meta "dry_1" Script.iso_t0) []
                  Script.iso_t0
                  eq_refl eq_refl eq_refl ltac:(discriminate)).
    change (fromisoformat_timestamp (replace_Z Script.iso_t0))
      with (Some Script.t0) in H.
    cbv iota in H. destruct (H Hold) as (_ & Hdry & _).
    exact (Hdry eq_refl).
  - destruct (manage_orders_sweep (E := Script.env) Script.cfg_live
                (Script.bot0 Script.later_confirming Script.one_live)
                (Script.t0 + inject_Z 130)
                {| Script.clock := []; Script.iso := [Script.iso_t0];
                   Script.predictions := []; Script.balance := Ret (float_of_Z 100);
                   Script.place_replies := [];
                   Script.cancel_replies :=
                     [Ret {| c_sCode := Some "0"; c_state := None;
                             c_ordId := Some "dry_1" |}] |}
                Hwf eq_refl) as (s' & evs & Hrun & _ & H).
    rewrite Hrun. cbn [snd].
    specialize (H [] "dry_1" (Script.live_meta "dry_1" Script.iso_t0) []
                  Script.iso_t0
                  eq_refl eq_refl eq_refl ltac:(discriminate)).
    change (fromisoformat_timestamp (replace_Z Script.iso_t0))
      with (Some Script.t0) in H.
    cbv iota in H. destruct (H Hold) as (_ & _ & Hlive).
    apply (Hlive eq_refl
             {| c_sCode := Some "0"; c_state := None; c_ordId := Some "dry_1" |}
             {| Script.clock := []; Script.iso := [Script.iso_t0];
                Script.predictions := []; Script.balance := Ret (float_of_Z 100);
                Script.place_replies := []; Script.cancel_replies := [] |}
             eq_refl).
    right. left. reflexivity.
Defined.

(** C5 as stated fails.  With a timeout of -1 s, a live order whose
    [created_at] is not a date is taken as 0 s old, and 0 > -1: the sweep
    calls [cancel_order] for it and the ledger records it as canceled. *)
Lemma unparseable_date_canceled :
  let cfg := Script.cfg_managed None
               {| cancel_if_unfilled_after_sec := Some (inject_Z (-1));
                  monitor_open_orders_every_sec := None |} in
  let s' := snd (manage_orders cfg (Script.bot0 Script.later Script.one_misdated)) in
  Script.parse_iso (replace_Z "yesterday") = None
  /\ existsb (is_cancel_of "dry_1") (trace s') = true
  /\ Dict.get "dry_1" (order_state s')
     = Some (Script.canceled_meta "dry_1" "yesterday").
Proof. repeat split. Qed.

Lemma manage_orders_skips_undated_witness :
  Dict.wf Script.one_undated
  /\ Dict.get "created_at" (Script.undated_meta "77") = None
  /\ Dict.get "77"
       (order_state (snd (sweeps Script.cfg0 3
                            (Script.bot0 Script.later Script.one_undated))))
     = Some (Script.undated_meta "77").
Proof.
  assert (Hwf : Dict.wf Script.one_undated).
  { repeat constructor. intros []. }
  split; [exact Hwf|]. split; [reflexivity|].
  destruct (manage_orders_skips_undated (E := Script.env) Script.cfg0 3 "77"
              (Script.undated_meta "77")
              (Script.bot0 Script.later Script.one_undated)
              Hwf eq_refl eq_refl (or_introl eq_refl))
    as (s' & evs & Hrun & _ & _ & Hget).
  rewrite Hrun. exact Hget.
Defined.

(** ** The poll loop *)

Lemma count_events_app (p : Event -> bool) (a b : list Event) :
  count_events p (a ++ b) = (count_events p a + count_events p b)%nat.
Proof.
  unfold count_events. rewrite filter_app, length_app. reflexivity.
Qed.

Lemma count_enter_logs (evs : list Event) :
  forallb not_enter evs = true -> count_events is_enter_manage evs = 0%nat.
Proof.
  unfold count_events, not_enter.
  induction evs as [|ev evs IH]; cbn [forallb filter]; [reflexivity|].
  intros H. apply andb_true_iff in H. destruct H as (Hev & Hrest).
  apply negb_true_iff in Hev. rewrite Hev. apply IH. exact Hrest.
Qed.

Section Loop.
Context {E : Env}.
Variable cfg : Config.

(** The sweeps that [run_once] itself performs: one when a prediction was
    fetched and processed, none otherwise. *)
Lemma run_once_sweeps (s s1 : Bot) :
  run_once cfg s = (Ret tt, s1) ->
  exists evs,
    trace s1 = (trace s ++ evs)%list
    /\ count_events is_enter_manage evs
       = match fst (http_get_prediction (symbol cfg) (world s)) with
         | Ret p => if pred_truthy p then 1%nat else 0%nat
         | Raise _ => 0%nat
         end.
Proof.
  unfold run_once, fetch_prediction.
  unfold bind at 1, try_except, bind at 1, lift_call.
  destruct (http_get_prediction (symbol cfg) (world s)) as [[p|e] w1];
    cbn [fst].
  - unfold ret at 1.
    destruct (pred_truthy p); cbn [negb].
    + unfold bind at 1, log, emit. cbn [world order_state trace].
      set (s0 := {| world := w1; order_state := order_state s;
                    trace := (trace s ++ [Log INFO (MsgPrediction p)])%list |}).
      pose proof (process_prediction_logs cfg p s0) as (evsP & HtrP & HnP).
      unfold bind.
      destruct (process_prediction cfg p s0) as [[[]|e] s2]; cbn [snd] in HtrP;
        [|discriminate].
      destruct (manage_orders_total cfg s2) as (s3 & evsM & Hrun & HtrM & HnM).
      rewrite Hrun. intros Heq. injection Heq as <-.
      exists ([Log INFO (MsgPrediction p)] ++ evsP ++ EnterManageOrders :: evsM)%list.
      split.
      * rewrite HtrM, HtrP. unfold s0. cbn [trace].
        rewrite <- !app_assoc. reflexivity.
      * rewrite !count_events_app.
        change (EnterManageOrders :: evsM) with ([EnterManageOrders] ++ evsM)%list.
        rewrite count_events_app, (count_enter_logs evsP HnP),
          (count_enter_logs evsM HnM).
        reflexivity.
    + unfold ret. intros Heq. injection Heq as <-.
      exists []. cbn [trace]. rewrite app_nil_r. split; reflexivity.
  - unfold bind, log, emit, ret. cbn [world order_state trace].
    intros Heq. injection Heq as <-.
    exists [Log ERROR (MsgFetchError e)]. cbn [trace]. split; reflexivity.
Qed.

(** C8, as the code has it.  The interval is
    [int(monitor_open_orders_every_sec)], the configured number truncated
    toward zero, 15 when unset.  In an iteration whose [run_once] returns,
    with [t] the clock reading taken for the test of [run_loop]:
    - when [t - last_manage] exceeds the interval, [run_loop] runs
      [manage_orders] once and sets [last_manage] to the clock reading
      taken after that sweep;
    - otherwise [run_loop] runs no sweep and [last_manage] is unchanged;
    - [run_once] has already run [manage_orders] once, whatever the timer
      says, if a non-empty prediction was fetched, and not at all if none
      was obtained. *)
Theorem run_loop_body_sweeps (last_manage : Q) (s s1 : Bot) (t : Q) (w2 : World)
  (Honce : run_once cfg s = (Ret tt, s1))
  (Hclock : time_time (world s1) = (t, w2)) :
  let interval :=
    py_int (get_or (monitor_open_orders_every_sec
                      (get_or (order_management (strategy cfg)) empty_order_management))
                   (inject_Z 15)) in
  exists last' s' evs0 evs,
    run_loop_body cfg (self_manage_interval cfg) last_manage s = (Ret last', s')
    /\ trace s1 = (trace s ++ evs0)%list
    /\ trace s' = (trace s1 ++ evs)%list
    /\ (inject_Z interval < t - last_manage ->
        count_events is_enter_manage evs = 1%nat
        /\ exists s2 w3,
             manage_orders cfg {| world := w2; order_state := order_state s1;
                                  trace := trace s1 |} = (Ret tt, s2)
             /\ time_time (world s2) = (last', w3))
    /\ (t - last_manage <= inject_Z interval ->
        count_events is_enter_manage evs = 0%nat /\ last' = last_manage)
    /\ count_events is_enter_manage evs0
       = match fst (http_get_prediction (symbol cfg) (world s)) with
         | Ret p => if pred_truthy p then 1%nat else 0%nat
         | Raise _ => 0%nat
         end.
Proof.
  intros interval. change (self_manage_interval cfg) with interval.
  destruct (run_once_sweeps s s1 Honce) as (evs0 & Htr0 & Hcount0).
  unfold run_loop_body.
  unfold bind at 1. rewrite Honce.
  unfold bind at 1, lift_world at 1. rewrite Hclock.
  set (s1' := {| world := w2; order_state := order_state s1; trace := trace s1 |}).
  destruct (Qltb (inject_Z interval) (t - last_manage)) eqn:Hgate.
  - destruct (manage_orders_total cfg s1') as (s2 & evsM & Hrun & HtrM & HnM).
    destruct (time_time (world s2)) as [t' w3] eqn:Hreset.
    exists t'.
    unfold bind, lift_world, ret. rewrite Hrun, Hreset.
    cbn [world order_state trace].
    eexists. exists evs0, (EnterManageOrders :: evsM).
    split; [reflexivity|]. split; [exact Htr0|].
    split; [cbn [trace]; exact HtrM|].
    split; [|split; [|exact Hcount0]].
    + intros _. split.
      * change (EnterManageOrders :: evsM) with ([EnterManageOrders] ++ evsM)%list.
        rewrite count_events_app, (count_enter_logs evsM HnM). reflexivity.
      * exists s2, w3. split; [reflexivity|exact Hreset].
    + intros Hle. apply Qltb_true in Hgate. exfalso.
      apply (Qlt_not_le _ _ Hgate Hle).
  - exists last_manage.
    unfold bind, lift_world, ret. cbn [world order_state trace].
    eexists. exists evs0, [].
    split; [reflexivity|]. split; [exact Htr0|].
    split; [cbn [trace]; rewrite app_nil_r; reflexivity|].
    split; [|split; [|exact Hcount0]].
    + intros Hlt. apply Qltb_false in Hgate. exfalso.
      apply (Qlt_not_le _ _ Hlt Hgate).
    + intros _. split; reflexivity.
Qed.

End Loop.

Example default_manage_interval : self_manage_interval Script.cfg0 = 15%Z.
Proof. reflexivity. Qed.

(** An interval of 15.9 s counts as 15 s: 15.5 s after the last sweep the
    timer fires. *)
Lemma run_loop_body_sweeps_witness :
  let cfg := Script.cfg_managed None
               {| cancel_if_unfilled_after_sec := None;
                  monitor_open_orders_every_sec := Some (159 # 10) |} in
  let s := Script.bot0 Script.quiet [] in
  let s1 := snd (run_once cfg s) in
  run_once cfg s = (Ret tt, s1)
  /\ exists last' s',
       run_loop_body cfg (self_manage_interval cfg) (Script.t0 - (155 # 10)) s
       = (Ret last', s')
       /\ count_events is_enter_manage (trace s') = 1%nat.
Proof.
  intros cfg s s1.
  assert (Honce : run_once cfg s = (Ret tt, s1)) by reflexivity.
  split; [exact Honce|].
  destruct (run_loop_body_sweeps (E := Script.env) cfg
              (Script.t0 - (155 # 10)) s s1 Script.t0
              {| Script.clock := []; Script.iso := [Script.iso_t0];
                 Script.predictions := []; Script.balance := Ret (float_of_Z 100);
                 Script.place_replies := []; Script.cancel_replies := [] |}
              Honce eq_refl)
    as (last' & s' & evs0 & evs & Hrun & _ & Htr & Hgate & _).
  exists last', s'. split; [exact Hrun|].
  destruct Hgate as (Hcount & _); [reflexivity|].
  rewrite Htr.
  change (trace s1) with [Log ERROR (MsgFetchError (GatewayError "timeout"))].
  rewrite count_events_app, Hcount. reflexivity.
Defined.

(** C8 as stated fails.  The clock reads [t0 + 5 s] throughout an iteration
    that starts with [last_manage = t0] and the default interval of 15 s, so
    the interval has not elapsed; a "hold" prediction is fetched.  The timer
    is left at [t0], yet [manage_orders] has run once, called by [run_once]. *)
Lemma sweep_before_interval_elapsed :
  let r := run_loop_body Script.cfg0 (self_manage_interval Script.cfg0) Script.t0
             (Script.bot0 Script.polling []) in
  fst r = Ret Script.t0
  /\ ~ inject_Z (self_manage_interval Script.cfg0)
       < (Script.t0 + inject_Z 5) - Script.t0
  /\ count_events is_enter_manage (trace (snd r)) = 1%nat.
Proof.
  split; [vm_compute; reflexivity|].
  split; [vm_compute; discriminate|].
  vm_compute. reflexivity.
Qed.

(** * Further properties of the bot *)

(** ** Ledger relations along a method body *)

Section LedgerSteps.
Context {E : Env}.
Variable P : Ledger -> Ledger -> Prop.
Hypothesis P_refl : forall l, P l l.
Hypothesis P_trans : forall l1 l2 l3, P l1 l2 -> P l2 l3 -> P l1 l3.

Lemma on_ledger_refl (s : Bot) : on_ledger P s s.
Proof. apply P_refl. Qed.

Lemma on_ledger_trans (s1 s2 s3 : Bot) :
  on_ledger P s1 s2 -> on_ledger P s2 s3 -> on_ledger P s1 s3.
Proof. unfold on_ledger. apply P_trans. Qed.

Lemma ledger_emit (ev : Event) : Steps (on_ledger P) (emit ev).
Proof. intros s. apply P_refl. Qed.

Lemma ledger_lift_world {A : Type} (f : World -> A * World) :
  Steps (on_ledger P) (lift_world f).
Proof.
  intros s. unfold lift_world, on_ledger. destruct (f (world s)). apply P_refl.
Qed.

Lemma ledger_lift_call {A : Type} (f : World -> result A * World) :
  Steps (on_ledger P) (lift_call f).
Proof.
  intros s. unfold lift_call, on_ledger. destruct (f (world s)). apply P_refl.
Qed.

End LedgerSteps.

(** Decomposes a method body for a relation [on_ledger P], given the
    reflexivity and transitivity of [P]. *)
Ltac ledger_steps Hrefl Htrans :=
  repeat first
    [ apply Steps_ret; [apply on_ledger_refl; exact Hrefl]
    | apply Steps_raise; [apply on_ledger_refl; exact Hrefl]
    | apply Steps_lift_result; [apply on_ledger_refl; exact Hrefl]
    | apply Steps_get_ledger; [apply on_ledger_refl; exact Hrefl]
    | apply ledger_emit; exact Hrefl
    | apply ledger_lift_world; exact Hrefl
    | apply ledger_lift_call; exact Hrefl
    | apply Steps_bind; [apply on_ledger_trans; exact Htrans| |intro]
    | apply Steps_try_except; [apply on_ledger_trans; exact Htrans| |intro]
    | apply Steps_for_each;
        [apply on_ledger_refl; exact Hrefl|apply on_ledger_trans; exact Htrans|intro]
    | progress cbv beta zeta
    | match goal with
      | |- Steps _ (if ?b then _ else _) => destruct b
      | |- Steps _ (match ?x with _ => _ end) => destruct x
      | |- Steps _ (let (_, _) := ?x in _) => destruct x
      end ].

(** ** Counting live entries *)

Lemma open_count_cons (k : string) (m : Meta) (l : Ledger) :
  open_count ((k, m) :: l) = ((if is_live m then 1 else 0) + open_count l)%nat.
Proof.
  unfold open_count, Dict.values. cbn [map snd filter].
  destruct (is_live m); reflexivity.
Qed.

Lemma open_count_set_le (k : string) (m : Meta) (l : Ledger) :
  (open_count (Dict.set k m l) <= S (open_count l))%nat.
Proof.
  induction l as [|[k0 m0] l IH]; cbn [Dict.set].
  - rewrite open_count_cons. destruct (is_live m); cbn; lia.
  - destruct (String.eqb k k0); rewrite !open_count_cons;
      destruct (is_live m0); try destruct (is_live m); lia.
Qed.

Lemma open_count_set_dead (k : string) (m : Meta) (l : Ledger) :
  is_live m = false -> (open_count (Dict.set k m l) <= open_count l)%nat.
Proof.
  intros Hdead. induction l as [|[k0 m0] l IH]; cbn [Dict.set].
  - rewrite open_count_cons, Hdead. cbn. lia.
  - destruct (String.eqb k k0); rewrite !open_count_cons; rewrite ?Hdead;
      destruct (is_live m0); lia.
Qed.

Lemma open_count_pop_le (k : string) (l : Ledger) :
  (open_count (Dict.pop k l) <= open_count l)%nat.
Proof.
  induction l as [|[k0 m0] l IH]; cbn [Dict.pop]; [lia|].
  destruct (String.eqb k k0); rewrite ?open_count_cons; destruct (is_live m0); lia.
Qed.

Lemma canceled_not_live (m : Meta) : is_live (Dict.set "state" "canceled" m) = false.
Proof.
  unfold is_live. rewrite DictFacts.get_set_same. reflexivity.
Qed.

(** ** Closed forms of the ledger writers *)

Section Writers.
Context {E : Env}.
Variable cfg : Config.

Lemma place_order_dry (sym side : string) (price size : float) (otype : string)
  (s : Bot) (t : Q) (w1 : World) (created : string) (w2 : World) :
  self_dry_run cfg = true ->
  time_time (world s) = (t, w1) ->
  now_iso w1 = (created, w2) ->
  let meta : Meta :=
    [("ordId", "dry_" ++ str_int (clock_ms t)); ("instId", sym); ("side", side);
     ("px", str_float price); ("sz", str_float size); ("ordType", otype);
     ("state", "live"); ("created_at", created)] in
  place_order cfg sym side price size otype s
  = (Ret (Some meta),
     {| world := w2;
        order_state := Dict.set ("dry_" ++ str_int (clock_ms t)) meta (order_state s);
        trace := (trace s ++ [Log INFO (MsgPlacing side sym price size otype true)])%list |}).
Proof.
  intros Hdry Ht Hc meta. unfold place_order. rewrite Hdry.
  unfold bind at 1, log, emit. cbn [world order_state trace].
  unfold bind at 1, lift_world at 1. cbn [world order_state trace]. rewrite Ht.
  unfold bind at 1, lift_world at 1. cbn [world order_state trace]. rewrite Hc.
  reflexivity.
Qed.

(** [place_order] never raises; it either leaves the ledger alone and
    returns [None], or writes the record it returns under that record's own
    ["ordId"]. *)
Lemma place_order_effect (sym side : string) (price size : float) (otype : string)
  (s : Bot) :
  exists r s',
    place_order cfg sym side price size otype s = (Ret r, s')
    /\ match r with
       | None => order_state s' = order_state s
       | Some meta =>
           exists k, Dict.get "ordId" meta = Some k
                     /\ order_state s' = Dict.set k meta (order_state s)
       end.
Proof.
  destruct (self_dry_run cfg) eqn:Hmode.
  - destruct (time_time (world s)) as [t w1] eqn:Ht.
    destruct (now_iso w1) as [created w2] eqn:Hc.
    rewrite (place_order_dry sym side price size otype s t w1 created w2 Hmode Ht Hc).
    do 2 eexists. split; [reflexivity|]. cbn [order_state].
    eexists. split; reflexivity.
  - unfold place_order. rewrite Hmode.
    unfold bind at 1, log, emit. cbn [world order_state trace].
    unfold try_except, bind at 1, lift_call. cbn [world order_state trace].
    destruct (okx_place_order sym side price size otype (world s)) as [[resp|e] w1].
    + unfold bind, lift_world, get_ledger, set_ledger, ret.
      cbn [world order_state trace].
      destruct (str_or (r_ordId resp) (str_or (r_ord_id resp) (r_clOrdId resp)))
        as [x|]; [destruct (truthy_str (Some x))|];
        cbn [world order_state trace];
        try (destruct (time_time w1) as [t w2]; cbn [world order_state trace]);
        match goal with
        | |- context [now_iso ?w] => destruct (now_iso w) as [created w3]
        end;
        cbn [world order_state trace];
        (do 2 eexists; split; [reflexivity|]; cbn [order_state];
         eexists; split; reflexivity).
    + unfold bind, emit, ret. cbn [world order_state trace].
      do 2 eexists. split; reflexivity.
Qed.

Section Relation.
Variable P : Ledger -> Ledger -> Prop.
Hypothesis P_refl : forall l, P l l.
Hypothesis P_trans : forall l1 l2 l3, P l1 l2 -> P l2 l3 -> P l1 l3.
Hypothesis P_cancel : forall k m l,
  Dict.get k l = Some m -> P l (Dict.set k (Dict.set "state" "canceled" m) l).
Hypothesis P_pop : self_dry_run cfg = false -> forall k l, P l (Dict.pop k l).

Lemma cancel_order_ledger (sym k : string) :
  Steps (on_ledger P) (cancel_order cfg sym k).
Proof.
  intros s. unfold on_ledger.
  destruct (Bool.bool_dec (self_dry_run cfg) true) as [Hmode|Hmode].
  - rewrite (cancel_order_dry cfg sym k s Hmode). cbn [snd order_state].
    destruct (Dict.get k (order_state s)) eqn:Hget;
      [apply P_cancel; exact Hget|apply P_refl].
  - apply not_true_is_false in Hmode.
    rewrite (cancel_order_live cfg sym k s Hmode).
    destruct (okx_cancel_order sym k (world s)) as [[resp|e] w'];
      cbn [snd order_state]; [|apply P_refl].
    destruct (cancel_confirmed resp); [apply P_pop; exact Hmode|apply P_refl].
Qed.

Lemma manage_entry_ledger (now_ts : Q) (ca : Z) (it : string * Meta) :
  Steps (on_ledger P) (manage_entry cfg now_ts ca it).
Proof.
  destruct it as [k m]. rewrite manage_entry_eq.
  destruct (sweep_cancels now_ts ca m);
    [|apply Steps_ret, on_ledger_refl, P_refl].
  apply Steps_bind; [apply on_ledger_trans, P_trans|apply ledger_emit, P_refl|].
  intros _.
  apply Steps_bind; [apply on_ledger_trans, P_trans|apply cancel_order_ledger|].
  intros _. apply Steps_ret, on_ledger_refl, P_refl.
Qed.

Lemma manage_orders_ledger : Steps (on_ledger P) (manage_orders cfg).
Proof.
  unfold manage_orders.
  apply Steps_bind; [apply on_ledger_trans, P_trans|apply ledger_emit, P_refl|].
  intros _.
  apply Steps_bind; [apply on_ledger_trans, P_trans|apply ledger_lift_world, P_refl|].
  intros now_ts.
  apply Steps_bind;
    [apply on_ledger_trans, P_trans|apply Steps_get_ledger, on_ledger_refl, P_refl|].
  intros ledger.
  apply Steps_for_each;
    [apply on_ledger_refl, P_refl|apply on_ledger_trans, P_trans|].
  intros it. apply manage_entry_ledger.
Qed.

End Relation.

End Writers.

(** ** Failures and defaults of the two calculations *)

Section Sizing.
Context {E : Env}.
Variable cfg : Config.

Lemma calc_size_fixed (pred : Prediction) (price : float) (s : Bot) :
  mode (get_or (position_size (strategy cfg)) empty_position_size) = Some "fixed" ->
  calc_size cfg pred price s
  = (Ret (py_round (get_or (fixed_size (get_or (position_size (strategy cfg))
                                              empty_position_size))
                           (S754_zero false)) 8), s).
Proof.
  intros Hmode. unfold calc_size. rewrite Hmode. reflexivity.
Qed.

(** X13.  A position-size mode other than "percent" and "fixed" makes
    [calc_size] raise [ValueError] before anything else happens: no balance
    query, no log line. *)
Theorem calc_size_unknown_mode (pred : Prediction) (price : float) (s : Bot) (md : string)
  (Hmode : mode (get_or (position_size (strategy cfg)) empty_position_size) = Some md)
  (Hp : md <> "percent") (Hf : md <> "fixed") :
  calc_size cfg pred price s = (Raise (ValueError "Unknown position size mode"), s).
Proof.
  unfold calc_size. rewrite Hmode. cbn [get_or].
  apply String.eqb_neq in Hp, Hf. rewrite Hp, Hf. reflexivity.
Qed.

(** X14.  In percent mode a failing balance query is not caught: [calc_size]
    raises the same exception; and a price of zero, of either sign, raises
    [ZeroDivisionError] once the balance has been fetched.  Neither path
    writes the ledger or logs. *)
Theorem calc_size_percent_failures (pred : Prediction) (price : float) (s : Bot)
  (Hmode : get_or (mode (get_or (position_size (strategy cfg)) empty_position_size))
                  "percent" = "percent") :
  (forall e w', okx_get_account_balance "USDT" (world s) = (Raise e, w') ->
     calc_size cfg pred price s
     = (Raise e, {| world := w'; order_state := order_state s; trace := trace s |}))
  /\ (forall b w', okx_get_account_balance "USDT" (world s) = (Ret b, w') ->
        (exists sign, price = S754_zero sign) ->
        calc_size cfg pred price s
        = (Raise ZeroDivisionError,
           {| world := w'; order_state := order_state s; trace := trace s |})).
Proof.
  split.
  - intros e w' Hbal. unfold calc_size. rewrite Hmode.
    change (String.eqb "percent" "percent") with true. cbv iota.
    unfold bind, lift_call. rewrite Hbal. reflexivity.
  - intros b w' Hbal (sign & ->). unfold calc_size. rewrite Hmode.
    change (String.eqb "percent" "percent") with true. cbv iota.
    unfold bind at 1, lift_call. rewrite Hbal. reflexivity.
Qed.

(** X15.  Dust is skipped.  In percent mode, with a successful balance query
    and a price that is not zero, when the binary64 quotient
    [min(balance * pct, max_exposure) / price] is at most half of 10^-8
    (a negative quotient included), the size that [calc_size] returns is
    [<= 0]: the test with which [process_prediction] drops the order. *)
Theorem calc_size_min_order (pred : Prediction) (price balance : float)
  (w' : World) (s : Bot)
  (Hmode : get_or (mode (get_or (position_size (strategy cfg)) empty_position_size))
                  "percent" = "percent")
  (Hbal : okx_get_account_balance "USDT" (world s) = (Ret balance, w'))
  (Hprice : is_zero price = false) :
  let pct := get_or (percent_of_balance
                       (get_or (position_size (strategy cfg)) empty_position_size))
                    (dec 1 2) in
  let max_exposure := get_or (max_exposure_usd (get_or (risk (strategy cfg)) empty_risk))
                             (float_of_Z 1000000000) in
  let exposure := fmul balance pct in
  let allocated := if fltb max_exposure exposure then max_exposure else exposure in
  float_le_Q (fdiv allocated price) (1 # 200000000) ->
  exists size,
    fst (calc_size cfg pred price s) = Ret size
    /\ float_le_int size 0 = true.
Proof.
  intros pct max_exposure exposure allocated Hdust.
  unfold calc_size. rewrite Hmode.
  change (String.eqb "percent" "percent") with true. cbv iota.
  fold pct max_exposure.
  unfold bind at 1, lift_call. rewrite Hbal, Hprice.
  cbn. eexists. split; [reflexivity|].
  apply py_round_dust. exact Hdust.
Qed.

(** X16.  Without an expected price, or with [use_expected_price] switched off
    (the expected price, if any, still has to convert to a float), the base
    is the current price, neither slippage test fires, and the limit price
    is the current price rounded to 8 places, for any side and any
    slippage. *)
Theorem calc_limit_price_without_expectation (pred : Prediction) (v : pyval)
  (cur : float) (side : string) (s : Bot)
  (Hcur : current_price pred = Some v)
  (Hfloat : py_float v = Ret cur)
  (Hno : expected_price pred = None
         \/ (use_expected_price (strategy cfg) = Some false
             /\ exists v' x, expected_price pred = Some v' /\ py_float v' = Ret x)) :
  calc_limit_price cfg pred side s = (Ret (py_round cur 8), s).
Proof.
  unfold calc_limit_price. rewrite Hcur.
  unfold bind at 1, lift_result at 1. rewrite Hfloat.
  unfold bind at 1.
  destruct Hno as [-> | (Hoff & v' & x & -> & Hx)].
  - unfold ret at 1.
    destruct (get_or (use_expected_price (strategy cfg)) true);
      rewrite fltb_irrefl;
      destruct (String.eqb (str_lower side) "buy"); reflexivity.
  - unfold lift_result. rewrite Hx, Hoff. cbn [get_or].
    rewrite fltb_irrefl.
    destruct (String.eqb (str_lower side) "buy"); reflexivity.
Qed.

End Sizing.

(** ** Paths through [process_prediction] *)

Lemma opt_str_eqb_true (o : option string) (x : string) :
  opt_str_eqb o x = true <-> o = Some x.
Proof.
  destruct o as [y|]; cbn.
  - rewrite String.eqb_eq. split; [intros ->; reflexivity|congruence].
  - split; discriminate.
Qed.

Lemma opt_str_eqb_false (o : option string) (x : string) :
  o <> Some x -> opt_str_eqb o x = false.
Proof.
  intros H. destruct (opt_str_eqb o x) eqn:Hb; [|reflexivity].
  apply opt_str_eqb_true in Hb. contradiction.
Qed.

Section Paths.
Context {E : Env}.
Variable cfg : Config.

Lemma untouched_refl (s : Bot) : untouched s s.
Proof. split; reflexivity. Qed.

Lemma untouched_trans (s1 s2 s3 : Bot) :
  untouched s1 s2 -> untouched s2 s3 -> untouched s1 s3.
Proof. intros (W1 & L1) (W2 & L2). split; congruence. Qed.

Lemma untouched_emit (ev : Event) : Steps untouched (emit ev).
Proof. intros s. split; reflexivity. Qed.

Lemma should_trade_untouched (pred : Prediction) :
  Steps untouched (should_trade cfg pred).
Proof.
  unfold should_trade, log.
  repeat first
    [ apply Steps_ret; [apply untouched_refl]
    | apply Steps_lift_result; [apply untouched_refl]
    | apply untouched_emit
    | apply Steps_bind; [apply untouched_trans| |intro]
    | progress cbv beta zeta
    | match goal with |- Steps _ (if ?b then _ else _) => destruct b end ].
Qed.

(** [should_trade] is silent when it accepts. *)
Lemma should_trade_accepts (pred : Prediction) (s : Bot) :
  fst (should_trade cfg pred s) = Ret true ->
  should_trade cfg pred s = (Ret true, s).
Proof.
  unfold should_trade.
  destruct (negb (py_in (signal pred) _)); [discriminate|].
  unfold bind at 1, lift_result at 1.
  destruct (py_lt (get_or (confidence pred) (VInt 0)) _) as [[|]|e];
    [discriminate| |discriminate].
  unfold bind at 1, lift_result at 1.
  destruct (py_lt (get_or (profit_after_fee pred) (VInt 0)) _) as [[|]|e];
    [discriminate| |discriminate].
  reflexivity.
Qed.

(** X4.  A prediction whose signal is neither "buy" nor "sell" (a white-listed
    "hold" included), or that [should_trade] rejects, is dropped:
    [process_prediction] returns normally and touches neither the outside
    world (no balance query, no order) nor the ledger. *)
Theorem process_prediction_ignores (pred : Prediction) (s : Bot)
  (Hdrop : (signal pred <> Some "buy" /\ signal pred <> Some "sell")
           \/ fst (should_trade cfg pred s) = Ret false) :
  fst (process_prediction cfg pred s) = Ret tt
  /\ untouched s (snd (process_prediction cfg pred s)).
Proof.
  unfold process_prediction.
  destruct (if opt_str_eqb (signal pred) "buy" then Some "buy"
            else if opt_str_eqb (signal pred) "sell" then Some "sell" else None)
    as [side|] eqn:Hside.
  - destruct Hdrop as [(Hb & Hs)|Hfalse].
    { rewrite (opt_str_eqb_false _ _ Hb), (opt_str_eqb_false _ _ Hs) in Hside.
      discriminate. }
    pose proof (should_trade_untouched pred s) as Hu.
    match goal with |- context [bind ?m ?k s] =>
      destruct (bind_case m k s) as [(b & s1 & H1 & ->)|(e & s1 & H1 & ->)]
    end; rewrite H1 in Hu, Hfalse; cbn [fst snd] in *; [|discriminate].
    injection Hfalse as ->. cbn [negb].
    split; [reflexivity|].
    eapply untouched_trans; [exact Hu|apply untouched_emit].
  - split; [reflexivity|apply untouched_emit].
Qed.

(** X5.  A prediction that passes [should_trade] but has no ["current_price"]
    makes [process_prediction] raise [KeyError]; nothing has been logged,
    queried or written at that point. *)
Theorem process_prediction_missing_price (pred : Prediction) (s : Bot)
  (Hside : signal pred = Some "buy" \/ signal pred = Some "sell")
  (Hok : fst (should_trade cfg pred s) = Ret true)
  (Hcur : current_price pred = None) :
  process_prediction cfg pred s = (Raise (KeyError "current_price"), s).
Proof.
  unfold process_prediction.
  assert (Hs : exists side,
             (if opt_str_eqb (signal pred) "buy" then Some "buy"
              else if opt_str_eqb (signal pred) "sell" then Some "sell" else None)
             = Some side).
  { destruct Hside as [-> | ->]; eexists; reflexivity. }
  destruct Hs as (side & ->).
  match goal with |- context [bind ?m ?k s] =>
    destruct (bind_case m k s) as [(b & s1 & H1 & ->)|(e & s1 & H1 & ->)]
  end; rewrite (should_trade_accepts pred s Hok) in H1; [|discriminate].
  injection H1 as <- <-. cbn [negb].
  unfold bind, calc_limit_price. rewrite Hcur. reflexivity.
Qed.

End Paths.

Lemma process_prediction_ignores_witness :
  fst (should_trade Script.cfg0 (Script.pred_buy (4 # 10))
         (Script.bot0 Script.no_balance Script.one_live)) = Ret false
  /\ world (snd (process_prediction Script.cfg0 (Script.pred_buy (4 # 10))
                   (Script.bot0 Script.no_balance Script.one_live)))
     = Script.no_balance.
Proof.
  split; [reflexivity|].
  exact (proj1 (proj2 (process_prediction_ignores Script.cfg0
                         (Script.pred_buy (4 # 10))
                         (Script.bot0 Script.no_balance Script.one_live)
                         (or_intror eq_refl)))).
Defined.

Lemma process_prediction_missing_price_witness :
  current_price Script.pred_no_price = None
  /\ fst (process_prediction Script.cfg0 Script.pred_no_price
            (Script.bot0 Script.quiet [])) = Raise (KeyError "current_price").
Proof.
  split; [reflexivity|].
  rewrite (process_prediction_missing_price Script.cfg0 Script.pred_no_price
             (Script.bot0 Script.quiet []) (or_introl eq_refl) eq_refl eq_refl).
  reflexivity.
Defined.

(** ** The position limit *)

Lemma bounded_open_refl (n : Z) (l : Ledger) : bounded_open n l l.
Proof. unfold bounded_open. lia. Qed.

Lemma bounded_open_trans (n : Z) (l1 l2 l3 : Ledger) :
  bounded_open n l1 l2 -> bounded_open n l2 l3 -> bounded_open n l1 l3.
Proof. unfold bounded_open. lia. Qed.

Lemma bounded_open_le (n : Z) (l l' : Ledger) :
  (open_count l' <= open_count l)%nat -> bounded_open n l l'.
Proof. unfold bounded_open. lia. Qed.

Section Limit.
Context {E : Env}.
Variable cfg : Config.

Lemma after_place_same (meta : Meta) :
  Steps (on_ledger (fun l l' => l' = l))
    (log INFO (MsgOrderPlaced meta) ;;
     (if truthy_num (take_profit_pct (get_or (exit (strategy cfg)) empty_exit))
         || truthy_num (stop_loss_pct (get_or (exit (strategy cfg)) empty_exit))
      then log DEBUG (MsgTpSl (take_profit_pct (get_or (exit (strategy cfg)) empty_exit))
                              (stop_loss_pct (get_or (exit (strategy cfg)) empty_exit)))
      else ret tt)).
Proof.
  assert (Hrefl : forall l : Ledger, l = l) by reflexivity.
  assert (Htrans : forall l1 l2 l3 : Ledger, l2 = l1 -> l3 = l2 -> l3 = l1)
    by (intros; congruence).
  unfold log. ledger_steps Hrefl Htrans.
Qed.

(** [process_prediction] writes the ledger at most once, by one
    [place_order], and only when the live entries are below the limit. *)
Lemma process_prediction_ledger (pred : Prediction) (s : Bot) :
  let s' := snd (process_prediction cfg pred s) in
  order_state s' = order_state s
  \/ ((Z.of_nat (open_count (order_state s)) < self_max_open_positions cfg)%Z
      /\ exists k meta, order_state s' = Dict.set k meta (order_state s)).
Proof.
  cbv zeta.
  set (Post := fun s' : Bot =>
         order_state s' = order_state s
         \/ ((Z.of_nat (open_count (order_state s)) < self_max_open_positions cfg)%Z
             /\ exists k meta, order_state s' = Dict.set k meta (order_state s))).
  change (Post (snd (process_prediction cfg pred s))).
  assert (Hsame : forall s', order_state s' = order_state s -> Post s')
    by (intros s' H; left; exact H).
  unfold process_prediction.
  destruct (if opt_str_eqb (signal pred) "buy" then Some "buy"
            else if opt_str_eqb (signal pred) "sell" then Some "sell" else None)
    as [side|]; [|apply Hsame; reflexivity].
  pose proof (should_trade_quiet cfg pred s) as (Q1 & _).
  match goal with |- context [bind ?m ?k s] =>
    destruct (bind_case m k s) as [(ok & s1 & H1 & ->)|(e & s1 & H1 & ->)]
  end; rewrite H1 in Q1; cbn [snd] in Q1; [|apply Hsame; exact Q1].
  destruct ok; cbn [negb]; [|apply Hsame; exact Q1].
  pose proof (calc_limit_price_quiet cfg pred side s1) as (Q2 & _).
  match goal with |- context [bind ?m ?k s1] =>
    destruct (bind_case m k s1) as [(price & s2 & H2 & ->)|(e & s2 & H2 & ->)]
  end; rewrite H2 in Q2; cbn [snd] in Q2; [|apply Hsame; cbn [snd]; congruence].
  pose proof (calc_size_quiet cfg pred price s2) as (Q3 & _).
  match goal with |- context [bind ?m ?k s2] =>
    destruct (bind_case m k s2) as [(size & s3 & H3 & ->)|(e & s3 & H3 & ->)]
  end; rewrite H3 in Q3; cbn [snd] in Q3; [|apply Hsame; cbn [snd]; congruence].
  assert (HQ : order_state s3 = order_state s) by congruence.
  destruct (float_le_int size 0); [apply Hsame; exact HQ|].
  unfold bind at 1, get_ledger at 1. rewrite HQ.
  destruct (Z.geb (Z.of_nat (open_count (order_state s))) (self_max_open_positions cfg))
    eqn:Hge; [apply Hsame; exact HQ|].
  rewrite Z.geb_leb in Hge. apply Z.leb_gt in Hge.
  destruct (place_order_effect cfg (symbol cfg) side price size
              (get_or (order_type (strategy cfg)) "limit") s3)
    as (r & s4 & Hrun & Hr).
  unfold bind at 1. rewrite Hrun.
  destruct r as [meta|].
  - destruct Hr as (k & _ & Hl). right. split; [exact Hge|].
    exists k, meta.
    pose proof (after_place_same meta s4) as Ha. unfold on_ledger in Ha.
    rewrite Hl, HQ in Ha. exact Ha.
  - apply Hsame. transitivity (order_state s3); [exact Hr|exact HQ].
Qed.

Lemma process_prediction_bounded (pred : Prediction) :
  Steps (on_ledger (bounded_open (self_max_open_positions cfg)))
        (process_prediction cfg pred).
Proof.
  intros s. unfold on_ledger, bounded_open.
  destruct (process_prediction_ledger pred s) as [-> | (Hlt & k & meta & ->)]; [lia|].
  pose proof (open_count_set_le k meta (order_state s)). lia.
Qed.

(** X8.  The position limit is an invariant of [process_prediction]: whatever
    the mode and whatever the exchange answers, the number of live entries
    afterwards is at most the larger of the number before and
    [max_open_positions]. *)
Theorem process_prediction_open_bound (pred : Prediction) (s : Bot) :
  (Z.of_nat (open_count (order_state (snd (process_prediction cfg pred s))))
   <= Z.max (Z.of_nat (open_count (order_state s))) (self_max_open_positions cfg))%Z.
Proof.
  destruct (process_prediction_ledger pred s) as [Hsame|(Hroom & k & meta & Hset)].
  - rewrite Hsame. lia.
  - rewrite Hset. pose proof (open_count_set_le k meta (order_state s)). lia.
Qed.

Lemma manage_orders_closes_only :
  Steps (on_ledger (fun l l' => (open_count l' <= open_count l)%nat))
        (manage_orders cfg).
Proof.
  apply manage_orders_ledger.
  - intros l. lia.
  - intros l1 l2 l3 H1 H2. lia.
  - intros k m l _. apply open_count_set_dead, canceled_not_live.
  - intros _ k l. apply open_count_pop_le.
Qed.

Lemma fetch_prediction_ledger (P : Ledger -> Ledger -> Prop)
  (P_refl : forall l, P l l)
  (P_trans : forall l1 l2 l3, P l1 l2 -> P l2 l3 -> P l1 l3) :
  Steps (on_ledger P) (fetch_prediction cfg).
Proof. unfold fetch_prediction, log. ledger_steps P_refl P_trans. Qed.

(** X9.  The position limit is an invariant of the whole poll loop: after any
    number of iterations, whatever predictions arrive and whatever the
    exchange answers, the number of live entries is at most the larger of
    the number at start and [max_open_positions] (so at most the limit when
    the bot starts with an empty ledger and a limit that is not negative). *)
Theorem run_loop_open_bound (fuel : nat) (s : Bot) :
  (Z.of_nat (open_count (order_state (snd (run_loop cfg fuel s))))
   <= Z.max (Z.of_nat (open_count (order_state s))) (self_max_open_positions cfg))%Z.
Proof.
  revert s.
  change (Steps (on_ledger (bounded_open (self_max_open_positions cfg)))
                (run_loop cfg fuel)).
  set (n := self_max_open_positions cfg).
  assert (Hrefl : forall l, bounded_open n l l) by apply bounded_open_refl.
  assert (Htrans : forall l1 l2 l3,
             bounded_open n l1 l2 -> bounded_open n l2 l3 -> bounded_open n l1 l3)
    by apply bounded_open_trans.
  assert (Hsweep : Steps (on_ledger (bounded_open n)) (manage_orders cfg)).
  { intros s. apply bounded_open_le. apply manage_orders_closes_only. }
  assert (Honce : Steps (on_ledger (bounded_open n)) (run_once cfg)).
  { unfold run_once.
    apply Steps_bind;
      [apply on_ledger_trans, Htrans|apply fetch_prediction_ledger; assumption|].
    intros [p|]; [|apply Steps_ret, on_ledger_refl, Hrefl].
    destruct (negb (pred_truthy p)); [apply Steps_ret, on_ledger_refl, Hrefl|].
    apply Steps_bind; [apply on_ledger_trans, Htrans|apply ledger_emit, Hrefl|].
    intros _.
    apply Steps_bind;
      [apply on_ledger_trans, Htrans|apply process_prediction_bounded|].
    intros _. exact Hsweep. }
  assert (Hbody : forall mi last,
             Steps (on_ledger (bounded_open n)) (run_loop_body cfg mi last)).
  { intros mi last. unfold run_loop_body.
    apply Steps_bind; [apply on_ledger_trans, Htrans|exact Honce|]. intros _.
    apply Steps_bind;
      [apply on_ledger_trans, Htrans|apply ledger_lift_world, Hrefl|]. intros t.
    apply Steps_bind; [apply on_ledger_trans, Htrans| |].
    - destruct (Qltb (inject_Z mi) (t - last));
        [|apply Steps_ret, on_ledger_refl, Hrefl].
      apply Steps_bind; [apply on_ledger_trans, Htrans|exact Hsweep|].
      intros _. apply ledger_lift_world, Hrefl.
    - intros last'.
      apply Steps_bind;
        [apply on_ledger_trans, Htrans|apply ledger_lift_world, Hrefl|].
      intros _. apply Steps_ret, on_ledger_refl, Hrefl. }
  assert (Hfrom : forall mi k last,
             Steps (on_ledger (bounded_open n)) (run_loop_from cfg mi k last)).
  { intros mi k. induction k as [|k IH]; intros last; cbn [run_loop_from].
    - apply Steps_ret, on_ledger_refl, Hrefl.
    - apply Steps_bind; [apply on_ledger_trans, Htrans|apply Hbody|].
      intros last'. apply IH. }
  unfold run_loop.
  apply Steps_bind; [apply on_ledger_trans, Htrans|apply ledger_emit, Hrefl|].
  intros _.
  apply Steps_try_except; [apply on_ledger_trans, Htrans|apply Hfrom|].
  intros e. apply ledger_emit, Hrefl.
Qed.

(** X10.  A sweep only closes: it never raises the number of live entries and
    never adds a key to the ledger. *)
Theorem manage_orders_only_closes (s : Bot) :
  let s' := snd (manage_orders cfg s) in
  (open_count (order_state s') <= open_count (order_state s))%nat
  /\ incl (Dict.keys (order_state s')) (Dict.keys (order_state s)).
Proof.
  split; [apply manage_orders_closes_only|].
  apply (manage_orders_ledger cfg
           (fun l l' => incl (Dict.keys l') (Dict.keys l))).
  - intros l. apply incl_refl.
  - intros l1 l2 l3 H1 H2. eapply incl_tran; eassumption.
  - intros k m l Hget.
    rewrite (DictFacts.keys_set_present k _ m l Hget). apply incl_refl.
  - intros _ k l. apply DictFacts.keys_pop_incl.
Qed.

(** X11.  In dry-run mode the ledger never shrinks: a sweep leaves the keys and
    their order exactly as they were, so cancelled simulated orders stay in
    the ledger for the life of the process. *)
Theorem manage_orders_dry_keeps_keys (s : Bot) (Hdry : self_dry_run cfg = true) :
  Dict.keys (order_state (snd (manage_orders cfg s))) = Dict.keys (order_state s).
Proof.
  apply (manage_orders_ledger cfg (fun l l' => Dict.keys l' = Dict.keys l)).
  - reflexivity.
  - intros l1 l2 l3 H1 H2. congruence.
  - intros k m l Hget. apply (DictFacts.keys_set_present k _ m l Hget).
  - intros Hlive. congruence.
Qed.

End Limit.

(** ** Placing an order from a prediction *)

Section Placing.
Context {E : Env}.
Variable cfg : Config.

Lemma calc_limit_price_state (pred : Prediction) (side : string) (s : Bot) :
  snd (calc_limit_price cfg pred side s) = s.
Proof.
  unfold calc_limit_price. destruct (current_price pred) as [v|]; [|reflexivity].
  unfold bind at 1, lift_result at 1. destruct (py_float v); [|reflexivity].
  unfold bind at 1.
  destruct (expected_price pred) as [v'|];
    [unfold lift_result; destruct (py_float v')|]; reflexivity.
Qed.

(** X6.  In fixed mode with a [fixed_size] that is absent (default 0.0) or
    [<= 0], the bot never trades: the rounded size is still [<= 0] and
    [process_prediction] reaches neither the exchange nor the ledger, for
    any prediction. *)
Theorem process_prediction_fixed_nonpositive (pred : Prediction) (s : Bot)
  (Hmode : mode (get_or (position_size (strategy cfg)) empty_position_size)
           = Some "fixed")
  (Hsize : float_le_int
             (get_or (fixed_size (get_or (position_size (strategy cfg))
                                         empty_position_size))
                     (S754_zero false)) 0 = true) :
  untouched s (snd (process_prediction cfg pred s)).
Proof.
  unfold process_prediction.
  destruct (if opt_str_eqb (signal pred) "buy" then Some "buy"
            else if opt_str_eqb (signal pred) "sell" then Some "sell" else None)
    as [side|]; [|apply untouched_emit].
  pose proof (should_trade_untouched cfg pred s) as U1.
  match goal with |- context [bind ?m ?k s] =>
    destruct (bind_case m k s) as [(ok & s1 & H1 & ->)|(e & s1 & H1 & ->)]
  end; rewrite H1 in U1; cbn [snd] in U1; [|exact U1].
  destruct ok; cbn [negb];
    [|eapply untouched_trans; [exact U1|apply untouched_emit]].
  pose proof (calc_limit_price_state pred side s1) as U2.
  match goal with |- context [bind ?m ?k s1] =>
    destruct (bind_case m k s1) as [(price & s2 & H2 & ->)|(e & s2 & H2 & ->)]
  end; rewrite H2 in U2; cbn [snd] in U2; subst s2; [|exact U1].
  unfold bind at 1. rewrite (calc_size_fixed cfg pred price s1 Hmode).
  rewrite (py_round_nonpositive _ 8 Hsize).
  eapply untouched_trans; [exact U1|apply untouched_emit].
Qed.

(** X7.  The dry-run happy path.  When the signal is buy or sell, [should_trade]
    accepts, the limit price and a size that is not [<= 0] are computed and
    the live entries are below the limit, [process_prediction] places
    exactly one simulated order: the ledger gains, under the identifier
    "dry_" followed by [int(t * 1000)] for the clock reading [t] (the
    product taken in binary64), a live record with that side, limit price,
    size and order type (default "limit"), and nothing else in the ledger
    changes. *)
Theorem process_prediction_places_dry (pred : Prediction) (side : string)
  (limit size : float) (t : Q) (ms : Z) (created : string) (s s1 : Bot)
  (w1 w2 : World)
  (Hdry : self_dry_run cfg = true)
  (Hsignal : signal pred = Some side)
  (Hside : side = "buy" \/ side = "sell")
  (Hok : fst (should_trade cfg pred s) = Ret true)
  (Hlimit : calc_limit_price cfg pred side s = (Ret limit, s))
  (Hsize : calc_size cfg pred limit s = (Ret size, s1))
  (Hpos : float_le_int size 0 = false)
  (Hroom : (Z.of_nat (open_count (order_state s)) < self_max_open_positions cfg)%Z)
  (Hclock : time_time (world s1) = (t, w1))
  (Hms : float_trunc (fmul (float_of_Q t) (float_of_Z 1000)) = Some ms)
  (Hiso : now_iso w1 = (created, w2)) :
  let otype := get_or (order_type (strategy cfg)) "limit" in
  let key := "dry_" ++ str_int ms in
  let meta : Meta :=
    [("ordId", key); ("instId", symbol cfg); ("side", side);
     ("px", str_float limit); ("sz", str_float size); ("ordType", otype);
     ("state", "live"); ("created_at", created)] in
  let r := process_prediction cfg pred s in
  fst r = Ret tt
  /\ world (snd r) = w2
  /\ order_state (snd r) = Dict.set key meta (order_state s)
  /\ Dict.get key (order_state (snd r)) = Some meta
  /\ (forall k', k' <> key ->
        Dict.get k' (order_state (snd r)) = Dict.get k' (order_state s))
  /\ exists evs,
       trace (snd r)
       = (trace s1 ++ Log INFO (MsgPlacing side (symbol cfg) limit size otype true)
                   :: Log INFO (MsgOrderPlaced meta) :: evs)%list
       /\ forallb not_placing evs = true.
Proof.
  intros otype key meta.
  assert (Hkey : "dry_" ++ str_int (clock_ms t) = key).
  { unfold clock_ms. rewrite Hms. reflexivity. }
  assert (Hl1 : order_state s1 = order_state s).
  { pose proof (calc_size_quiet cfg pred limit s) as (Hq & _).
    rewrite Hsize in Hq. exact Hq. }
  assert (Hrun : exists evs,
             process_prediction cfg pred s
             = (Ret tt,
                {| world := w2;
                   order_state := Dict.set key meta (order_state s);
                   trace := (trace s1
                             ++ Log INFO (MsgPlacing side (symbol cfg) limit size otype true)
                             :: Log INFO (MsgOrderPlaced meta) :: evs)%list |})
             /\ forallb not_placing evs = true).
  { unfold process_prediction. rewrite Hsignal.
    assert (Hs : (if opt_str_eqb (Some side) "buy" then Some "buy"
                  else if opt_str_eqb (Some side) "sell" then Some "sell" else None)
                 = Some side)
      by (destruct Hside as [-> | ->]; reflexivity).
    rewrite Hs.
    unfold bind at 1. rewrite (should_trade_accepts cfg pred s Hok). cbn [negb].
    unfold bind at 1. rewrite Hlimit.
    unfold bind at 1. rewrite Hsize.
    rewrite Hpos.
    unfold bind at 1, get_ledger at 1. rewrite Hl1.
    assert (Hlt : Z.geb (Z.of_nat (open_count (order_state s)))
                        (self_max_open_positions cfg) = false)
      by (rewrite Z.geb_leb; apply Z.leb_gt; exact Hroom).
    rewrite Hlt.
    unfold bind at 1.
    rewrite (place_order_dry cfg (symbol cfg) side limit size
               (get_or (order_type (strategy cfg)) "limit") s1 t w1
               created w2 Hdry Hclock Hiso).
    fold otype. rewrite Hl1, Hkey. fold meta.
    unfold bind at 1, log at 1, emit at 1. cbn [world order_state trace].
    destruct (truthy_num (take_profit_pct (get_or (exit (strategy cfg)) empty_exit))
              || truthy_num (stop_loss_pct (get_or (exit (strategy cfg)) empty_exit))).
    - eexists. unfold log, emit. cbn [world order_state trace].
      rewrite <- !app_assoc. cbn [app]. split; reflexivity.
    - exists []. unfold ret. rewrite <- !app_assoc. cbn [app]. split; reflexivity. }
  destruct Hrun as (evs & Hrun & Hevs). cbv zeta. rewrite Hrun.
  cbn [fst snd world order_state trace].
  repeat split.
  - apply DictFacts.get_set_same.
  - intros k' Hne. apply DictFacts.get_set_other. exact Hne.
  - exists evs. split; [reflexivity|exact Hevs].
Qed.

End Placing.

(** ** The ledger as seen through its two writers *)

Lemma dict_set_field_other (f g x : string) (m : Meta) :
  f <> g -> Dict.get f (Dict.set g x m) = Dict.get f m.
Proof. intros H. apply DictFacts.get_set_other. exact H. Qed.

Lemma cancel_confirmed_false (resp : CancelResp) :
  cancel_confirmed resp = false
  <-> (exists c, c_sCode resp = Some c /\ c <> "0")
      /\ c_state resp <> Some "canceled"
      /\ (c_ordId resp = None \/ c_ordId resp = Some "").
Proof.
  unfold cancel_confirmed. rewrite !orb_false_iff. split.
  - intros ((Hc & Hs) & Ho). split; [|split].
    + destruct (c_sCode resp) as [c|]; cbn in Hc; [|discriminate].
      exists c. split; [reflexivity|]. apply String.eqb_neq. exact Hc.
    + intros Heq. apply opt_str_eqb_true in Heq. congruence.
    + destruct (c_ordId resp) as [[|a x]|]; [right; reflexivity|discriminate|
                                             left; reflexivity].
  - intros ((c & Hc & Hne) & Hs & Ho). split; [split|].
    + rewrite Hc. cbn. apply String.eqb_neq. exact Hne.
    + apply opt_str_eqb_false. exact Hs.
    + destruct Ho as [-> | ->]; reflexivity.
Qed.

Section Ledger.
Context {E : Env}.
Variable cfg : Config.

(** X1.  [place_order] never raises, in either mode.  When it returns a record,
    that record is in the ledger under its own ["ordId"] and every other
    key is as before; when it returns [None], the ledger is unchanged. *)
Theorem place_order_stores_result (sym side : string) (price size : float)
  (otype : string) (s : Bot) :
  exists r s',
    place_order cfg sym side price size otype s = (Ret r, s')
    /\ match r with
       | None => order_state s' = order_state s
       | Some meta =>
           exists k,
             Dict.get "ordId" meta = Some k
             /\ Dict.get k (order_state s') = Some meta
             /\ forall k', k' <> k ->
                  Dict.get k' (order_state s') = Dict.get k' (order_state s)
       end.
Proof.
  destruct (place_order_effect cfg sym side price size otype s)
    as (r & s' & Hrun & Hr).
  exists r, s'. split; [exact Hrun|].
  destruct r as [meta|]; [|exact Hr].
  destruct Hr as (k & Hk & Hl). exists k. split; [exact Hk|].
  rewrite Hl. split.
  - apply DictFacts.get_set_same.
  - intros k' Hne. apply DictFacts.get_set_other. exact Hne.
Qed.

(** X2.  In dry-run mode [cancel_order] makes no external call and always
    returns the acknowledgement [{"ordId": k, "state": "canceled"}].  A
    known order keeps its place in the ledger and all its fields except
    ["state"], which becomes "canceled"; an unknown identifier leaves the
    ledger as it is; no other record is touched. *)
Theorem cancel_order_dry_marks (sym k : string) (s : Bot)
  (Hdry : self_dry_run cfg = true) :
  exists s',
    cancel_order cfg sym k s
    = (Ret (Some {| c_sCode := None; c_state := Some "canceled"; c_ordId := Some k |}),
       s')
    /\ world s' = world s
    /\ Dict.keys (order_state s') = Dict.keys (order_state s)
    /\ (forall k', k' <> k ->
          Dict.get k' (order_state s') = Dict.get k' (order_state s))
    /\ match Dict.get k (order_state s) with
       | Some m =>
           exists m',
             Dict.get k (order_state s') = Some m'
             /\ Dict.get "state" m' = Some "canceled"
             /\ forall f, f <> "state" -> Dict.get f m' = Dict.get f m
       | None => order_state s' = order_state s
       end.
Proof.
  rewrite (cancel_order_dry cfg sym k s Hdry).
  eexists. split; [reflexivity|]. cbn [world order_state].
  split; [reflexivity|].
  destruct (Dict.get k (order_state s)) as [m|] eqn:Hget.
  - split; [apply (DictFacts.keys_set_present k _ m _ Hget)|].
    split; [intros k' Hne; apply DictFacts.get_set_other; exact Hne|].
    eexists. split; [apply DictFacts.get_set_same|].
    split; [apply DictFacts.get_set_same|].
    intros f Hf. apply dict_set_field_other. exact Hf.
  - repeat split; reflexivity.
Qed.

(** X3.  In live mode, when the exchange answers, [cancel_order] returns the
    answer and drops the order from the ledger if the answer has no
    ["sCode"] or ["sCode"] "0", or has state "canceled", or carries a
    non-empty ["ordId"] (whatever its ["sCode"]); the ledger is kept as it
    is only for an answer with an ["sCode"] other than "0", a state other
    than "canceled" and no ["ordId"].  No other record is touched. *)
Theorem cancel_order_live_reply (sym k : string) (s : Bot) (resp : CancelResp)
  (w' : World)
  (Hlive : self_dry_run cfg = false)
  (Hwf : Dict.wf (order_state s))
  (Hreply : okx_cancel_order sym k (world s) = (Ret resp, w')) :
  exists s',
    cancel_order cfg sym k s = (Ret (Some resp), s')
    /\ (forall k', k' <> k ->
          Dict.get k' (order_state s') = Dict.get k' (order_state s))
    /\ (c_sCode resp = None \/ c_sCode resp = Some "0"
        \/ c_state resp = Some "canceled"
        \/ (exists x, c_ordId resp = Some x /\ x <> "") ->
        Dict.get k (order_state s') = None)
    /\ ((exists c, c_sCode resp = Some c /\ c <> "0") ->
        c_state resp <> Some "canceled" ->
        c_ordId resp = None \/ c_ordId resp = Some "" ->
        order_state s' = order_state s).
Proof.
  rewrite (cancel_order_live cfg sym k s Hlive), Hreply.
  eexists. split; [reflexivity|]. cbn [order_state].
  destruct (cancel_confirmed resp) eqn:Hconf.
  - split; [intros k' Hne; apply DictFacts.get_pop_other; exact Hne|].
    split; [intros _; apply DictFacts.get_pop_same; exact Hwf|].
    intros Hc Hs Ho. exfalso.
    assert (Hf : cancel_confirmed resp = false)
      by (apply cancel_confirmed_false; auto).
    congruence.
  - split; [reflexivity|]. split; [|reflexivity].
    apply cancel_confirmed_false in Hconf.
    destruct Hconf as ((c & Hc & Hne) & Hs & Ho).
    intros [Hn|[H0|[Hst|(x & Hx & Hxne)]]]; exfalso.
    + congruence.
    + rewrite Hc in H0. injection H0 as ->. apply Hne. reflexivity.
    + contradiction.
    + destruct Ho as [Ho|Ho]; rewrite Ho in Hx; [discriminate|].
      injection Hx as <-. apply Hxne. reflexivity.
Qed.

(** X12.  A sweep leaves alone every entry that is not live, and every live
    entry whose date parses and whose age is at most
    [int(cancel_if_unfilled_after_sec)], the configured timeout truncated
    toward zero (120 when unset), an age equal to that integer included:
    [cancel_order] is not called for it and the ledger keeps the same
    record. *)
Theorem manage_orders_leaves_alone (s : Bot) (now : Q) (w1 : World)
  (k : string) (meta : Meta)
  (Hwf : Dict.wf (order_state s))
  (Hnow : time_time (world s) = (now, w1))
  (Hget : Dict.get k (order_state s) = Some meta)
  (Hcase : Dict.get "state" meta <> Some "live"
           \/ exists c created_ts,
                Dict.get "created_at" meta = Some c
                /\ fromisoformat_timestamp (replace_Z c) = Some created_ts
                /\ now - created_ts
                   <= inject_Z
                        (py_int
                           (get_or (cancel_if_unfilled_after_sec
                                      (get_or (order_management (strategy cfg))
                                              empty_order_management))
                                   (inject_Z 120)))) :
  exists s' evs,
    manage_orders cfg s = (Ret tt, s')
    /\ trace s' = (trace s ++ EnterManageOrders :: evs)%list
    /\ existsb (is_cancel_of k) evs = false
    /\ Dict.get k (order_state s') = Some meta.
Proof.
  destruct (manage_orders_run cfg s now w1 Hwf Hnow)
    as (s' & evs & Hrun & Htr & Hc & _ & Hkeep & _).
  assert (Hsw : sweep_cancels now (self_cancel_after cfg) meta = false).
  { unfold sweep_cancels. destruct Hcase as [Hdead|(c & ts & Hcreated & Hparse & Hage)].
    - destruct (is_live meta) eqn:Hl; [|reflexivity].
      apply is_live_iff in Hl. contradiction.
    - rewrite Hcreated. cbn [get_or]. rewrite Hparse.
      apply Qltb_false in Hage. unfold self_cancel_after.
      rewrite Hage. apply andb_false_r. }
  exists s', evs. split; [exact Hrun|]. split; [exact Htr|].
  split; [rewrite Hc, Hget; exact Hsw|apply (Hkeep k meta Hget Hsw)].
Qed.

(** X17.  A failed fetch is recoverable: [run_once] catches it, logs one error
    and returns; it does not process anything, sweep the ledger or call the
    exchange. *)
Theorem run_once_fetch_failure (s : Bot) (e : exn) (w' : World)
  (Hfail : http_get_prediction (symbol cfg) (world s) = (Raise e, w')) :
  run_once cfg s
  = (Ret tt, {| world := w'; order_state := order_state s;
                trace := (trace s ++ [Log ERROR (MsgFetchError e)])%list |}).
Proof.
  unfold run_once, fetch_prediction.
  unfold bind at 1, try_except, bind at 1, lift_call. rewrite Hfail.
  reflexivity.
Qed.

(** X18.  An exception that escapes [run_once] in the first iteration ends
    the loop: the iterations that were to follow are not run, whatever
    their number, and [run_loop] itself returns normally after logging the
    error once. *)
Theorem run_loop_stops_on_error (n : nat) (s s1 : Bot) (e : exn)
  (Hraise : run_once cfg
              {| world := world s; order_state := order_state s;
                 trace := (trace s ++ [Log INFO (MsgStarted (self_dry_run cfg))])%list |}
            = (Raise e, s1)) :
  run_loop cfg (S n) s
  = (Ret tt, {| world := world s1; order_state := order_state s1;
                trace := (trace s1 ++ [Log ERROR (MsgUnexpected e)])%list |}).
Proof.
  unfold run_loop. unfold bind at 1, log at 1, emit at 1.
  unfold try_except. cbn [run_loop_from].
  unfold bind at 1, run_loop_body. unfold bind at 1. rewrite Hraise.
  reflexivity.
Qed.

End Ledger.

(** ** Instances on the scripted environment *)

Lemma calc_size_unknown_mode_witness :
  fst (calc_size (Script.cfg_sized None (Script.sizing (Some "martingale") None))
         (Script.pred_buy (8 # 10)) (float_of_Z 100) (Script.bot0 Script.quiet []))
  = Raise (ValueError "Unknown position size mode").
Proof.
  rewrite (calc_size_unknown_mode
             (Script.cfg_sized None (Script.sizing (Some "martingale") None))
             (Script.pred_buy (8 # 10)) (float_of_Z 100)
             (Script.bot0 Script.quiet []) "martingale" eq_refl
             ltac:(discriminate) ltac:(discriminate)).
  reflexivity.
Defined.

Lemma calc_size_percent_failures_witness :
  fst (calc_size Script.cfg0 (Script.pred_buy (8 # 10)) (float_of_Z 100)
         (Script.bot0 Script.no_balance []))
  = Raise (GatewayError "timeout")
  /\ fst (calc_size Script.cfg0 (Script.pred_buy (8 # 10)) (S754_zero true)
            (Script.bot0 Script.quiet []))
     = Raise ZeroDivisionError.
Proof.
  split.
  - destruct (calc_size_percent_failures (E := Script.env) Script.cfg0
                (Script.pred_buy (8 # 10)) (float_of_Z 100)
                (Script.bot0 Script.no_balance []) eq_refl) as (Hfail & _).
    rewrite (Hfail (GatewayError "timeout") Script.no_balance eq_refl).
    reflexivity.
  - destruct (calc_size_percent_failures (E := Script.env) Script.cfg0
                (Script.pred_buy (8 # 10)) (S754_zero true)
                (Script.bot0 Script.quiet []) eq_refl) as (_ & Hzero).
    rewrite (Hzero (float_of_Z 100) Script.quiet eq_refl (ex_intro _ true eq_refl)).
    reflexivity.
Defined.

Lemma calc_size_min_order_witness :
  float_le_Q (fdiv (fmul (dec 1 6) (dec 1 2)) (float_of_Z 102)) (1 # 200000000)
  /\ exists size,
       fst (calc_size Script.cfg0 (Script.pred_buy (8 # 10)) (float_of_Z 102)
              (Script.bot0 Script.dust [])) = Ret size
       /\ float_le_int size 0 = true.
Proof.
  assert (Hdust : float_le_Q (fdiv (fmul (dec 1 6) (dec 1 2)) (float_of_Z 102))
                    (1 # 200000000))
    by (vm_compute; discriminate).
  split; [exact Hdust|].
  apply (calc_size_min_order (E := Script.env) Script.cfg0
           (Script.pred_buy (8 # 10)) (float_of_Z 102) (dec 1 6)
           Script.dust (Script.bot0 Script.dust []) eq_refl eq_refl eq_refl).
  vm_compute. discriminate.
Defined.

Lemma calc_limit_price_without_expectation_witness :
  fst (calc_limit_price Script.cfg0 Script.pred_hold "buy"
         (Script.bot0 Script.quiet []))
  = Ret (float_of_Z 100).
Proof.
  rewrite (calc_limit_price_without_expectation Script.cfg0 Script.pred_hold
             (VInt 100) (float_of_Z 100) "buy" (Script.bot0 Script.quiet [])
             eq_refl eq_refl (or_introl eq_refl)).
  vm_compute. reflexivity.
Defined.

Lemma process_prediction_fixed_nonpositive_witness :
  order_state
    (snd (process_prediction (Script.cfg_sized None (Script.sizing (Some "fixed") None))
            (Script.pred_buy (8 # 10)) (Script.bot0 Script.quiet Script.one_live)))
  = Script.one_live.
Proof.
  exact (proj2 (process_prediction_fixed_nonpositive
                  (Script.cfg_sized None (Script.sizing (Some "fixed") None))
                  (Script.pred_buy (8 # 10))
                  (Script.bot0 Script.quiet Script.one_live)
                  eq_refl eq_refl)).
Defined.

Lemma process_prediction_places_dry_witness :
  exists meta,
    Dict.get "dry_1700000000000"
      (order_state (snd (process_prediction Script.cfg0 (Script.pred_buy (8 # 10))
                           (Script.bot0 Script.quiet []))))
    = Some meta
    /\ Dict.get "side" meta = Some "buy"
    /\ Dict.get "state" meta = Some "live".
Proof.
  set (s := Script.bot0 Script.quiet []).
  set (pred := Script.pred_buy (8 # 10)).
  set (limit := dec 102102 3).
  set (size := dec 979413 8).
  assert (Hok : fst (should_trade Script.cfg0 pred s) = Ret true)
    by (vm_compute; reflexivity).
  assert (Hlimit : calc_limit_price Script.cfg0 pred "buy" s = (Ret limit, s))
    by (vm_compute; reflexivity).
  assert (Hsize : calc_size Script.cfg0 pred limit s
                  = (Ret size, snd (calc_size Script.cfg0 pred limit s)))
    by (vm_compute; reflexivity).
  assert (Hpos : float_le_int size 0 = false) by (vm_compute; reflexivity).
  assert (Hroom : (Z.of_nat (open_count (order_state s))
                   < self_max_open_positions Script.cfg0)%Z)
    by (vm_compute; reflexivity).
  assert (Hms : float_trunc (fmul (float_of_Q Script.t0) (float_of_Z 1000))
                = Some 1700000000000%Z)
    by (vm_compute; reflexivity).
  destruct (process_prediction_places_dry (E := Script.env) Script.cfg0 pred "buy"
              limit size Script.t0 1700000000000 Script.iso_t0 s
              (snd (calc_size Script.cfg0 pred limit s))
              {| Script.clock := []; Script.iso := [Script.iso_t0];
                 Script.predictions := []; Script.balance := Ret (float_of_Z 100);
                 Script.place_replies := []; Script.cancel_replies := [] |}
              {| Script.clock := []; Script.iso := [];
                 Script.predictions := []; Script.balance := Ret (float_of_Z 100);
                 Script.place_replies := []; Script.cancel_replies := [] |}
              eq_refl eq_refl (or_introl eq_refl) Hok Hlimit Hsize Hpos Hroom
              eq_refl Hms eq_refl) as (_ & _ & _ & Hget & _).
  eexists. split; [exact Hget|]. split; reflexivity.
Defined.

Lemma cancel_order_dry_marks_witness :
  exists m',
    Dict.get "dry_1"
      (order_state (snd (cancel_order Script.cfg0 "BTC-USDT" "dry_1"
                           (Script.bot0 Script.quiet Script.one_live))))
    = Some m'
    /\ Dict.get "state" m' = Some "canceled"
    /\ Dict.get "px" m' = Some "100.0".
Proof.
  destruct (cancel_order_dry_marks (E := Script.env) Script.cfg0 "BTC-USDT" "dry_1"
              (Script.bot0 Script.quiet Script.one_live) eq_refl)
    as (s' & Hrun & _ & _ & _ & Hrec).
  rewrite Hrun. cbn [snd].
  change (Dict.get "dry_1" (order_state (Script.bot0 Script.quiet Script.one_live)))
    with (Some (Script.live_meta "dry_1" Script.iso_t0)) in Hrec.
  destruct Hrec as (m' & Hget & Hstate & Hkeep).
  exists m'. split; [exact Hget|]. split; [exact Hstate|].
  rewrite (Hkeep "px" ltac:(discriminate)). reflexivity.
Defined.

Lemma cancel_order_live_reply_witness :
  Dict.get "dry_1"
    (order_state (snd (cancel_order Script.cfg_live "BTC-USDT" "dry_1"
                         (Script.bot0 Script.refusing Script.one_live))))
  = None.
Proof.
  assert (Hwf : Dict.wf Script.one_live).
  { repeat constructor. intros []. }
  destruct (cancel_order_live_reply (E := Script.env) Script.cfg_live "BTC-USDT"
              "dry_1" (Script.bot0 Script.refusing Script.one_live)
              Script.refusal
              {| Script.clock := [Script.t0]; Script.iso := [Script.iso_t0];
                 Script.predictions := []; Script.balance := Ret (float_of_Z 100);
                 Script.place_replies := []; Script.cancel_replies := [] |}
              eq_refl Hwf eq_refl) as (s' & Hrun & _ & Hgone & _).
  rewrite Hrun. apply Hgone.
  right. right. right. exists "dry_1". split; [reflexivity|discriminate].
Defined.

Lemma manage_orders_leaves_alone_witness :
  Dict.get "dry_1"
    (order_state (snd (manage_orders Script.cfg0
                         (Script.bot0 Script.at_timeout Script.one_live))))
  = Some (Script.live_meta "dry_1" Script.iso_t0).
Proof.
  assert (Hwf : Dict.wf Script.one_live).
  { repeat constructor. intros []. }
  assert (Hage : Script.t0 + inject_Z 120 - Script.t0 <= inject_Z 120)
    by (vm_compute; discriminate).
  assert (Hcase : Dict.get "state" (Script.live_meta "dry_1" Script.iso_t0)
                  <> Some "live"
                  \/ exists c created_ts,
                       Dict.get "created_at" (Script.live_meta "dry_1" Script.iso_t0)
                       = Some c
                       /\ Script.parse_iso (replace_Z c) = Some created_ts
                       /\ Script.t0 + inject_Z 120 - created_ts <= inject_Z 120).
  { right. exists Script.iso_t0, Script.t0.
    split; [reflexivity|]. split; [reflexivity|exact Hage]. }
  destruct (manage_orders_leaves_alone (E := Script.env) Script.cfg0
              (Script.bot0 Script.at_timeout Script.one_live)
              (Script.t0 + inject_Z 120)
              {| Script.clock := []; Script.iso := [Script.iso_t0];
                 Script.predictions := []; Script.balance := Ret (float_of_Z 100);
                 Script.place_replies := []; Script.cancel_replies := [] |}
              "dry_1" (Script.live_meta "dry_1" Script.iso_t0)
              Hwf eq_refl eq_refl Hcase)
    as (s' & evs & Hrun & _ & _ & Hget).
  rewrite Hrun. exact Hget.
Defined.

Lemma manage_orders_dry_keeps_keys_witness :
  Dict.keys (order_state (snd (manage_orders Script.cfg0
                                 (Script.bot0 Script.later Script.one_live))))
  = ["dry_1"].
Proof.
  rewrite (manage_orders_dry_keeps_keys (E := Script.env) Script.cfg0
             (Script.bot0 Script.later Script.one_live) eq_refl).
  reflexivity.
Defined.

Lemma run_once_fetch_failure_witness :
  order_state (snd (run_once Script.cfg0 (Script.bot0 Script.quiet Script.one_live)))
  = Script.one_live.
Proof.
  rewrite (run_once_fetch_failure (E := Script.env) Script.cfg0
             (Script.bot0 Script.quiet Script.one_live)
             (GatewayError "timeout") Script.quiet eq_refl).
  reflexivity.
Defined.

Lemma run_loop_stops_on_error_witness :
  fst (run_loop Script.cfg0 5 (Script.bot0 Script.bad_feed [])) = Ret tt
  /\ List.last (trace (snd (run_loop Script.cfg0 5 (Script.bot0 Script.bad_feed []))))
       EnterManageOrders
     = Log ERROR (MsgUnexpected (KeyError "current_price")).
Proof.
  set (s := Script.bot0 Script.bad_feed []).
  set (s0 := {| world := world s; order_state := order_state s;
                trace := (trace s ++ [Log INFO (MsgStarted (self_dry_run Script.cfg0))])%list |}).
  assert (Hraise : run_once Script.cfg0 s0
                   = (Raise (KeyError "current_price"), snd (run_once Script.cfg0 s0)))
    by reflexivity.
  rewrite (run_loop_stops_on_error (E := Script.env) Script.cfg0 4 s
             (snd (run_once Script.cfg0 s0)) (KeyError "current_price") Hraise).
  split; [reflexivity|]. cbn [snd trace]. apply last_last.
Defined.

(** * Properties of the exchange client *)

Lemma rstrip_slash_app (u : string) :
  Okx.rstrip_slash (u ++ "/") = Okx.rstrip_slash u.
Proof.
  induction u as [|c u IH]; [reflexivity|].
  cbn [append Okx.rstrip_slash]. rewrite IH. reflexivity.
Qed.

Lemma find_app_first {A : Type} (f : A -> bool) (l1 l2 : list A) :
  find f (l1 ++ l2)
  = match find f l1 with Some x => Some x | None => find f l2 end.
Proof.
  induction l1 as [|x l1 IH]; [reflexivity|].
  cbn [app find]. destruct (f x); [reflexivity|exact IH].
Qed.

Section Client.
Context {H : Okx.Http}.

(** X19.  A trailing slash of the base URL does not matter: the client built
    from [url ++ "/"] is the client built from [url], so both send every
    request to the same address. *)
Theorem init_strips_trailing_slash (key secret pass url : string) :
  Okx.init key secret pass (url ++ "/") = Okx.init key secret pass url.
Proof.
  unfold Okx.init. rewrite rstrip_slash_app. reflexivity.
Qed.

Lemma scan_details_find (currency : string) (ds : list (Dict.t Okx.json)) :
  Okx.scan_details currency (map Okx.JObj ds)
  = match find (Okx.has_ccy currency) ds with
    | Some d =>
        Okx.obind (Okx.py_float (get_or (Dict.get "availBal" d) (Okx.JNum 0)))
                  (fun q => Okx.Ok (Some q))
    | None => Okx.Ok None
    end.
Proof.
  induction ds as [|d ds IH]; [reflexivity|].
  cbn [map Okx.scan_details find Okx.py_get Okx.obind].
  unfold Okx.has_ccy at 1.
  destruct (Okx.py_eq_str (get_or (Dict.get "ccy" d) Okx.JNull) currency);
    [reflexivity|exact IH].
Qed.

Lemma scan_items_find (currency : string) (items : list Okx.json)
  (dss : list (list (Dict.t Okx.json))) :
  Forall2 Okx.item_details items dss ->
  Okx.scan_items currency items
  = match find (Okx.has_ccy currency) (List.concat dss) with
    | Some d =>
        Okx.obind (Okx.py_float (get_or (Dict.get "availBal" d) (Okx.JNum 0)))
                  (fun q => Okx.Ok (Some q))
    | None => Okx.Ok None
    end.
Proof.
  induction 1 as [|item ds items dss (fields & -> & Hd) _ IH]; [reflexivity|].
  cbn [Okx.scan_items Okx.py_get Okx.obind List.concat]. rewrite Hd.
  cbn [get_or Okx.py_iter Okx.obind]. rewrite scan_details_find.
  rewrite find_app_first.
  destruct (find (Okx.has_ccy currency) ds) as [d|].
  - destruct (Okx.py_float (get_or (Dict.get "availBal" d) (Okx.JNum 0)));
      reflexivity.
  - cbn [Okx.obind]. exact IH.
Qed.





End Client.




